(** * GoHighLevel MCP server: the protocol and transport core

    A shallow embedding of the two server entry points of the repository:

    - the hand-written JSON-RPC dispatcher, the GenAI bridge and the SSE
      endpoint of the serverless handler (constants [TOOLS], functions
      [createJsonRpcResponse], [handleToolsCall], [processJsonRpcMessage],
      [executeToolLogic], [sendSSE] and the exported request handler);
    - the tool router of [src/server.ts] (the [CallToolRequestSchema]
      handler and its [isXTool] name tables).

    JavaScript values are an inductive type, abrupt completions are an
    error monad, the response object of a connection is the list of calls
    issued on it, and the timers of a connection are an explicit queue
    driven by an event script. *)

From Stdlib Require Import String Ascii List Bool Arith NArith ZArith Lia.
From Stdlib Require Import DecimalString.
Import ListNotations.
Local Open Scope list_scope.
Local Open Scope string_scope.
Set Warnings "-register-all".

(** ** JavaScript values *)

Module JS.

(** A value decoded by [JSON.parse] or built by an object literal.  A number is
    carried by the text [Number.prototype.toString] gives for it: the program
    never computes with a decoded number, it only interpolates it into text and
    tests its truthiness.  An object lists its own properties in property
    order, one binding per key. *)
Inductive Val : Type :=
| VUndefined
| VNull
| VBool (b : bool)
| VNum (repr : string)
| VStr (s : string)
| VArr (items : list Val)
| VObj (props : list (string * Val)).

(** Exceptions.  The texts of the engine's own [TypeError]s are V8's. *)
Inductive Exn : Type :=
| TypeError (msg : string)
| SyntaxError (msg : string)
| Error (msg : string).

Definition message (e : Exn) : string :=
  match e with TypeError m | SyntaxError m | Error m => m end.

(** The [name] an exception object inherits from its prototype. *)
Definition error_name (e : Exn) : string :=
  match e with
  | TypeError _ => "TypeError"
  | SyntaxError _ => "SyntaxError"
  | Error _ => "Error"
  end.

(** [Error.prototype.toString] on an object whose [name] and [message] are
    these strings: an empty name gives the message alone, an empty message the
    name alone. *)
Definition error_toString (name message : string) : string :=
  if String.eqb name EmptyString then message
  else if String.eqb message EmptyString then name
  else name ++ ": " ++ message.

(** [`${error}`] for an exception object. *)
Definition describe (e : Exn) : string :=
  error_toString (error_name e) (message e).

(** A completion: a value, or an exception on its way to the nearest [catch]. *)
Inductive Completion (A : Type) : Type :=
| Return (a : A)
| Throw (e : Exn).
Arguments Return {A} a.
Arguments Throw {A} e.

Definition bind {A B} (c : Completion A) (k : A -> Completion B) : Completion B :=
  match c with
  | Return a => k a
  | Throw e => Throw e
  end.

(** [try { c } catch (error) { h error }] *)
Definition try_catch {A} (c : Completion A) (h : Exn -> Completion A) : Completion A :=
  match c with
  | Return a => Return a
  | Throw e => h e
  end.

Definition nl : string := String (ascii_of_nat 10) EmptyString.
Definition dquote : string := String (ascii_of_nat 34) EmptyString.

Definition nullish (v : Val) : bool :=
  match v with VUndefined | VNull => true | _ => false end.

(** ToBoolean *)
Definition truthy (v : Val) : bool :=
  match v with
  | VUndefined | VNull => false
  | VBool b => b
  | VNum r => negb (String.eqb r "0" || String.eqb r "NaN")
  | VStr s => negb (String.eqb s EmptyString)
  | VArr _ | VObj _ => true
  end.

(** [v === "lit"] against a string literal *)
Definition is_str (v : Val) (lit : string) : bool :=
  match v with VStr s => String.eqb s lit | _ => false end.

Fixpoint lookup (k : string) (props : list (string * Val)) : option Val :=
  match props with
  | [] => None
  | (k', v) :: rest => if String.eqb k k' then Some v else lookup k rest
  end.

Definition has_own (k : string) (props : list (string * Val)) : bool :=
  match lookup k props with Some _ => true | None => false end.

(** ToString of a primitive, as the engine prints it inside its messages *)
Definition show_prim (v : Val) : string :=
  match v with
  | VUndefined => "undefined"
  | VNull => "null"
  | VBool true => "true"
  | VBool false => "false"
  | VNum r => r
  | VStr s => s
  | VArr _ | VObj _ => EmptyString
  end.

(** [v.k] for the keys this program reads ([jsonrpc], [method], [id],
    [params], [name], [arguments], [query], [type], [parameters]): none of
    them is a property of [Object.prototype], [Array.prototype] or of a
    primitive wrapper, so the read misses on everything but an own property
    of an object.  Reading a property of [null] or [undefined] throws. *)
Definition get_prop (v : Val) (k : string) : Completion Val :=
  match v with
  | VUndefined | VNull =>
      Throw (TypeError ("Cannot read properties of " ++ show_prim v
                        ++ " (reading '" ++ k ++ "')"))
  | VObj props => Return (match lookup k props with Some x => x | None => VUndefined end)
  | _ => Return VUndefined
  end.

Definition index_key (i : nat) : string := NilEmpty.string_of_uint (Nat.to_uint i).

(** Own property keys in property order: [Object.keys] on a non-null value *)
Definition own_keys (v : Val) : list string :=
  match v with
  | VObj props => map fst props
  | VArr items => map index_key (seq 0 (length items))
  | VStr s => map index_key (seq 0 (String.length s))
  | _ => []
  end.

(** [k in v], for the same keys as [get_prop] (the required parameter names
    [query], [id], [type]): an own property of an object, an index or
    [length] of an array; a primitive on the right throws. *)
Definition has_property (k : string) (v : Val) : Completion bool :=
  match v with
  | VObj props => Return (has_own k props)
  | VArr items => Return (String.eqb k "length" || existsb (String.eqb k) (own_keys v))
  | _ => Throw (TypeError ("Cannot use 'in' operator to search for '" ++ k
                           ++ "' in " ++ show_prim v))
  end.

Definition join (sep : string) (parts : list string) : string :=
  String.concat sep parts.

(** ToString, as a template literal applies it to a substitution.  An object
    from [JSON.parse] carries no callable property: with an own [toString] the
    conversion finds nothing to call that yields a primitive and throws,
    without one it reaches [Object.prototype.toString].  An array goes through
    [Array.prototype.join], which prints [null] and [undefined] as empty. *)
Fixpoint to_string (v : Val) : Completion string :=
  match v with
  | VArr items =>
      let fix each (l : list Val) : Completion (list string) :=
        match l with
        | [] => Return []
        | x :: rest =>
            bind (if nullish x then Return EmptyString else to_string x) (fun s =>
            bind (each rest) (fun ss => Return (s :: ss)))
        end in
      bind (each items) (fun ss => Return (join "," ss))
  | VObj props =>
      if has_own "toString" props
      then Throw (TypeError "Cannot convert object to primitive value")
      else Return "[object Object]"
  | _ => Return (show_prim v)
  end.

End JS.

Import JS.

Declare Scope js_scope.
Notation "x <- c ;; k" := (bind c (fun x => k))
  (at level 61, c at next level, right associativity) : js_scope.
Local Open Scope js_scope.

(** ** The serverless handler: registry, dispatcher and tool logic *)

Module Mcp.

Definition MCP_PROTOCOL_VERSION : string := "2024-11-05".

Definition SERVER_INFO : Val :=
  VObj [("name", VStr "ghl-mcp-server"); ("version", VStr "1.0.0")].

Record Schema : Type := {
  properties : list (string * Val);
  required : list string
}.

Record Tool : Type := {
  name : string;
  description : string;
  inputSchema : Schema
}.

Definition TOOLS : list Tool :=
  [ {| name := "search";
       description := "Search for information in GoHighLevel CRM system";
       inputSchema := {|
         properties :=
           [("query", VObj [("type", VStr "string");
                            ("description", VStr "Search query for GoHighLevel data")])];
         required := ["query"] |} |};
    {| name := "retrieve";
       description := "Retrieve specific data from GoHighLevel";
       inputSchema := {|
         properties :=
           [("id", VObj [("type", VStr "string");
                         ("description", VStr "ID of the item to retrieve")]);
            ("type", VObj [("type", VStr "string");
                           ("enum", VArr [VStr "contact"; VStr "conversation"; VStr "blog"]);
                           ("description", VStr "Type of item to retrieve")])];
         required := ["id"; "type"] |} |} ].

Definition schema_val (s : Schema) : Val :=
  VObj [("type", VStr "object");
        ("properties", VObj (properties s));
        ("required", VArr (map VStr (required s)))].

Definition tool_val (t : Tool) : Val :=
  VObj [("name", VStr (name t));
        ("description", VStr (description t));
        ("inputSchema", schema_val (inputSchema t))].

(** [TOOLS.find(t => t.name === toolName)] *)
Definition find_tool (toolName : string) : option Tool :=
  find (fun t => String.eqb (name t) toolName) TOOLS.

(** [createJsonRpcResponse(id, result = null, error = null)] *)
Definition createJsonRpcResponse (id result error : Val) : Val :=
  if truthy error
  then VObj [("jsonrpc", VStr "2.0"); ("id", id); ("error", error)]
  else VObj [("jsonrpc", VStr "2.0"); ("id", id); ("result", result)].

(** [createJsonRpcNotification(method, params = {})] *)
Definition createJsonRpcNotification (method : string) (params : Val) : Val :=
  VObj [("jsonrpc", VStr "2.0"); ("method", VStr method); ("params", params)].

Definition rpc_error (code : string) (msg : string) : Val :=
  VObj [("code", VNum code); ("message", VStr msg)].

(** The calls to [log] only print; of each call the model keeps the property
    reads made to build its arguments, since those can throw. *)

Definition handleInitialize (request : Val) : Completion Val :=
  _ <- get_prop request "params" ;;
  id <- get_prop request "id" ;;
  Return (createJsonRpcResponse id
            (VObj [("protocolVersion", VStr MCP_PROTOCOL_VERSION);
                   ("capabilities", VObj [("tools", VObj [])]);
                   ("serverInfo", SERVER_INFO)])
            VNull).

Definition handleToolsList (request : Val) : Completion Val :=
  id <- get_prop request "id" ;;
  Return (createJsonRpcResponse id (VObj [("tools", VArr (map tool_val TOOLS))]) VNull).

(** [const { name, arguments: args } = request.params] *)
Definition destructure_call (params : Val) : Completion (Val * Val) :=
  if nullish params
  then Throw (TypeError ("Cannot destructure property 'name' of 'request.params' as it is "
                         ++ show_prim params ++ "."))
  else
    n <- get_prop params "name" ;;
    a <- get_prop params "arguments" ;;
    Return (n, a).

Definition text_content (text : string) : Val :=
  VObj [("content", VArr [VObj [("type", VStr "text"); ("text", VStr text)]])].

(** [now] is what [new Date().toISOString()] reads when the [retrieve]
    template reaches it. *)
Definition handleToolsCall (now : string) (request : Val) : Completion Val :=
  params <- get_prop request "params" ;;
  na <- destructure_call params ;;
  let '(name, args) := na in
  if is_str name "search" then
    q <- get_prop args "query" ;;
    qs <- to_string q ;;
    let text := "GoHighLevel Search Results for: " ++ dquote ++ qs ++ dquote ++ nl ++ nl
      ++ "✅ Found Results:" ++ nl
      ++ "• Contact: John Doe (john@example.com)" ++ nl
      ++ "• Contact: Jane Smith (jane@example.com)" ++ nl
      ++ "• Conversation: " ++ dquote ++ "Follow-up call scheduled" ++ dquote ++ nl
      ++ "• Blog Post: " ++ dquote ++ "How to Generate More Leads" ++ dquote ++ nl ++ nl
      ++ "📊 Search completed successfully in GoHighLevel CRM." in
    id <- get_prop request "id" ;;
    Return (createJsonRpcResponse id (text_content text) VNull)
  else if is_str name "retrieve" then
    t1 <- get_prop args "type" ;;
    ts1 <- to_string t1 ;;
    i <- get_prop args "id" ;;
    ids <- to_string i ;;
    t2 <- get_prop args "type" ;;
    ts2 <- to_string t2 ;;
    let text := "GoHighLevel " ++ ts1 ++ " Retrieved: ID " ++ ids ++ nl ++ nl
      ++ "📄 Details:" ++ nl
      ++ "• Name: Sample " ++ ts2 ++ nl
      ++ "• Status: Active" ++ nl
      ++ "• Last Updated: " ++ now ++ nl
      ++ "• Source: GoHighLevel CRM" ++ nl ++ nl
      ++ "✅ Data retrieved successfully from GoHighLevel." in
    id <- get_prop request "id" ;;
    Return (createJsonRpcResponse id (text_content text) VNull)
  else
    id <- get_prop request "id" ;;
    ns <- to_string name ;;
    Return (createJsonRpcResponse id VNull (rpc_error "-32601" ("Method not found: " ++ ns))).

Definition handlePing (request : Val) : Completion Val :=
  id <- get_prop request "id" ;;
  Return (createJsonRpcResponse id (VObj []) VNull).

(** The [try] block of [processJsonRpcMessage]. *)
Definition process_try (now : string) (message : Val) : Completion Val :=
  _ <- get_prop message "method" ;;
  _ <- get_prop message "id" ;;
  v <- get_prop message "jsonrpc" ;;
  if negb (is_str v "2.0") then
    id <- get_prop message "id" ;;
    Return (createJsonRpcResponse id VNull
              (rpc_error "-32600" "Invalid Request: jsonrpc must be '2.0'"))
  else
    m <- get_prop message "method" ;;
    if is_str m "initialize" then handleInitialize message
    else if is_str m "tools/list" then handleToolsList message
    else if is_str m "tools/call" then handleToolsCall now message
    else if is_str m "ping" then handlePing message
    else
      id <- get_prop message "id" ;;
      ms <- to_string m ;;
      Return (createJsonRpcResponse id VNull
                (rpc_error "-32601" ("Method not found: " ++ ms))).

(** Its [catch] block. *)
Definition process_catch (message : Val) (error : Exn) : Completion Val :=
  id <- get_prop message "id" ;;
  Return (createJsonRpcResponse id VNull
            (VObj [("code", VNum "-32603");
                   ("message", VStr "Internal error");
                   ("data", VStr (JS.message error))])).

Definition processJsonRpcMessage (now : string) (message : Val) : Completion Val :=
  try_catch (process_try now message) (process_catch message).

(** [executeToolLogic(toolName, parameters)] *)
Definition executeToolLogic (now : string) (toolName : string) (parameters : Val)
  : Completion string :=
  if String.eqb toolName "search" then
    q <- get_prop parameters "query" ;;
    qs <- to_string q ;;
    Return ("GoHighLevel Search Results for: " ++ dquote ++ qs ++ dquote ++ nl ++ nl
      ++ "✅ Found Results:" ++ nl
      ++ "• Contact: John Doe (john@example.com)" ++ nl
      ++ "• Contact: Jane Smith (jane@example.com)" ++ nl
      ++ "• Conversation: " ++ dquote ++ "Follow-up call scheduled" ++ dquote ++ nl
      ++ "• Blog Post: " ++ dquote ++ "How to Generate More Leads" ++ dquote ++ nl ++ nl
      ++ "📊 Search completed successfully in GoHighLevel CRM.")
  else if String.eqb toolName "retrieve" then
    t1 <- get_prop parameters "type" ;;
    ts1 <- to_string t1 ;;
    i <- get_prop parameters "id" ;;
    ids <- to_string i ;;
    t2 <- get_prop parameters "type" ;;
    ts2 <- to_string t2 ;;
    Return ("GoHighLevel " ++ ts1 ++ " Retrieved: ID " ++ ids ++ nl ++ nl
      ++ "📄 Details:" ++ nl
      ++ "• Name: Sample " ++ ts2 ++ nl
      ++ "• Status: Active" ++ nl
      ++ "• Last Updated: " ++ now ++ nl
      ++ "• Source: GoHighLevel CRM" ++ nl ++ nl
      ++ "✅ Data retrieved successfully from GoHighLevel.")
  else
    Throw (Error ("Tool '" ++ toolName ++ "' execution not implemented")).

(** *** The response object and the timers of one connection *)

(** The text handed to [res.write].  [JSON.stringify] is kept symbolic:
    [Json v] stands for the serialisation of [v]. *)
Inductive Payload : Type :=
| Text (s : string)
| Json (v : Val).

Inductive Chunk : Type :=
| SseData (message : Payload)   (* [`data: ${message}\n\n`] *)
| Raw (text : string).

(** A call issued on [res]. *)
Inductive Call : Type :=
| setHeader (key value : string)
| status (code : nat)
| json (body : Val)
| writeHead (code : nat) (headers : list (string * string))
| write (chunk : Chunk)
| end_.

(** The callbacks handed to [setTimeout] and [setInterval]; the deadline
    callback closes over the heartbeat handle. *)
Inductive Callback : Type :=
| PushToolsChanged
| PushHeartbeat
| Deadline (heartbeat : nat)
| EndResponse.

Record Timer : Type := {
  handle : nat;
  due : N;
  period : option N;
  callback : Callback
}.

(** The listeners the handler leaves on [req]. *)
Inductive Listeners : Type :=
| NoListeners
| GenAIBody (toolName : string)
| SseStream (heartbeat : nat)
| SsePostBody.

Record Conn : Type := {
  clock : N;                         (* milliseconds since the request arrived *)
  calls : list Call;                 (* issued on [res], oldest first *)
  timers : list Timer;               (* armed timers *)
  fresh : nat;                       (* next timer handle *)
  listeners : Listeners;
  body : string;                     (* the [body] accumulator *)
  body_ended : bool;                 (* [req] has emitted 'end' *)
  invoked : list (string * Val)      (* calls of [executeToolLogic], oldest first *)
}.

Record Request : Type := {
  method : string;
  url : string
}.

(** What reaches a connection after the handler has returned.  A timer runs
    no earlier than it is due: [Elapse] moves the clock, [Tick] lets the event
    loop run the earliest timer that is due, if there is one. *)
Inductive Event : Type :=
| Elapse (ms : N)
| Tick
| Data (chunk : string)
| EndOfBody
| Close
| Fault (msg : string).

Definition issue (c : Conn) (cs : list Call) : Conn :=
  {| clock := clock c; calls := (calls c ++ cs)%list; timers := timers c;
     fresh := fresh c; listeners := listeners c; body := body c;
     body_ended := body_ended c; invoked := invoked c |}.

Definition arm (c : Conn) (delay : N) (repeat : bool) (cb : Callback) : Conn :=
  {| clock := clock c; calls := calls c;
     timers := (timers c ++ [{| handle := fresh c; due := clock c + delay;
                                period := if repeat then Some delay else None;
                                callback := cb |}])%list;
     fresh := S (fresh c); listeners := listeners c; body := body c;
     body_ended := body_ended c; invoked := invoked c |}.

Definition setTimeout (c : Conn) (cb : Callback) (delay : N) : Conn := arm c delay false cb.
Definition setInterval (c : Conn) (cb : Callback) (delay : N) : Conn := arm c delay true cb.

Definition with_timers (c : Conn) (ts : list Timer) : Conn :=
  {| clock := clock c; calls := calls c; timers := ts;
     fresh := fresh c; listeners := listeners c; body := body c;
     body_ended := body_ended c; invoked := invoked c |}.

Definition clearInterval (c : Conn) (h : nat) : Conn :=
  with_timers c (filter (fun t => negb (Nat.eqb (handle t) h)) (timers c)).

Definition listen (c : Conn) (l : Listeners) : Conn :=
  {| clock := clock c; calls := calls c; timers := timers c;
     fresh := fresh c; listeners := l; body := body c;
     body_ended := body_ended c; invoked := invoked c |}.

(** [sendSSE(res, data)]: a failing write is caught and logged. *)
Definition sse_frame (data : Val) : Call :=
  write (SseData (match data with VStr s => Text s | _ => Json data end)).

Definition sendSSE (c : Conn) (data : Val) : Conn := issue c [sse_frame data].

Definition heartbeat_chunk : Call := write (Raw (": heartbeat" ++ nl ++ nl)).

(** The calls of [setCORSHeaders(res)]. *)
Definition setCORSHeaders : list Call :=
  [ setHeader "Access-Control-Allow-Origin" "*";
    setHeader "Access-Control-Allow-Methods" "GET, POST, OPTIONS";
    setHeader "Access-Control-Allow-Headers" "Content-Type, Accept, Authorization";
    setHeader "Access-Control-Max-Age" "86400" ].

Definition sse_headers : list (string * string) :=
  [ ("Content-Type", "text/event-stream");
    ("Cache-Control", "no-cache");
    ("Connection", "keep-alive");
    ("Access-Control-Allow-Origin", "*");
    ("Access-Control-Allow-Headers", "Content-Type, Accept");
    ("Access-Control-Allow-Methods", "GET, POST, OPTIONS") ].

Definition includes (s sub : string) : bool :=
  match index 0 sub s with Some _ => true | None => false end.

Definition genai_prefix : string := "/api/genai/tools/".

(** [url.split(sep)[1]] for a [url] that starts with [sep] *)
Definition split_second (sep url : string) : string :=
  let rest := substring (String.length sep) (String.length url - String.length sep) url in
  match index 0 sep rest with
  | Some k => substring 0 k rest
  | None => rest
  end.

(** The earliest armed timer that is due; among equals the older handle. *)
Definition earlier (a b : Timer) : bool :=
  (due a <? due b)%N || ((due a =? due b)%N && Nat.leb (handle a) (handle b)).

Fixpoint earliest (ts : list Timer) : option Timer :=
  match ts with
  | [] => None
  | t :: rest =>
      match earliest rest with
      | Some u => Some (if earlier t u then t else u)
      | None => Some t
      end
  end.

Definition next_due (c : Conn) : option Timer :=
  earliest (filter (fun t => (due t <=? clock c)%N) (timers c)).

Definition toolsNotification : Val :=
  createJsonRpcNotification "notification/tools/list_changed" (VObj []).

Definition initNotification : Val :=
  createJsonRpcNotification "notification/initialized" (VObj []).

Definition run_callback (c : Conn) (cb : Callback) : Conn :=
  match cb with
  | PushToolsChanged => sendSSE c toolsNotification
  | PushHeartbeat => issue c [heartbeat_chunk]
  | Deadline hb => issue (clearInterval c hb) [end_]
  | EndResponse => issue c [end_]
  end.

(** A one-shot timer leaves the queue when it runs, an interval is armed
    again one period later. *)
Definition fire (c : Conn) (t : Timer) : Conn :=
  let others := filter (fun u => negb (Nat.eqb (handle u) (handle t))) (timers c) in
  let queue :=
    match period t with
    | Some p => (others ++ [{| handle := handle t; due := clock c + p;
                               period := Some p; callback := callback t |}])%list
    | None => others
    end in
  run_callback (with_timers c queue) (callback t).

Definition tool_names : Val := VArr (map (fun t => VStr (name t)) TOOLS).

Definition not_found_body : Val :=
  VObj [("error", VStr "Not found");
        ("available_endpoints",
         VObj [("health", VStr "/"); ("mcp_sse", VStr "/sse");
               ("genai_tools", VStr "/api/genai/tools");
               ("genai_execute", VStr "/api/genai/tools/{toolName}")])].

Section Runtime.

(** The runtime's [JSON.parse] and the rendering of the wall clock,
    [new Date().toISOString()], at a given instant of the connection.  A
    listener runs at one instant: the readings it takes coincide. *)
Variable JSON_parse : string -> Completion Val.
Variable toISOString : N -> string.

Definition metadata (toolName : string) (now : string) (more : list (string * Val)) : Val :=
  VObj ([("tool", VStr toolName); ("timestamp", VStr now)] ++ more)%list.

(** [requiredParams.filter(param => !(param in parameters))] *)
Fixpoint missing_params (requiredParams : list string) (parameters : Val)
  : Completion (list string) :=
  match requiredParams with
  | [] => Return []
  | param :: rest =>
      present <- has_property param parameters ;;
      others <- missing_params rest parameters ;;
      Return (if negb present then param :: others else others)
  end.

(** [requestData.parameters || {}] *)
Definition parameters_of (requestData : Val) : Completion Val :=
  p <- get_prop requestData "parameters" ;;
  Return (if truthy p then p else VObj []).

(** The 'end' listener of the GenAI execution endpoint: the calls it issues
    on [res] and the calls of [executeToolLogic] it makes. *)
Definition genai_on_end (now : string) (toolName : string) (body : string)
  : list Call * list (string * Val) :=
  match
    (requestData <- JSON_parse body ;;
     parameters <- parameters_of requestData ;;
     match find_tool toolName with
     | None =>
         Return ([status 404;
                  json (VObj [("success", VBool false);
                              ("error", VStr ("Tool '" ++ toolName ++ "' not found"));
                              ("available_tools", tool_names);
                              ("metadata", metadata toolName now [])])], [])
     | Some tool =>
         let requiredParams := required (inputSchema tool) in
         missingParams <- missing_params requiredParams parameters ;;
         if Nat.ltb 0 (length missingParams) then
           Return ([status 400;
                    json (VObj [("success", VBool false);
                                ("error", VStr ("Missing required parameters: "
                                                ++ join ", " missingParams));
                                ("required_parameters", VArr (map VStr requiredParams));
                                ("provided_parameters", VArr (map VStr (own_keys parameters)));
                                ("metadata", metadata toolName now [])])], [])
         else
           match executeToolLogic now toolName parameters with
           | Return result =>
               Return ([status 200;
                        json (VObj [("success", VBool true);
                                    ("result", VStr result);
                                    ("metadata",
                                     metadata toolName now
                                       [("parameters", parameters);
                                        ("execution_time", VStr now)])])],
                       [(toolName, parameters)])
           | Throw toolError =>
               Return ([status 500;
                        json (VObj [("success", VBool false);
                                    ("error", VStr (JS.message toolError));
                                    ("metadata",
                                     metadata toolName now [("parameters", parameters)])])],
                       [(toolName, parameters)])
           end
     end)
  with
  | Return r => r
  | Throw error =>
      ([status 400;
        json (VObj [("success", VBool false);
                    ("error", VStr "Invalid JSON in request body");
                    ("details", VStr (JS.message error));
                    ("metadata", metadata toolName now [])])], [])
  end.

Definition parse_error_response : Val :=
  createJsonRpcResponse VNull VNull (rpc_error "-32700" "Parse error").

(** The 'end' listener of POST /sse. *)
Definition sse_post_on_end (c : Conn) : Conn :=
  match (message <- JSON_parse (body c) ;;
         processJsonRpcMessage (toISOString (clock c)) message) with
  | Return response => setTimeout (sendSSE c response) EndResponse 100
  | Throw _ => issue (sendSSE c parse_error_response) [end_]
  end.

Definition end_of_body (c : Conn) : Conn :=
  {| clock := clock c; calls := calls c; timers := timers c;
     fresh := fresh c; listeners := listeners c; body := body c;
     body_ended := true; invoked := invoked c |}.

Definition append_body (c : Conn) (chunk : string) : Conn :=
  {| clock := clock c; calls := calls c; timers := timers c;
     fresh := fresh c; listeners := listeners c; body := body c ++ chunk;
     body_ended := body_ended c; invoked := invoked c |}.

Definition record_invoked (c : Conn) (l : list (string * Val)) : Conn :=
  {| clock := clock c; calls := calls c; timers := timers c;
     fresh := fresh c; listeners := listeners c; body := body c;
     body_ended := body_ended c; invoked := (invoked c ++ l)%list |}.

(** The exported request handler, up to its [return]. *)
Definition handler (req : Request) : Conn :=
  let c0 := {| clock := 0; calls := setCORSHeaders; timers := []; fresh := 0;
               listeners := NoListeners; body := EmptyString; body_ended := false;
               invoked := [] |} in
  let timestamp := toISOString 0 in
  if String.eqb (method req) "OPTIONS" then issue c0 [status 200; end_]
  else if String.eqb (url req) "/health" || String.eqb (url req) "/" then
    issue c0 [status 200;
              json (VObj [("status", VStr "healthy");
                          ("server", VStr "ghl-mcp-server");
                          ("version", VStr "1.0.0");
                          ("protocol", VStr MCP_PROTOCOL_VERSION);
                          ("timestamp", VStr timestamp);
                          ("tools", tool_names);
                          ("endpoints",
                           VObj [("mcp", VStr "/sse");
                                 ("genai_tools", VStr "/api/genai/tools");
                                 ("genai_execute", VStr "/api/genai/tools/{toolName}")])])]
  else if includes (url req) "favicon" then issue c0 [status 404; end_]
  else if String.eqb (url req) "/api/genai/tools" && String.eqb (method req) "GET" then
    issue c0 [status 200;
              json (VObj [("tools",
                           VArr (map (fun tool =>
                                        VObj [("name", VStr (name tool));
                                              ("description", VStr (description tool));
                                              ("parameters", schema_val (inputSchema tool))])
                                     TOOLS))])]
  else if prefix genai_prefix (url req) && String.eqb (method req) "POST" then
    listen c0 (GenAIBody (split_second genai_prefix (url req)))
  else if String.eqb (url req) "/sse" then
    let c1 := issue c0 [writeHead 200 sse_headers] in
    if String.eqb (method req) "GET" then
      let c2 := sendSSE c1 initNotification in
      let c3 := setTimeout c2 PushToolsChanged 100 in
      let heartbeat := fresh c3 in
      let c4 := setInterval c3 PushHeartbeat 25000 in
      let c5 := listen c4 (SseStream heartbeat) in
      setTimeout c5 (Deadline heartbeat) 50000
    else if String.eqb (method req) "POST" then listen c1 SsePostBody
    else issue c1 [status 404; json not_found_body]
  else issue c0 [status 404; json not_found_body].

(** One event on a connection.  A request stream emits 'end' once and no
    'data' after it. *)
Definition step (c : Conn) (e : Event) : Conn :=
  match e with
  | Elapse ms => {| clock := clock c + ms; calls := calls c; timers := timers c;
                    fresh := fresh c; listeners := listeners c; body := body c;
                    body_ended := body_ended c; invoked := invoked c |}
  | Tick => match next_due c with Some t => fire c t | None => c end
  | Data chunk =>
      if body_ended c then c else
      match listeners c with
      | GenAIBody _ | SsePostBody => append_body c chunk
      | _ => c
      end
  | EndOfBody =>
      if body_ended c then c else
      match listeners c with
      | GenAIBody toolName =>
          let '(cs, inv) := genai_on_end (toISOString (clock c)) toolName (body c) in
          record_invoked (issue (end_of_body c) cs) inv
      | SsePostBody => sse_post_on_end (end_of_body c)
      | _ => end_of_body c
      end
  | Close | Fault _ =>
      match listeners c with
      | SseStream heartbeat => clearInterval c heartbeat
      | _ => c
      end
  end.

Definition run (c : Conn) (script : list Event) : Conn := fold_left step script c.

End Runtime.

End Mcp.

(** ** The SDK-based server: routing of a tool call *)

Module Sdk.

(** The SDK's [ErrorCode] enumeration, as far as the server uses it. *)
Inductive ErrorCode : Type :=
| ParseError
| InvalidRequest
| MethodNotFound
| InternalError.

(** Modelled from the spec: the numeric values of the SDK's [ErrorCode]
    constants, which are declared outside the repository; the spec gives
    -32600 invalid request, -32601 method or tool not found, -32700 parse
    error and -32603 internal error. *)
Definition code_number (c : ErrorCode) : Z :=
  match c with
  | ParseError => -32700
  | InvalidRequest => -32600
  | MethodNotFound => -32601
  | InternalError => -32603
  end.

(** The handler groups, one field of the server class each. *)
Inductive Group : Type :=
| contactTools
| conversationTools
| blogTools
| opportunityTools
| calendarTools
| emailTools
| locationTools
| emailISVTools
| socialMediaTools
| mediaTools
| objectTools
| associationTools
| customFieldV2Tools
| workflowTools
| surveyTools
| storeTools
| productsTools
| paymentsTools
| invoicesTools.

Definition contactToolNames : list string :=
  ["create_contact"; "search_contacts"; "get_contact"; "update_contact";
   "add_contact_tags"; "remove_contact_tags"; "delete_contact"; "get_contact_tasks";
   "create_contact_task"; "get_contact_task"; "update_contact_task";
   "delete_contact_task"; "update_task_completion"; "get_contact_notes";
   "create_contact_note"; "get_contact_note"; "update_contact_note";
   "delete_contact_note"; "upsert_contact"; "get_duplicate_contact";
   "get_contacts_by_business"; "get_contact_appointments"; "bulk_update_contact_tags";
   "bulk_update_contact_business"; "add_contact_followers"; "remove_contact_followers";
   "add_contact_to_campaign"; "remove_contact_from_campaign";
   "remove_contact_from_all_campaigns"; "add_contact_to_workflow";
   "remove_contact_from_workflow" ].

Definition conversationToolNames : list string :=
  ["send_sms"; "send_email"; "search_conversations"; "get_conversation";
   "create_conversation"; "update_conversation"; "delete_conversation";
   "get_recent_messages"; "get_email_message"; "get_message";
   "upload_message_attachments"; "update_message_status"; "add_inbound_message";
   "add_outbound_call"; "get_message_recording"; "get_message_transcription";
   "download_transcription"; "cancel_scheduled_message"; "cancel_scheduled_email";
   "live_chat_typing" ].

Definition blogToolNames : list string :=
  ["create_blog_post"; "update_blog_post"; "get_blog_posts"; "get_blog_sites";
   "get_blog_authors"; "get_blog_categories"; "check_url_slug" ].

Definition opportunityToolNames : list string :=
  ["search_opportunities"; "get_pipelines"; "get_opportunity"; "create_opportunity";
   "update_opportunity_status"; "delete_opportunity"; "update_opportunity";
   "upsert_opportunity"; "add_opportunity_followers"; "remove_opportunity_followers" ].

Definition calendarToolNames : list string :=
  ["get_calendar_groups"; "get_calendars"; "create_calendar"; "get_calendar";
   "update_calendar"; "delete_calendar"; "get_calendar_events"; "get_free_slots";
   "create_appointment"; "get_appointment"; "update_appointment"; "delete_appointment";
   "create_block_slot"; "update_block_slot" ].

Definition emailToolNames : list string :=
  ["get_email_campaigns"; "create_email_template"; "get_email_templates";
   "update_email_template"; "delete_email_template" ].

Definition locationToolNames : list string :=
  ["search_locations"; "get_location"; "create_location"; "update_location";
   "delete_location"; "get_location_tags"; "create_location_tag"; "get_location_tag";
   "update_location_tag"; "delete_location_tag"; "search_location_tasks";
   "get_location_custom_fields"; "create_location_custom_field";
   "get_location_custom_field"; "update_location_custom_field";
   "delete_location_custom_field"; "get_location_custom_values";
   "create_location_custom_value"; "get_location_custom_value";
   "update_location_custom_value"; "delete_location_custom_value";
   "get_location_templates"; "delete_location_template"; "get_timezones" ].

Definition emailISVToolNames : list string :=
  ["verify_email" ].

Definition socialMediaToolNames : list string :=
  ["search_social_posts"; "create_social_post"; "get_social_post";
   "update_social_post"; "delete_social_post"; "bulk_delete_social_posts";
   "get_social_accounts"; "delete_social_account"; "upload_social_csv";
   "get_csv_upload_status"; "set_csv_accounts"; "get_social_categories";
   "get_social_category"; "get_social_tags"; "get_social_tags_by_ids";
   "start_social_oauth"; "get_platform_accounts" ].

Definition mediaToolNames : list string :=
  ["get_media_files"; "upload_media_file"; "delete_media_file" ].

Definition objectToolNames : list string :=
  ["get_all_objects"; "create_object_schema"; "get_object_schema";
   "update_object_schema"; "create_object_record"; "get_object_record";
   "update_object_record"; "delete_object_record"; "search_object_records" ].

Definition associationToolNames : list string :=
  ["ghl_get_all_associations"; "ghl_create_association"; "ghl_get_association_by_id";
   "ghl_update_association"; "ghl_delete_association"; "ghl_get_association_by_key";
   "ghl_get_association_by_object_key"; "ghl_create_relation";
   "ghl_get_relations_by_record"; "ghl_delete_relation" ].

Definition customFieldV2ToolNames : list string :=
  ["ghl_get_custom_field_by_id"; "ghl_create_custom_field"; "ghl_update_custom_field";
   "ghl_delete_custom_field"; "ghl_get_custom_fields_by_object_key";
   "ghl_create_custom_field_folder"; "ghl_update_custom_field_folder";
   "ghl_delete_custom_field_folder" ].

Definition workflowToolNames : list string :=
  ["ghl_get_workflows" ].

Definition surveyToolNames : list string :=
  ["ghl_get_surveys"; "ghl_get_survey_submissions" ].

Definition storeToolNames : list string :=
  ["ghl_create_shipping_zone"; "ghl_list_shipping_zones"; "ghl_get_shipping_zone";
   "ghl_update_shipping_zone"; "ghl_delete_shipping_zone";
   "ghl_get_available_shipping_rates"; "ghl_create_shipping_rate";
   "ghl_list_shipping_rates"; "ghl_get_shipping_rate"; "ghl_update_shipping_rate";
   "ghl_delete_shipping_rate"; "ghl_create_shipping_carrier";
   "ghl_list_shipping_carriers"; "ghl_get_shipping_carrier";
   "ghl_update_shipping_carrier"; "ghl_delete_shipping_carrier";
   "ghl_create_store_setting"; "ghl_get_store_setting" ].

Definition productsToolNames : list string :=
  ["ghl_create_product"; "ghl_list_products"; "ghl_get_product"; "ghl_update_product";
   "ghl_delete_product"; "ghl_create_price"; "ghl_list_prices"; "ghl_list_inventory";
   "ghl_create_product_collection"; "ghl_list_product_collections" ].

Definition paymentsToolNames : list string :=
  ["create_whitelabel_integration_provider"; "list_whitelabel_integration_providers";
   "list_orders"; "get_order_by_id"; "create_order_fulfillment";
   "list_order_fulfillments"; "list_transactions"; "get_transaction_by_id";
   "list_subscriptions"; "get_subscription_by_id"; "list_coupons"; "create_coupon";
   "update_coupon"; "delete_coupon"; "get_coupon";
   "create_custom_provider_integration"; "delete_custom_provider_integration";
   "get_custom_provider_config"; "create_custom_provider_config";
   "disconnect_custom_provider_config" ].

Definition invoicesToolNames : list string :=
  ["create_invoice_template"; "list_invoice_templates"; "get_invoice_template";
   "update_invoice_template"; "delete_invoice_template";
   "update_invoice_template_late_fees"; "update_invoice_template_payment_methods";
   "create_invoice_schedule"; "list_invoice_schedules"; "get_invoice_schedule";
   "update_invoice_schedule"; "delete_invoice_schedule"; "schedule_invoice_schedule";
   "auto_payment_invoice_schedule"; "cancel_invoice_schedule"; "create_invoice";
   "list_invoices"; "get_invoice"; "update_invoice"; "delete_invoice"; "void_invoice";
   "send_invoice"; "record_invoice_payment"; "generate_invoice_number";
   "text2pay_invoice"; "update_invoice_last_visited"; "create_estimate";
   "list_estimates"; "update_estimate"; "delete_estimate"; "send_estimate";
   "create_invoice_from_estimate"; "generate_estimate_number";
   "update_estimate_last_visited"; "list_estimate_templates";
   "create_estimate_template"; "update_estimate_template"; "delete_estimate_template";
   "preview_estimate_template" ].

Definition listed (names : list string) (toolName : string) : bool :=
  existsb (String.eqb toolName) names.

Definition isContactTool (toolName : string) : bool := listed contactToolNames toolName.
Definition isConversationTool (toolName : string) : bool := listed conversationToolNames toolName.
Definition isBlogTool (toolName : string) : bool := listed blogToolNames toolName.
Definition isOpportunityTool (toolName : string) : bool := listed opportunityToolNames toolName.
Definition isCalendarTool (toolName : string) : bool := listed calendarToolNames toolName.
Definition isEmailTool (toolName : string) : bool := listed emailToolNames toolName.
Definition isLocationTool (toolName : string) : bool := listed locationToolNames toolName.
Definition isEmailISVTool (toolName : string) : bool := listed emailISVToolNames toolName.
Definition isSocialMediaTool (toolName : string) : bool := listed socialMediaToolNames toolName.
Definition isMediaTool (toolName : string) : bool := listed mediaToolNames toolName.
Definition isObjectTool (toolName : string) : bool := listed objectToolNames toolName.
Definition isAssociationTool (toolName : string) : bool := listed associationToolNames toolName.
Definition isCustomFieldV2Tool (toolName : string) : bool := listed customFieldV2ToolNames toolName.
Definition isWorkflowTool (toolName : string) : bool := listed workflowToolNames toolName.
Definition isSurveyTool (toolName : string) : bool := listed surveyToolNames toolName.
Definition isStoreTool (toolName : string) : bool := listed storeToolNames toolName.
Definition isProductsTool (toolName : string) : bool := listed productsToolNames toolName.
Definition isPaymentsTool (toolName : string) : bool := listed paymentsToolNames toolName.
Definition isInvoicesTool (toolName : string) : bool := listed invoicesToolNames toolName.

(** The [if]/[else if] chain of the call handler: the first group whose table
    lists the name. *)
Definition route (name : string) : option Group :=
  if isContactTool name then Some contactTools
  else if isConversationTool name then Some conversationTools
  else if isBlogTool name then Some blogTools
  else if isOpportunityTool name then Some opportunityTools
  else if isCalendarTool name then Some calendarTools
  else if isEmailTool name then Some emailTools
  else if isLocationTool name then Some locationTools
  else if isEmailISVTool name then Some emailISVTools
  else if isSocialMediaTool name then Some socialMediaTools
  else if isMediaTool name then Some mediaTools
  else if isObjectTool name then Some objectTools
  else if isAssociationTool name then Some associationTools
  else if isCustomFieldV2Tool name then Some customFieldV2Tools
  else if isWorkflowTool name then Some workflowTools
  else if isSurveyTool name then Some surveyTools
  else if isStoreTool name then Some storeTools
  else if isProductsTool name then Some productsTools
  else if isPaymentsTool name then Some paymentsTools
  else if isInvoicesTool name then Some invoicesTools
  else None.

(** What a [catch] of the server can receive from the code it calls.  A
    [throw] carries any value: an instance of [Error] or of a class derived
    from it, with the [name] and the [message] its constructor left on it, or
    a value that is no [Error] at all, a primitive or a plain object as [Val]
    has them. *)
Inductive Thrown : Type :=
| ErrorObject (name message : string)
| NotAnError (value : Val).

(** An exception of the engine is an [Error] object. *)
Definition thrown (e : Exn) : Thrown := ErrorObject (error_name e) (message e).

(** [`${error}`]: [Error.prototype.toString] for an [Error], ToString for any
    other value, which throws on an object it cannot convert. *)
Definition interpolate (error : Thrown) : Completion string :=
  match error with
  | ErrorObject name message => Return (error_toString name message)
  | NotAnError value => to_string value
  end.

(** What a call into the handler groups comes to: the value it returns (or
    its promise is fulfilled with), or what it throws (or is rejected with). *)
Inductive Outcome (A : Type) : Type :=
| Returns (a : A)
| Throws (error : Thrown).
Arguments Returns {A} a.
Arguments Throws {A} error.

Definition and_then {A B} (c : Outcome A) (k : A -> Outcome B) : Outcome B :=
  match c with
  | Returns a => k a
  | Throws error => Throws error
  end.

(** What the call handler hands back to the SDK: the content it returns, whose
    text is [JSON.stringify(result, null, 2)], the [McpError] it throws, or the
    exception that leaves its [catch] block when the caught value cannot be
    written into the message. *)
Inductive CallResult : Type :=
| Content (result : Val)
| McpError (code : ErrorCode) (msg : string)
| Uncaught (e : Exn).

Section Handlers.

(** The executors of the handler groups ([executeTool], [handleToolCall], ...),
    which live outside the server file. *)
Variable execute : Group -> string -> Val -> Outcome Val.

Definition callTool (name : string) (args : Val) : CallResult :=
  match
    match route name with
    | Some group => execute group name (if truthy args then args else VObj [])
    | None => Throws (ErrorObject "Error" ("Unknown tool: " ++ name))
    end
  with
  | Returns result => Content result
  | Throws error =>
      let errorCode :=
        match error with
        | ErrorObject _ message =>
            if Mcp.includes message "404" then InvalidRequest else InternalError
        | NotAnError _ => InternalError (* [instanceof] fails, [message] is not read *)
        end in
      match interpolate error with
      | Return text => McpError errorCode ("Tool execution failed: " ++ text)
      | Throw e => Uncaught e
      end
  end.

End Handlers.

End Sdk.

(** ** A runtime to evaluate the handlers on *)

Module Sample.

Definition quoted (s : string) : string := dquote ++ s ++ dquote.

(** The request bodies of the examples and what [JSON.parse] makes of them. *)
Definition body_no_parameters : string := "{" ++ quoted "parameters" ++ ":{}}".

Definition body_null_query : string :=
  "{" ++ quoted "parameters" ++ ":{" ++ quoted "query" ++ ":null}}".

Definition body_ping : string :=
  "{" ++ quoted "jsonrpc" ++ ":" ++ quoted "2.0" ++ "," ++ quoted "id" ++ ":1,"
      ++ quoted "method" ++ ":" ++ quoted "ping" ++ "}".

Definition bodies : list (string * Val) :=
  [ ("null", VNull);
    (body_no_parameters, VObj [("parameters", VObj [])]);
    (body_null_query, VObj [("parameters", VObj [("query", VNull)])]);
    (body_ping, VObj [("jsonrpc", VStr "2.0"); ("id", VNum "1"); ("method", VStr "ping")]) ].

(** A decoder that knows [bodies] and rejects every other text. *)
Definition JSON_parse (text : string) : Completion Val :=
  match find (fun entry => String.eqb (fst entry) text) bodies with
  | Some entry => Return (snd entry)
  | None => Throw (SyntaxError "Unexpected end of JSON input")
  end.

Definition digits (width : nat) (n : N) : string :=
  let d := NilEmpty.string_of_uint (N.to_uint n) in
  String.concat EmptyString (repeat "0" (width - String.length d)) ++ d.

(** The wall clock of a connection opened at the epoch, within its first day. *)
Definition toISOString (ms : N) : string :=
  "1970-01-01T" ++ digits 2 ((ms / 3600000) mod 24) ++ ":"
    ++ digits 2 ((ms / 60000) mod 60) ++ ":"
    ++ digits 2 ((ms / 1000) mod 60) ++ "."
    ++ digits 3 (ms mod 1000) ++ "Z".

(** An executor that echoes its arguments. *)
Definition execute (group : Sdk.Group) (name : string) (args : Val) : Sdk.Outcome Val :=
  Sdk.Returns args.

End Sample.

(** ** Statements put to the test *)

Module Statements.

Import Mcp.

Definition sse_get : Request := {| method := "GET"; url := "/sse" |}.
Definition sse_post : Request := {| method := "POST"; url := "/sse" |}.
Definition genai_post (toolName : string) : Request :=
  {| method := "POST"; url := genai_prefix ++ toolName |}.

(** A [tools/call] request for [search] whose arguments are empty. *)
Definition search_without_query : Val :=
  VObj [("jsonrpc", VStr "2.0"); ("id", VNum "1"); ("method", VStr "tools/call");
        ("params", VObj [("name", VStr "search"); ("arguments", VObj [])])].

(** A disconnect that leaves no timer armed and after which nothing is issued
    on the stream. *)
Definition disconnect_quiesces
    (JSON_parse : string -> Completion Val) (toISOString : N -> string)
    (before after : list Event) : Prop :=
  let c := step JSON_parse toISOString
             (run JSON_parse toISOString (handler toISOString sse_get) before) Close in
  timers c = [] /\ calls (run JSON_parse toISOString c after) = calls c.

(** A call of a tool no table lists fails with [MethodNotFound]. *)
Definition unknown_tool_is_method_not_found
    (execute : Sdk.Group -> string -> Val -> Sdk.Outcome Val)
    (name : string) (args : Val) : Prop :=
  Sdk.route name = None ->
  exists msg, Sdk.callTool execute name args = Sdk.McpError Sdk.MethodNotFound msg.

(** What holds of the timers of an SSE stream: the heartbeat handle is 1, and
    it is the handle of the heartbeat interval and of nothing else. *)
Definition sse_stream_inv (c : Conn) : Prop :=
  listeners c = SseStream 1 /\
  forall t, In t (timers c) -> (handle t = 1 <-> callback t = PushHeartbeat).

Definition tools_timer : Timer :=
  {| handle := 0; due := 100; period := None; callback := PushToolsChanged |}.

Definition deadline_timer : Timer :=
  {| handle := 2; due := 50000; period := None; callback := Deadline 1 |}.

(** The queue of an SSE stream holds the pending push, the deadline and the
    heartbeat at most, and until [end()] has been called the deadline is in it;
    afterwards it is empty. *)
Definition sse_queue_inv (c : Conn) : Prop :=
  listeners c = SseStream 1 /\
  (forall t, In t (timers c) ->
     t = tools_timer \/ t = deadline_timer \/ (handle t = 1 /\ callback t = PushHeartbeat)) /\
  ((In deadline_timer (timers c) /\ ~ In end_ (calls c)) \/ timers c = []).

Definition no_heartbeat_armed (c : Conn) : Prop :=
  forall t, In t (timers c) -> callback t <> PushHeartbeat.

Definition sse_post_head : list Call := (setCORSHeaders ++ [writeHead 200 sse_headers])%list.

(** [response] answers the body of [c]: it is the dispatcher's response to the
    decoded body, or the parse-error response. *)
Definition answers (JSON_parse : string -> Completion Val) (c : Conn) (response : Val) : Prop :=
  response = parse_error_response
  \/ exists now message,
       JSON_parse (body c) = Return message /\
       processJsonRpcMessage now message = Return response.

(** The three stages of a POST to /sse: the body is still arriving; the
    response is pushed and the closing timer armed; the stream is ended. *)
Definition sse_post_inv (JSON_parse : string -> Completion Val) (c : Conn) : Prop :=
  listeners c = SsePostBody /\
  ((body_ended c = false /\ calls c = sse_post_head /\ timers c = [])
   \/ (body_ended c = true /\
       exists response,
         answers JSON_parse c response /\
         ((calls c = (sse_post_head ++ [sse_frame response])%list /\
           exists t, timers c = [t] /\ callback t = EndResponse /\ period t = None)
          \/ (calls c = (sse_post_head ++ [sse_frame response; end_])%list /\
              timers c = [])))).

(** A GenAI execution request whose body is still arriving. *)
Definition genai_inv (toolName : string) (c : Conn) : Prop :=
  listeners c = GenAIBody toolName /\
  (body_ended c = false -> calls c = setCORSHeaders /\ timers c = [] /\ invoked c = []).

End Statements.

(** ** The SDK-based server: start-up configuration and the tool catalogue *)

Module Startup.

Record GHLConfig : Type := {
  accessToken : string;
  baseUrl : string;
  version : string;
  locationId : string
}.

(** [process.env]: a variable holds a string or is not set. *)
Definition Env : Type := string -> option string.

(** [process.env.X || fallback] *)
Definition or_else (value : option string) (fallback : string) : string :=
  match value with
  | Some s => if String.eqb s EmptyString then fallback else s
  | None => fallback
  end.

(** [initializeGHLClient()]; the client it returns is built from the
    configuration, which stands for it here. *)
Definition initializeGHLClient (env : Env) : Completion GHLConfig :=
  let config :=
    {| accessToken := or_else (env "GHL_API_KEY") EmptyString;
       baseUrl := or_else (env "GHL_BASE_URL") "https://services.leadconnectorhq.com";
       version := "2021-07-28";
       locationId := or_else (env "GHL_LOCATION_ID") EmptyString |} in
  if String.eqb (accessToken config) EmptyString
  then Throw (Error "GHL_API_KEY environment variable is required")
  else if String.eqb (locationId config) EmptyString
  then Throw (Error "GHL_LOCATION_ID environment variable is required")
  else Return config.

End Startup.

Module Catalog.

Import Sdk.

(** The table each branch of the call handler consults. *)
Definition names_of (group : Group) : list string :=
  match group with
  | contactTools => contactToolNames
  | conversationTools => conversationToolNames
  | blogTools => blogToolNames
  | opportunityTools => opportunityToolNames
  | calendarTools => calendarToolNames
  | emailTools => emailToolNames
  | locationTools => locationToolNames
  | emailISVTools => emailISVToolNames
  | socialMediaTools => socialMediaToolNames
  | mediaTools => mediaToolNames
  | objectTools => objectToolNames
  | associationTools => associationToolNames
  | customFieldV2Tools => customFieldV2ToolNames
  | workflowTools => workflowToolNames
  | surveyTools => surveyToolNames
  | storeTools => storeToolNames
  | productsTools => productsToolNames
  | paymentsTools => paymentsToolNames
  | invoicesTools => invoicesToolNames
  end.

(** The groups in the order of the call handler's chain, which is also the
    order in which the catalogue is assembled. *)
Definition groups : list Group :=
  [ contactTools;
    conversationTools;
    blogTools;
    opportunityTools;
    calendarTools;
    emailTools;
    locationTools;
    emailISVTools;
    socialMediaTools;
    mediaTools;
    objectTools;
    associationTools;
    customFieldV2Tools;
    workflowTools;
    surveyTools;
    storeTools;
    productsTools;
    paymentsTools;
    invoicesTools ].

Fixpoint distinct (names : list string) : bool :=
  match names with
  | [] => true
  | n :: rest => negb (existsb (String.eqb n) rest) && distinct rest
  end.

(** A length as [res.json] prints it. *)
Definition num_of_nat (n : nat) : Val := VNum (NilEmpty.string_of_uint (Nat.to_uint n)).

(** What the [ListToolsRequestSchema] handler hands back to the SDK: the
    list, the [McpError] it throws, or the exception that leaves its [catch]
    block when the caught value cannot be written into the message. *)
Inductive ListResult : Type :=
| Tools (tools : list Val)
| ListFailed (code : ErrorCode) (msg : string)
| ListUncaught (e : Exn).

Declare Scope sdk_scope.
Notation "x <- c ;; k" := (and_then c (fun x => k))
  (at level 61, c at next level, right associativity) : sdk_scope.
Local Open Scope sdk_scope.

Section Definitions.

(** [getToolDefinitions()] or [getTools()] of each handler group. *)
Variable definitions : Group -> Outcome (list Val).

(** The [try] block of the [ListToolsRequestSchema] handler, up to
    [allTools]. *)
Definition listTools_all : Outcome (list Val) :=
  contactToolDefinitions <- definitions contactTools ;;
  conversationToolDefinitions <- definitions conversationTools ;;
  blogToolDefinitions <- definitions blogTools ;;
  opportunityToolDefinitions <- definitions opportunityTools ;;
  calendarToolDefinitions <- definitions calendarTools ;;
  emailToolDefinitions <- definitions emailTools ;;
  locationToolDefinitions <- definitions locationTools ;;
  emailISVToolDefinitions <- definitions emailISVTools ;;
  socialMediaToolDefinitions <- definitions socialMediaTools ;;
  mediaToolDefinitions <- definitions mediaTools ;;
  objectToolDefinitions <- definitions objectTools ;;
  associationToolDefinitions <- definitions associationTools ;;
  customFieldV2ToolDefinitions <- definitions customFieldV2Tools ;;
  workflowToolDefinitions <- definitions workflowTools ;;
  surveyToolDefinitions <- definitions surveyTools ;;
  storeToolDefinitions <- definitions storeTools ;;
  productsToolDefinitions <- definitions productsTools ;;
  paymentsToolDefinitions <- definitions paymentsTools ;;
  invoicesToolDefinitions <- definitions invoicesTools ;;
  Returns (contactToolDefinitions
          ++ conversationToolDefinitions
          ++ blogToolDefinitions
          ++ opportunityToolDefinitions
          ++ calendarToolDefinitions
          ++ emailToolDefinitions
          ++ locationToolDefinitions
          ++ emailISVToolDefinitions
          ++ socialMediaToolDefinitions
          ++ mediaToolDefinitions
          ++ objectToolDefinitions
          ++ associationToolDefinitions
          ++ customFieldV2ToolDefinitions
          ++ workflowToolDefinitions
          ++ surveyToolDefinitions
          ++ storeToolDefinitions
          ++ productsToolDefinitions
          ++ paymentsToolDefinitions
          ++ invoicesToolDefinitions)%list.

Definition listTools : ListResult :=
  match listTools_all with
  | Returns allTools => Tools allTools
  | Throws error =>
      match interpolate error with
      | Return text => ListFailed InternalError ("Failed to list tools: " ++ text)
      | Throw e => ListUncaught e
      end
  end.

(** The handler of GET /api/tools: status and body. *)
Definition apiTools : nat * Val :=
  match
    (contactToolDefinitions <- definitions contactTools ;;
     conversationToolDefinitions <- definitions conversationTools ;;
     blogToolDefinitions <- definitions blogTools ;;
     opportunityToolDefinitions <- definitions opportunityTools ;;
     calendarToolDefinitions <- definitions calendarTools ;;
     emailToolDefinitions <- definitions emailTools ;;
     locationToolDefinitions <- definitions locationTools ;;
     emailISVToolDefinitions <- definitions emailISVTools ;;
     socialMediaToolDefinitions <- definitions socialMediaTools ;;
     mediaToolDefinitions <- definitions mediaTools ;;
     objectToolDefinitions <- definitions objectTools ;;
     associationToolDefinitions <- definitions associationTools ;;
     customFieldV2ToolDefinitions <- definitions customFieldV2Tools ;;
     workflowToolDefinitions <- definitions workflowTools ;;
     surveyToolDefinitions <- definitions surveyTools ;;
     storeToolDefinitions <- definitions storeTools ;;
     productsToolDefinitions <- definitions productsTools ;;
     paymentsToolDefinitions <- definitions paymentsTools ;;
     invoicesToolDefinitions <- definitions invoicesTools ;;
     let allTools := (contactToolDefinitions
                      ++ conversationToolDefinitions
                      ++ blogToolDefinitions
                      ++ opportunityToolDefinitions
                      ++ calendarToolDefinitions
                      ++ emailToolDefinitions
                      ++ locationToolDefinitions
                      ++ emailISVToolDefinitions
                      ++ socialMediaToolDefinitions
                      ++ mediaToolDefinitions
                      ++ objectToolDefinitions
                      ++ associationToolDefinitions
                      ++ customFieldV2ToolDefinitions
                      ++ workflowToolDefinitions
                      ++ surveyToolDefinitions
                      ++ storeToolDefinitions
                      ++ productsToolDefinitions
                      ++ paymentsToolDefinitions
                      ++ invoicesToolDefinitions)%list in
     Returns
       (VObj [("success", VBool true);
              ("tools", VArr allTools);
              ("count", num_of_nat (length allTools));
              ("categories",
               VObj [("contact", num_of_nat (length contactToolDefinitions));
                     ("conversation", num_of_nat (length conversationToolDefinitions));
                     ("blog", num_of_nat (length blogToolDefinitions));
                     ("opportunity", num_of_nat (length opportunityToolDefinitions));
                     ("calendar", num_of_nat (length calendarToolDefinitions));
                     ("email", num_of_nat (length emailToolDefinitions));
                     ("location", num_of_nat (length locationToolDefinitions));
                     ("emailISV", num_of_nat (length emailISVToolDefinitions));
                     ("socialMedia", num_of_nat (length socialMediaToolDefinitions));
                     ("media", num_of_nat (length mediaToolDefinitions));
                     ("object", num_of_nat (length objectToolDefinitions));
                     ("association", num_of_nat (length associationToolDefinitions));
                     ("customFieldV2", num_of_nat (length customFieldV2ToolDefinitions));
                     ("workflow", num_of_nat (length workflowToolDefinitions));
                     ("survey", num_of_nat (length surveyToolDefinitions));
                     ("store", num_of_nat (length storeToolDefinitions));
                     ("products", num_of_nat (length productsToolDefinitions));
                     ("payments", num_of_nat (length paymentsToolDefinitions));
                     ("invoices", num_of_nat (length invoicesToolDefinitions))])]))
  with
  | Returns body => (200, body)
  | Throws error =>
      (500,
       VObj [("success", VBool false);
             ("error",
              VStr match error with
                   | ErrorObject _ message => message
                   | NotAnError _ => "Unknown error"
                   end)])
  end.

End Definitions.

End Catalog.

(** ** Shapes of responses *)

Module Shapes.

Definition success_response (id result : Val) : Val :=
  VObj [("jsonrpc", VStr "2.0"); ("id", id); ("result", result)].

Definition error_response (id : Val) (code msg : string) (more : list (string * Val)) : Val :=
  VObj [("jsonrpc", VStr "2.0"); ("id", id);
        ("error", VObj (("code", VNum code) :: ("message", VStr msg) :: more))].

Definition primitive (v : Val) : bool :=
  match v with
  | VArr _ | VObj _ => false
  | _ => true
  end.

End Shapes.

(** ** What holds of a stream over time *)

Module Timing.

Import Mcp Statements.

Definition list_changed_frame : Call := sse_frame toolsNotification.

(** Nothing is written ahead of its time, and a heartbeat is armed for 25 s
    after the opening at the earliest, with a period of 25 s. *)
Definition sse_clock_inv (c : Conn) : Prop :=
  (In list_changed_frame (calls c) -> (100 <= clock c)%N) /\
  (In heartbeat_chunk (calls c) -> (25000 <= clock c)%N) /\
  (In end_ (calls c) -> (50000 <= clock c)%N) /\
  (forall t, In t (timers c) -> callback t = PushHeartbeat ->
     (25000 <= due t)%N /\ period t = Some 25000%N).

(** The push is pending and nothing of it is written, or it is written once
    and no longer pending. *)
Definition sse_push_inv (c : Conn) : Prop :=
  (In tools_timer (timers c) /\ ~ In list_changed_frame (calls c))
  \/ (~ In tools_timer (timers c) /\
      exists pre post,
        calls c = (pre ++ list_changed_frame :: post)%list /\
        ~ In list_changed_frame pre /\ ~ In list_changed_frame post).

(** The deadline is armed and the stream not ended, or the stream is ended by
    its last call and no timer is left. *)
Definition sse_end_inv (c : Conn) : Prop :=
  (In deadline_timer (timers c) /\ ~ In end_ (calls c))
  \/ (timers c = [] /\
      exists pre, calls c = (pre ++ [end_])%list /\ ~ In end_ pre).

(** The timers that are due. *)
Definition due_now (c : Conn) : list Timer :=
  filter (fun t => (due t <=? clock c)%N) (timers c).

End Timing.

(** ** Names and samples for the catalogue *)

Module Listing.

Import Sdk Catalog.

(** The keys of [categories] in the answer of GET /api/tools, in order. *)
Definition category_names : list string :=
  ["contact"; "conversation"; "blog"; "opportunity"; "calendar"; "email"; "location";
   "emailISV"; "socialMedia"; "media"; "object"; "association"; "customFieldV2";
   "workflow"; "survey"; "store"; "products"; "payments"; "invoices"].

(** Groups that each list one descriptor, and groups of which one fails. *)
Definition one_each (group : Group) : list Val :=
  [VStr (hd EmptyString (names_of group))].

Definition blog_down (group : Group) : Outcome (list Val) :=
  match group with
  | blogTools => Throws (ErrorObject "Error" EmptyString)
  | _ => Returns []
  end.

(** Executors that all throw the same value. *)
Definition rejects (error : Thrown) (group : Group) (name : string) (args : Val) : Outcome Val :=
  Throws error.

(** A plain object that carries a message, as a [throw] can carry it. *)
Definition status_404 : Thrown := NotAnError (VObj [("message", VStr "status 404")]).

End Listing.

(** ** More request bodies *)

Module Bodies.

Definition body_number_parameters : string :=
  "{" ++ Sample.quoted "parameters" ++ ":5}".

Definition body_object_query : string :=
  "{" ++ Sample.quoted "parameters" ++ ":{" ++ Sample.quoted "query" ++ ":{"
      ++ Sample.quoted "toString" ++ ":1}}}".

(** [Sample.JSON_parse], which also knows these two bodies. *)
Definition JSON_parse (text : string) : Completion Val :=
  if String.eqb text body_number_parameters
  then Return (VObj [("parameters", VNum "5")])
  else if String.eqb text body_object_query
  then Return (VObj [("parameters", VObj [("query", VObj [("toString", VNum "1")])])])
  else Sample.JSON_parse text.

(** The descriptor of [search], the first of [TOOLS]. *)
Definition search_tool : Mcp.Tool :=
  hd (Mcp.Build_Tool EmptyString EmptyString (Mcp.Build_Schema [] [])) Mcp.TOOLS.

End Bodies.

(** * Properties *)

Import Mcp Statements.

(** ** Property reads and string tests *)

Lemma get_prop_defined (v : Val) (k : string) :
  nullish v = false -> exists x, get_prop v k = Return x.
Proof.
  destruct v; simpl; intros H; try discriminate; eauto.
Qed.

Lemma get_prop_base (v : Val) (k : string) (x : Val) :
  get_prop v k = Return x -> nullish v = false.
Proof.
  destruct v; simpl; intros H; try discriminate; reflexivity.
Qed.

Lemma get_prop_other (v : Val) (k k' : string) (x : Val) :
  get_prop v k = Return x -> exists y, get_prop v k' = Return y.
Proof.
  intros H. apply get_prop_defined. exact (get_prop_base _ _ _ H).
Qed.

Lemma is_str_true (v : Val) (lit : string) : is_str v lit = true <-> v = VStr lit.
Proof.
  destruct v; simpl; split; intros H; try discriminate.
  - apply String.eqb_eq in H. now subst.
  - injection H as ->. apply String.eqb_refl.
Qed.

Lemma is_str_false (v : Val) (lit : string) : v <> VStr lit -> is_str v lit = false.
Proof.
  intros H. destruct (is_str v lit) eqn:E; [|reflexivity].
  apply is_str_true in E. contradiction.
Qed.

Lemma is_str_lit (s lit : string) : is_str (VStr s) lit = String.eqb s lit.
Proof. reflexivity. Qed.

Lemma find_tool_none (n : string) :
  find_tool n = None -> String.eqb n "search" = false /\ String.eqb n "retrieve" = false.
Proof.
  unfold find_tool, TOOLS. cbn [find name].
  rewrite (String.eqb_sym "search" n), (String.eqb_sym "retrieve" n).
  destruct (String.eqb n "search"); [discriminate|].
  destruct (String.eqb n "retrieve"); [discriminate|]. auto.
Qed.

Lemma find_tool_some (n : string) (t : Tool) :
  find_tool n = Some t ->
  (n = "search" /\ find_tool "search" = Some t)
  \/ (n = "retrieve" /\ find_tool "retrieve" = Some t).
Proof.
  intros H. assert (H' := H). revert H'.
  unfold find_tool at 1, TOOLS. cbn [find name].
  rewrite (String.eqb_sym "search" n), (String.eqb_sym "retrieve" n).
  destruct (String.eqb_spec n "search") as [->|_]; [intros _; left; auto|].
  destruct (String.eqb_spec n "retrieve") as [->|_]; [intros _; right; auto|].
  discriminate.
Qed.

(** ** The dispatcher *)

(** Any message but [null] and [undefined] gets a response. *)
Lemma processJsonRpcMessage_returns (now : string) (message : Val) :
  nullish message = false ->
  exists response, processJsonRpcMessage now message = Return response.
Proof.
  intros H. destruct (get_prop_defined message "id" H) as [id Hid].
  unfold processJsonRpcMessage, try_catch.
  destruct (process_try now message) as [r|e]; [eauto|].
  unfold process_catch. rewrite Hid. cbn [bind]. eauto.
Qed.

(** A fault in the [try] block becomes an internal-error response. *)
Lemma processJsonRpcMessage_fault (now : string) (message id : Val) (e : Exn) :
  process_try now message = Throw e ->
  get_prop message "id" = Return id ->
  processJsonRpcMessage now message =
    Return (createJsonRpcResponse id VNull
              (VObj [("code", VNum "-32603"); ("message", VStr "Internal error");
                     ("data", VStr (JS.message e))])).
Proof.
  intros Ht Hid. unfold processJsonRpcMessage, try_catch, process_catch.
  rewrite Ht, Hid. reflexivity.
Qed.

(** C3, at the input where it fails: for the decoded message [null] the
    [catch] block of [processJsonRpcMessage] reads [message.id] itself, and
    the [TypeError] of that read leaves the function instead of an
    internal-error response. *)
Theorem C3_null_message_throws (now : string) :
  processJsonRpcMessage now VNull
  = Throw (TypeError "Cannot read properties of null (reading 'id')").
Proof. reflexivity. Qed.

(** C1, at the input where it fails: a [tools/call] for [search] without the
    required [query] is answered with a result, the text of which prints the
    missing argument as [undefined]; no missing parameter is reported. *)
Theorem C1_search_without_query_is_executed (now : string) :
  processJsonRpcMessage now search_without_query
  = Return (VObj [("jsonrpc", VStr "2.0"); ("id", VNum "1");
                  ("result", text_content
                     ("GoHighLevel Search Results for: " ++ dquote ++ "undefined" ++ dquote
                      ++ nl ++ nl
                      ++ "✅ Found Results:" ++ nl
                      ++ "• Contact: John Doe (john@example.com)" ++ nl
                      ++ "• Contact: Jane Smith (jane@example.com)" ++ nl
                      ++ "• Conversation: " ++ dquote ++ "Follow-up call scheduled" ++ dquote ++ nl
                      ++ "• Blog Post: " ++ dquote ++ "How to Generate More Leads" ++ dquote
                      ++ nl ++ nl
                      ++ "📊 Search completed successfully in GoHighLevel CRM."))]).
Proof. reflexivity. Qed.

(** C5: a message whose [jsonrpc] member is anything but the string "2.0" is
    answered with error -32600 under the message's own [id], whatever its
    method. *)
Theorem C5_wrong_version_is_invalid_request (now : string) (message j : Val) :
  get_prop message "jsonrpc" = Return j ->
  j <> VStr "2.0" ->
  exists id,
    get_prop message "id" = Return id /\
    processJsonRpcMessage now message
    = Return (VObj [("jsonrpc", VStr "2.0"); ("id", id);
                    ("error", VObj [("code", VNum "-32600");
                                    ("message", VStr "Invalid Request: jsonrpc must be '2.0'")])]).
Proof.
  intros Hj Hne.
  destruct (get_prop_other _ _ "id" _ Hj) as [id Hid].
  destruct (get_prop_other _ _ "method" _ Hj) as [me Hme].
  exists id. split; [assumption|].
  unfold processJsonRpcMessage, process_try.
  rewrite Hme, Hid, Hj. cbn [bind].
  rewrite (is_str_false _ _ Hne). reflexivity.
Qed.

(** A message of version 1.0 with [id] 7. *)
Lemma C5_wrong_version_witness :
  exists id,
    get_prop (VObj [("jsonrpc", VStr "1.0"); ("id", VNum "7"); ("method", VStr "ping")]) "id"
    = Return id /\
    processJsonRpcMessage "1970-01-01T00:00:00.000Z"
      (VObj [("jsonrpc", VStr "1.0"); ("id", VNum "7"); ("method", VStr "ping")])
    = Return (VObj [("jsonrpc", VStr "2.0"); ("id", id);
                    ("error", VObj [("code", VNum "-32600");
                                    ("message", VStr "Invalid Request: jsonrpc must be '2.0'")])]).
Proof.
  apply (C5_wrong_version_is_invalid_request _ _ (VStr "1.0")).
  - reflexivity.
  - discriminate.
Defined.

(** ** The [search] tool *)

(** C10: the text of [search] is a function of the [query] argument alone,
    whatever else the parameters hold and whenever it runs, and a
    [tools/call] for [search] carries that same text. *)
Theorem C10_search_depends_on_query_only
    (now1 now2 : string) (p1 p2 q : Val) :
  get_prop p1 "query" = Return q ->
  get_prop p2 "query" = Return q ->
  executeToolLogic now1 "search" p1 = executeToolLogic now2 "search" p2
  /\ forall request params id,
       get_prop request "params" = Return params ->
       get_prop params "name" = Return (VStr "search") ->
       get_prop params "arguments" = Return p1 ->
       get_prop request "id" = Return id ->
       handleToolsCall now1 request
       = (text <- executeToolLogic now2 "search" p2 ;;
          Return (createJsonRpcResponse id (text_content text) VNull)).
Proof.
  intros H1 H2. split.
  - unfold executeToolLogic. cbn [String.eqb Ascii.eqb Bool.eqb].
    rewrite H1, H2. reflexivity.
  - intros request params id Hp Hn Ha Hid.
    unfold handleToolsCall, destructure_call, executeToolLogic.
    cbn [String.eqb Ascii.eqb Bool.eqb].
    rewrite Hp. cbn [bind].
    rewrite (get_prop_base _ _ _ Hn), Hn, Ha. cbn [bind is_str].
    cbn [String.eqb Ascii.eqb Bool.eqb].
    rewrite H1, H2, Hid. cbn [bind].
    destruct (to_string q); reflexivity.
Qed.

(** Two parameter objects with the query "leads", 25 seconds apart. *)
Lemma C10_search_witness :
  executeToolLogic "1970-01-01T00:00:00.000Z" "search"
    (VObj [("query", VStr "leads"); ("limit", VNum "5")])
  = executeToolLogic "1970-01-01T00:00:25.000Z" "search" (VObj [("query", VStr "leads")])
  /\ forall request params id,
       get_prop request "params" = Return params ->
       get_prop params "name" = Return (VStr "search") ->
       get_prop params "arguments"
       = Return (VObj [("query", VStr "leads"); ("limit", VNum "5")]) ->
       get_prop request "id" = Return id ->
       handleToolsCall "1970-01-01T00:00:00.000Z" request
       = (text <- executeToolLogic "1970-01-01T00:00:25.000Z" "search"
                    (VObj [("query", VStr "leads")]) ;;
          Return (createJsonRpcResponse id (text_content text) VNull)).
Proof.
  apply (C10_search_depends_on_query_only _ _ _ _ (VStr "leads")); reflexivity.
Defined.

(** ** Unknown methods and unknown tools *)

Lemma unknown_method_response (now : string) (message : Val) (m : string) :
  get_prop message "jsonrpc" = Return (VStr "2.0") ->
  get_prop message "method" = Return (VStr m) ->
  ~ In m ["initialize"; "tools/list"; "tools/call"; "ping"] ->
  exists id,
    get_prop message "id" = Return id /\
    processJsonRpcMessage now message
    = Return (VObj [("jsonrpc", VStr "2.0"); ("id", id);
                    ("error", VObj [("code", VNum "-32601");
                                    ("message", VStr ("Method not found: " ++ m))])]).
Proof.
  intros Hj Hm Hnot.
  destruct (get_prop_other _ _ "id" _ Hj) as [id Hid].
  exists id. split; [assumption|].
  unfold processJsonRpcMessage, process_try.
  rewrite Hm, Hid, Hj. cbn [bind is_str]. cbn [String.eqb Ascii.eqb Bool.eqb negb].
  destruct (String.eqb_spec m "initialize") as [->|_]; [exfalso; apply Hnot; simpl; auto|].
  destruct (String.eqb_spec m "tools/list") as [->|_]; [exfalso; apply Hnot; simpl; auto|].
  destruct (String.eqb_spec m "tools/call") as [->|_]; [exfalso; apply Hnot; simpl; auto|].
  destruct (String.eqb_spec m "ping") as [->|_]; [exfalso; apply Hnot; simpl; auto|].
  reflexivity.
Qed.

Lemma unknown_tool_response (now : string) (message params : Val) (n : string) :
  get_prop message "jsonrpc" = Return (VStr "2.0") ->
  get_prop message "method" = Return (VStr "tools/call") ->
  get_prop message "params" = Return params ->
  get_prop params "name" = Return (VStr n) ->
  find_tool n = None ->
  exists id,
    get_prop message "id" = Return id /\
    processJsonRpcMessage now message
    = Return (VObj [("jsonrpc", VStr "2.0"); ("id", id);
                    ("error", VObj [("code", VNum "-32601");
                                    ("message", VStr ("Method not found: " ++ n))])]).
Proof.
  intros Hj Hm Hp Hn Hnone.
  destruct (get_prop_other _ _ "id" _ Hj) as [id Hid].
  destruct (get_prop_other _ _ "arguments" _ Hn) as [args Ha].
  destruct (find_tool_none _ Hnone) as [Hs Hr].
  exists id. split; [assumption|].
  unfold processJsonRpcMessage, process_try.
  rewrite Hm, Hid, Hj. cbn [bind is_str]. cbn [String.eqb Ascii.eqb Bool.eqb negb].
  unfold handleToolsCall, destructure_call.
  rewrite Hp. cbn [bind].
  rewrite (get_prop_base _ _ _ Hn), Hn, Ha. cbn [bind].
  rewrite !is_str_lit, Hs, Hr, Hid. reflexivity.
Qed.

Lemma includes_unknown_tool (n : string) :
  includes ("Unknown tool: " ++ n) "404" = includes n "404".
Proof.
  unfold includes. simpl. destruct (index 0 "404" n); reflexivity.
Qed.

Lemma unknown_tool_sdk
    (execute : Sdk.Group -> string -> Val -> Sdk.Outcome Val) (n : string) (args : Val) :
  Sdk.route n = None ->
  Sdk.callTool execute n args
  = Sdk.McpError
      (if includes n "404" then Sdk.InvalidRequest else Sdk.InternalError)
      ("Tool execution failed: Error: Unknown tool: " ++ n).
Proof.
  intros H. unfold Sdk.callTool. rewrite H, includes_unknown_tool. reflexivity.
Qed.

(** C6, as the code has it: the dispatcher answers a method other than
    [initialize], [tools/list], [tools/call] and [ping] with error -32601, and
    a [tools/call] naming a tool outside [TOOLS] with error -32601 too; the
    call handler of the SDK-based server never answers a tool outside its
    tables with [MethodNotFound]: it reports a failed execution, with
    [InternalError] for every such name that does not contain "404". *)
Theorem C6_unknown_method_and_unknown_tool :
  (forall now message m,
     get_prop message "jsonrpc" = Return (VStr "2.0") ->
     get_prop message "method" = Return (VStr m) ->
     ~ In m ["initialize"; "tools/list"; "tools/call"; "ping"] ->
     exists id,
       get_prop message "id" = Return id /\
       processJsonRpcMessage now message
       = Return (VObj [("jsonrpc", VStr "2.0"); ("id", id);
                       ("error", VObj [("code", VNum "-32601");
                                       ("message", VStr ("Method not found: " ++ m))])]))
  /\ (forall now message params n,
        get_prop message "jsonrpc" = Return (VStr "2.0") ->
        get_prop message "method" = Return (VStr "tools/call") ->
        get_prop message "params" = Return params ->
        get_prop params "name" = Return (VStr n) ->
        find_tool n = None ->
        exists id,
          get_prop message "id" = Return id /\
          processJsonRpcMessage now message
          = Return (VObj [("jsonrpc", VStr "2.0"); ("id", id);
                          ("error", VObj [("code", VNum "-32601");
                                          ("message", VStr ("Method not found: " ++ n))])]))
  /\ (forall execute n args,
        Sdk.route n = None ->
        exists code,
          Sdk.callTool execute n args
          = Sdk.McpError code ("Tool execution failed: Error: Unknown tool: " ++ n)
          /\ code <> Sdk.MethodNotFound
          /\ Sdk.code_number code <> (-32601)%Z)
  /\ (forall execute n args,
        Sdk.route n = None ->
        includes n "404" = false ->
        Sdk.callTool execute n args
        = Sdk.McpError Sdk.InternalError ("Tool execution failed: Error: Unknown tool: " ++ n)
        /\ Sdk.code_number Sdk.InternalError = (-32603)%Z).
Proof.
  split; [|split; [|split]].
  - intros. now apply unknown_method_response.
  - intros. now apply unknown_tool_response with (params := params).
  - intros execute n args H.
    eexists. split; [apply (unknown_tool_sdk execute n args H)|].
    destruct (includes n "404"); split; discriminate.
  - intros execute n args H Hname.
    rewrite (unknown_tool_sdk execute n args H), Hname. split; reflexivity.
Qed.

(** The method [resources/list] and the tool [nope]. *)
Lemma C6_unknown_witness :
  (exists id,
     get_prop (VObj [("jsonrpc", VStr "2.0"); ("id", VNum "3"); ("method", VStr "resources/list")])
       "id" = Return id /\
     processJsonRpcMessage "1970-01-01T00:00:00.000Z"
       (VObj [("jsonrpc", VStr "2.0"); ("id", VNum "3"); ("method", VStr "resources/list")])
     = Return (VObj [("jsonrpc", VStr "2.0"); ("id", id);
                     ("error", VObj [("code", VNum "-32601");
                                     ("message", VStr ("Method not found: " ++ "resources/list"))])]))
  /\ (exists id,
        get_prop (VObj [("jsonrpc", VStr "2.0"); ("id", VNum "2"); ("method", VStr "tools/call");
                        ("params", VObj [("name", VStr "nope"); ("arguments", VObj [])])])
          "id" = Return id /\
        processJsonRpcMessage "1970-01-01T00:00:00.000Z"
          (VObj [("jsonrpc", VStr "2.0"); ("id", VNum "2"); ("method", VStr "tools/call");
                 ("params", VObj [("name", VStr "nope"); ("arguments", VObj [])])])
        = Return (VObj [("jsonrpc", VStr "2.0"); ("id", id);
                        ("error", VObj [("code", VNum "-32601");
                                        ("message", VStr ("Method not found: " ++ "nope"))])]))
  /\ (exists code,
        Sdk.callTool Sample.execute "nope" (VObj [])
        = Sdk.McpError code ("Tool execution failed: Error: Unknown tool: " ++ "nope")
        /\ code <> Sdk.MethodNotFound
        /\ Sdk.code_number code <> (-32601)%Z)
  /\ (Sdk.callTool Sample.execute "nope" (VObj [])
      = Sdk.McpError Sdk.InternalError ("Tool execution failed: Error: Unknown tool: " ++ "nope")
      /\ Sdk.code_number Sdk.InternalError = (-32603)%Z).
Proof.
  destruct C6_unknown_method_and_unknown_tool as (Hmethod & Htool & Hsdk & Hinternal).
  split; [|split; [|split]].
  - apply Hmethod; [reflexivity | reflexivity |].
    simpl. intros [H|[H|[H|[H|[]]]]]; discriminate.
  - apply Htool with (params := VObj [("name", VStr "nope"); ("arguments", VObj [])]);
      reflexivity.
  - apply Hsdk. reflexivity.
  - apply Hinternal; reflexivity.
Defined.

(** C6, as stated, fails on the SDK-based server: its call handler turns the
    tool name "nope", which no table lists, into an [InternalError]. *)
Lemma C6_unknown_tool_counterexample :
  ~ unknown_tool_is_method_not_found Sample.execute "nope" (VObj []).
Proof.
  unfold unknown_tool_is_method_not_found. intros H.
  destruct (H eq_refl) as [msg Hmsg]. discriminate Hmsg.
Qed.

(** What the call handler of the SDK-based server answers for the tool [nope]. *)
Example sdk_answers_nope_with_internal_error :
  Sdk.callTool Sample.execute "nope" (VObj [])
  = Sdk.McpError Sdk.InternalError "Tool execution failed: Error: Unknown tool: nope".
Proof. reflexivity. Qed.

(** ** Lists of calls *)

Lemma in_middle {A} (pre post : list A) (x : A) : In x (pre ++ x :: post)%list.
Proof. apply in_or_app. right. left. reflexivity. Qed.

(** In a list that holds [y] after a stretch free of [x], the part before an
    occurrence of [x] holds [y]. *)
Lemma found_before {A} (l1 l2 pre post : list A) (x y : A) :
  (l1 ++ y :: l2 = pre ++ x :: post)%list ->
  ~ In x l1 -> x <> y -> In y pre.
Proof.
  revert pre. induction l1 as [|a l1 IH]; intros pre Heq Hnot Hne.
  - destruct pre as [|p pre]; simpl in Heq.
    + injection Heq as Hy _. congruence.
    + injection Heq as Hy _. left. congruence.
  - destruct pre as [|p pre]; simpl in Heq.
    + injection Heq as Ha _. exfalso. apply Hnot. left. assumption.
    + injection Heq as _ Heq. right. apply (IH pre Heq); [|assumption].
      intros Hin. apply Hnot. right. assumption.
Qed.

(** ** Connections under an event script *)

Section Transport.

Variable JSON_parse : string -> Completion Val.
Variable toISOString : N -> string.

Local Abbreviation step := (Mcp.step JSON_parse toISOString).
Local Abbreviation run := (Mcp.run JSON_parse toISOString).
Local Abbreviation handler := (Mcp.handler toISOString).

Lemma run_cons (c : Conn) (e : Event) (script : list Event) :
  run c (e :: script) = run (step c e) script.
Proof. reflexivity. Qed.

Lemma run_invariant (Inv : Conn -> Prop) :
  (forall c e, Inv c -> Inv (step c e)) ->
  forall script c, Inv c -> Inv (run c script).
Proof.
  intros Hstep script. induction script as [|e script IH]; intros c Hc.
  - exact Hc.
  - rewrite run_cons. apply IH, Hstep, Hc.
Qed.

Lemma earliest_In (ts : list Timer) (t : Timer) : earliest ts = Some t -> In t ts.
Proof.
  revert t. induction ts as [|a ts IH]; intros t H; simpl in H; [discriminate|].
  destruct (earliest ts) as [u|].
  - injection H as <-. destruct (earlier a u); [left; reflexivity|right; auto].
  - injection H as <-. left. reflexivity.
Qed.

Lemma next_due_In (c : Conn) (t : Timer) : next_due c = Some t -> In t (timers c).
Proof.
  unfold next_due. intros H. apply earliest_In in H.
  apply filter_In in H. tauto.
Qed.

Lemma listeners_step (c : Conn) (e : Event) : listeners (step c e) = listeners c.
Proof.
  destruct e; simpl; try reflexivity.
  - destruct (next_due c) as [t|]; [|reflexivity].
    unfold fire. destruct (callback t); reflexivity.
  - destruct (body_ended c); [reflexivity|].
    destruct (listeners c) eqn:E; simpl; congruence.
  - destruct (body_ended c); [reflexivity|].
    destruct (listeners c) eqn:E; try (simpl; congruence).
    + destruct (genai_on_end _ _ _ _). simpl. congruence.
    + unfold sse_post_on_end. simpl.
      destruct (bind _ _); simpl; congruence.
  - destruct (listeners c) eqn:E; simpl; congruence.
  - destruct (listeners c) eqn:E; simpl; congruence.
Qed.

Lemma body_ended_step (c : Conn) (e : Event) :
  body_ended c = true -> body_ended (step c e) = true.
Proof.
  intros H. destruct e; simpl; rewrite ?H; try reflexivity; try assumption.
  - destruct (next_due c) as [t|]; [|assumption].
    unfold fire. destruct (callback t); simpl; assumption.
  - destruct (listeners c); simpl; assumption.
  - destruct (listeners c); simpl; assumption.
Qed.

(** Once the body has ended and no timer is armed, nothing more is issued and
    no tool is run. *)
Lemma settled_step (c : Conn) (e : Event) :
  timers c = [] -> body_ended c = true ->
  (calls (step c e) = calls c /\ invoked (step c e) = invoked c)
  /\ timers (step c e) = [] /\ body_ended (step c e) = true.
Proof.
  intros Ht Hb. destruct e; simpl; rewrite ?Hb; auto.
  - unfold next_due. rewrite Ht. simpl. auto.
  - destruct (listeners c); simpl; rewrite ?Ht; auto.
  - destruct (listeners c); simpl; rewrite ?Ht; auto.
Qed.

Lemma settled_run (script : list Event) (c : Conn) :
  timers c = [] -> body_ended c = true ->
  calls (run c script) = calls c /\ invoked (run c script) = invoked c.
Proof.
  revert c. induction script as [|e script IH]; intros c Ht Hb; [auto|].
  rewrite run_cons. destruct (settled_step c e Ht Hb) as ((Hc & Hi) & Ht' & Hb').
  destruct (IH _ Ht' Hb') as [Hc' Hi']. split; congruence.
Qed.

(** Calls are only ever appended. *)
Lemma calls_step (c : Conn) (e : Event) :
  exists more, calls (step c e) = (calls c ++ more)%list.
Proof.
  destruct e; simpl.
  - exists []. now rewrite app_nil_r.
  - destruct (next_due c) as [t|]; [|exists []; now rewrite app_nil_r].
    unfold fire. destruct (callback t); simpl; eauto.
  - exists []. rewrite app_nil_r.
    destruct (body_ended c); [reflexivity|]. destruct (listeners c); reflexivity.
  - destruct (body_ended c); [exists []; now rewrite app_nil_r|].
    destruct (listeners c); simpl; try (exists []; now rewrite app_nil_r).
    + destruct (genai_on_end _ _ _ _) as [cs inv]. simpl. eauto.
    + unfold sse_post_on_end. destruct (bind _ _); simpl; [eauto|].
      rewrite <- app_assoc. eauto.
  - exists []. rewrite app_nil_r. destruct (listeners c); reflexivity.
  - exists []. rewrite app_nil_r. destruct (listeners c); reflexivity.
Qed.

Lemma calls_run (script : list Event) (c : Conn) :
  exists more, calls (run c script) = (calls c ++ more)%list.
Proof.
  revert c. induction script as [|e script IH]; intros c.
  - exists []. now rewrite app_nil_r.
  - rewrite run_cons. destruct (IH (step c e)) as [m2 H2].
    destruct (calls_step c e) as [m1 H1].
    exists (m1 ++ m2)%list. rewrite H2, H1. now rewrite app_assoc.
Qed.

(** *** The SSE stream of a GET *)

Lemma sse_get_opened :
  handler sse_get
  = {| clock := 0;
       calls := (setCORSHeaders ++ [writeHead 200 sse_headers; sse_frame initNotification])%list;
       timers := [ {| handle := 0; due := 100; period := None; callback := PushToolsChanged |};
                   {| handle := 1; due := 25000; period := Some 25000%N;
                      callback := PushHeartbeat |};
                   {| handle := 2; due := 50000; period := None; callback := Deadline 1 |} ];
       fresh := 3; listeners := SseStream 1; body := EmptyString; body_ended := false;
       invoked := [] |}.
Proof. reflexivity. Qed.

Lemma fire_timers (c : Conn) (t u : Timer) :
  In t (timers c) -> In u (timers (fire c t)) ->
  exists u0, In u0 (timers c) /\ handle u = handle u0 /\ callback u = callback u0.
Proof.
  intros Ht Hu.
  assert (Hq : forall q,
    In q (match period t with
          | Some p => (filter (fun u => negb (Nat.eqb (handle u) (handle t))) (timers c)
                       ++ [{| handle := handle t; due := clock c + p;
                              period := Some p; callback := callback t |}])%list
          | None => filter (fun u => negb (Nat.eqb (handle u) (handle t))) (timers c)
          end) ->
    exists u0, In u0 (timers c) /\ handle q = handle u0 /\ callback q = callback u0).
  { intros q Hq. destruct (period t) as [p|].
    - apply in_app_or in Hq. destruct Hq as [Hq|[<-|[]]].
      + apply filter_In in Hq. exists q. tauto.
      + exists t. auto.
    - apply filter_In in Hq. exists q. tauto. }
  unfold fire in Hu. destruct (callback t); simpl in Hu; try (apply Hq; exact Hu).
  apply filter_In in Hu. apply Hq. tauto.
Qed.

Lemma timers_step_sse (c : Conn) (e : Event) (hb : nat) (u : Timer) :
  listeners c = SseStream hb -> In u (timers (step c e)) ->
  exists u0, In u0 (timers c) /\ handle u = handle u0 /\ callback u = callback u0.
Proof.
  intros Hl. destruct e; simpl; rewrite ?Hl.
  - intros H. exists u. auto.
  - destruct (next_due c) as [t|] eqn:E.
    + apply fire_timers. exact (next_due_In _ _ E).
    + intros H. exists u. auto.
  - destruct (body_ended c); intros H; exists u; auto.
  - destruct (body_ended c); intros H; exists u; auto.
  - simpl. intros H. apply filter_In in H. exists u. tauto.
  - simpl. intros H. apply filter_In in H. exists u. tauto.
Qed.

Lemma sse_stream_inv_step (c : Conn) (e : Event) :
  sse_stream_inv c -> sse_stream_inv (step c e).
Proof.
  intros [Hl Ht]. split.
  - rewrite listeners_step. exact Hl.
  - intros u Hu. destruct (timers_step_sse c e 1 u Hl Hu) as (u0 & Hin & Hh & Hc).
    rewrite Hh, Hc. apply Ht, Hin.
Qed.

Lemma sse_stream_inv_opened : sse_stream_inv (handler sse_get).
Proof.
  rewrite sse_get_opened. split; [reflexivity|].
  simpl. intros t [<-|[<-|[<-|[]]]]; simpl; split; intros H; discriminate || reflexivity.
Qed.

Lemma no_heartbeat_step (c : Conn) (e : Event) (hb : nat) :
  listeners c = SseStream hb -> no_heartbeat_armed c ->
  no_heartbeat_armed (step c e)
  /\ exists more, calls (step c e) = (calls c ++ more)%list /\ ~ In heartbeat_chunk more.
Proof.
  intros Hl Hn. split.
  - intros u Hu. destruct (timers_step_sse c e hb u Hl Hu) as (u0 & Hin & _ & Hc).
    rewrite Hc. apply Hn, Hin.
  - assert (Hnil : exists more, calls c = (calls c ++ more)%list /\ ~ In heartbeat_chunk more).
    { exists []. rewrite app_nil_r. auto. }
    destruct e; simpl; rewrite ?Hl; try exact Hnil.
    + destruct (next_due c) as [t|] eqn:E; [|exact Hnil].
      assert (Ht := Hn t (next_due_In _ _ E)).
      unfold fire. destruct (callback t); simpl; try congruence;
        eexists; (split; [reflexivity|]); simpl; intros [H|[]]; discriminate H.
    + destruct (body_ended c); exact Hnil.
    + destruct (body_ended c); exact Hnil.
Qed.

Lemma no_heartbeat_run (script : list Event) (c : Conn) (hb : nat) :
  listeners c = SseStream hb -> no_heartbeat_armed c ->
  exists more, calls (run c script) = (calls c ++ more)%list /\ ~ In heartbeat_chunk more.
Proof.
  revert c. induction script as [|e script IH]; intros c Hl Hn.
  - exists []. rewrite app_nil_r. auto.
  - rewrite run_cons.
    destruct (no_heartbeat_step c e hb Hl Hn) as (Hn' & m1 & H1 & Hm1).
    assert (Hl' : listeners (step c e) = SseStream hb) by (rewrite listeners_step; exact Hl).
    destruct (IH _ Hl' Hn') as (m2 & H2 & Hm2).
    exists (m1 ++ m2)%list. split.
    + rewrite H2, H1. now rewrite app_assoc.
    + intros H. apply in_app_or in H. tauto.
Qed.

(** [earliest] returns a timer that no other timer of the list precedes. *)
Lemma earlier_total (a b : Timer) : earlier a b = false -> earlier b a = true.
Proof.
  unfold earlier. intros H.
  apply orb_false_iff in H. destruct H as [Hlt Heq].
  apply N.ltb_ge in Hlt.
  destruct (N.eqb_spec (due a) (due b)) as [E|E].
  - simpl in Heq. apply Nat.leb_gt in Heq.
    rewrite E, N.eqb_refl, N.ltb_irrefl. simpl. apply Nat.leb_le. lia.
  - assert (Hlt' : (due b < due a)%N) by lia.
    apply N.ltb_lt in Hlt'. rewrite Hlt'. reflexivity.
Qed.

Lemma earlier_refl (a : Timer) : earlier a a = true.
Proof.
  destruct (earlier a a) eqn:E; [reflexivity|].
  pose proof (earlier_total _ _ E). congruence.
Qed.

Lemma earlier_trans (a b d : Timer) :
  earlier a b = true -> earlier b d = true -> earlier a d = true.
Proof.
  unfold earlier. intros Hab Hbd.
  apply orb_true_iff in Hab. apply orb_true_iff in Hbd. apply orb_true_iff.
  rewrite !andb_true_iff, !N.ltb_lt, !N.eqb_eq, !Nat.leb_le in *.
  destruct Hab as [Hab|[Hab Hab']], Hbd as [Hbd|[Hbd Hbd']]; try (left; lia).
  right. split; lia.
Qed.

Lemma earliest_least (ts : list Timer) (t : Timer) :
  earliest ts = Some t -> forall u, In u ts -> earlier t u = true.
Proof.
  revert t. induction ts as [|a ts IH]; intros t H u Hu; [destruct Hu|].
  simpl in H. destruct (earliest ts) as [m|] eqn:Em.
  - destruct (earlier a m) eqn:Eam; injection H as <-.
    + destruct Hu as [<-|Hu].
      * apply earlier_refl.
      * apply (earlier_trans a m u Eam). now apply IH.
    + destruct Hu as [<-|Hu]; [now apply earlier_total|now apply IH].
  - injection H as <-. destruct ts as [|b ts].
    + destruct Hu as [<-|[]]. apply earlier_refl.
    + simpl in Em. destruct (earliest ts); discriminate.
Qed.

Lemma sse_queue_inv_opened : sse_queue_inv (handler sse_get).
Proof.
  rewrite sse_get_opened. split; [reflexivity|]. split.
  - simpl. intros t [<-|[<-|[<-|[]]]]; auto.
  - left. split; [simpl; auto|].
    simpl. intros [Hx|[Hx|[Hx|[Hx|[Hx|[Hx|[]]]]]]]; discriminate Hx.
Qed.

Lemma sse_queue_inv_step (c : Conn) (e : Event) :
  sse_queue_inv c -> sse_queue_inv (step c e).
Proof.
  intros (Hl & Hshape & Hstage).
  split; [rewrite listeners_step; exact Hl|].
  destruct e; simpl; rewrite ?Hl.
  - auto.
  - destruct (next_due c) as [t|] eqn:E; [|auto].
    assert (Hin := next_due_In _ _ E).
    destruct Hstage as [[Hd Hend] | Hnil]; [|rewrite Hnil in Hin; destruct Hin].
    destruct (Hshape t Hin) as [-> | [-> | [Hh Hc]]].
    + (* the pending push *)
      unfold fire. simpl. split.
      * intros u Hu. apply filter_In in Hu. apply Hshape. tauto.
      * left. split.
        -- apply filter_In. split; [exact Hd|reflexivity].
        -- intros Hx. apply in_app_or in Hx. destruct Hx as [Hx|[Hx|[]]];
             [contradiction|discriminate Hx].
    + (* the deadline: the push is no longer pending *)
      unfold fire. simpl.
      assert (Hempty : filter (fun t => negb (Nat.eqb (handle t) 1))
                         (filter (fun u => negb (Nat.eqb (handle u) 2)) (timers c)) = []).
      { destruct (filter _ (filter _ (timers c))) as [|u rest] eqn:F; [reflexivity|].
        exfalso.
        assert (Hu : In u (filter (fun t => negb (Nat.eqb (handle t) 1))
                             (filter (fun u => negb (Nat.eqb (handle u) 2)) (timers c))))
          by (rewrite F; left; reflexivity).
        apply filter_In in Hu. destruct Hu as [Hu H1].
        apply filter_In in Hu. destruct Hu as [Hu H2].
        destruct (Hshape u Hu) as [-> | [-> | [Hh _]]].
        - unfold next_due in E.
          assert (Hdue : In deadline_timer (filter (fun t => (due t <=? clock c)%N) (timers c)))
            by (apply earliest_In; exact E).
          apply filter_In in Hdue. destruct Hdue as [_ Hdue]. apply N.leb_le in Hdue.
          assert (Hlow : In tools_timer (filter (fun t => (due t <=? clock c)%N) (timers c))).
          { apply filter_In. split; [exact Hu|]. apply N.leb_le. simpl in *. lia. }
          pose proof (earliest_least _ _ E _ Hlow) as Hle. discriminate Hle.
        - discriminate H2.
        - rewrite Hh in H1. discriminate H1. }
      rewrite Hempty. split; [intros u []|]. right. reflexivity.
    + (* a heartbeat *)
      unfold fire. rewrite Hc. simpl. split.
      * intros u Hu.
        assert (Hu' : In u (timers c) \/ (handle u = 1 /\ callback u = PushHeartbeat)).
        { destruct (period t).
          - apply in_app_or in Hu. destruct Hu as [Hu|[<-|[]]].
            + apply filter_In in Hu. tauto.
            + simpl. auto.
          - apply filter_In in Hu. tauto. }
        destruct Hu' as [Hu'|Hu']; [apply Hshape; exact Hu'|auto].
      * left. split.
        -- assert (Hkeep : In deadline_timer
                             (filter (fun u => negb (Nat.eqb (handle u) (handle t))) (timers c))).
           { apply filter_In. split; [exact Hd|]. rewrite Hh. reflexivity. }
           destruct (period t); [apply in_or_app; left|]; exact Hkeep.
        -- intros Hx. apply in_app_or in Hx. destruct Hx as [Hx|[Hx|[]]];
             [contradiction|discriminate Hx].
  - destruct (body_ended c); auto.
  - destruct (body_ended c); auto.
  - simpl. split.
    + intros u Hu. apply filter_In in Hu. apply Hshape. tauto.
    + destruct Hstage as [[Hd Hend] | Hnil]; [|right; rewrite Hnil; reflexivity].
      left. split; [|exact Hend]. apply filter_In. split; [exact Hd|reflexivity].
  - simpl. split.
    + intros u Hu. apply filter_In in Hu. apply Hshape. tauto.
    + destruct Hstage as [[Hd Hend] | Hnil]; [|right; rewrite Hnil; reflexivity].
      left. split; [|exact Hend]. apply filter_In. split; [exact Hd|reflexivity].
Qed.

Lemma idle_stream_run (script : list Event) (c : Conn) (hb : nat) :
  listeners c = SseStream hb -> timers c = [] -> calls (run c script) = calls c.
Proof.
  revert c. induction script as [|e script IH]; intros c Hl Ht; [reflexivity|].
  rewrite run_cons.
  assert (Hstep : calls (step c e) = calls c /\ timers (step c e) = []).
  { destruct e; simpl; rewrite ?Hl; auto.
    - unfold next_due. rewrite Ht. simpl. auto.
    - destruct (body_ended c); auto.
    - destruct (body_ended c); auto.
    - simpl. rewrite Ht. auto.
    - simpl. rewrite Ht. auto. }
  destruct Hstep as [Hc Ht'].
  rewrite IH; [exact Hc | rewrite listeners_step; exact Hl | exact Ht'].
Qed.

(** C2, as the code has it: a client disconnect on an SSE stream cancels the
    heartbeat interval and no other timer, so the deadline and a pending
    [tools/list_changed] push stay armed; whatever follows, no heartbeat is
    written on the stream after the disconnect; and once the deadline has
    ended the stream, no timer is left and nothing more is issued on it. *)
Theorem C2_disconnect_cancels_the_heartbeat_only (before after : list Event) :
  let c0 := run (handler sse_get) before in
  let c := step c0 Close in
  (forall t, In t (timers c) -> callback t <> PushHeartbeat)
  /\ (forall t, In t (timers c0) -> callback t <> PushHeartbeat -> In t (timers c))
  /\ (exists more,
        calls (run c after) = (calls c ++ more)%list /\ ~ In heartbeat_chunk more)
  /\ (In end_ (calls c0) -> timers c0 = [] /\ calls (run c0 after) = calls c0).
Proof.
  intros c0 c.
  assert (Hinv : sse_stream_inv c0).
  { apply run_invariant; [apply sse_stream_inv_step | apply sse_stream_inv_opened]. }
  destruct Hinv as [Hl Ht].
  assert (Htimers : timers c = filter (fun t => negb (Nat.eqb (handle t) 1)) (timers c0)).
  { unfold c. simpl. rewrite Hl. reflexivity. }
  assert (Hquiet : no_heartbeat_armed c).
  { intros t Hin. rewrite Htimers in Hin. apply filter_In in Hin. destruct Hin as [Hin Hh].
    intros Hc. apply Ht in Hc; [|exact Hin]. rewrite Hc in Hh. discriminate. }
  split; [exact Hquiet|]. split; [|split].
  - intros t Hin Hc. rewrite Htimers. apply filter_In. split; [exact Hin|].
    destruct (Nat.eqb_spec (handle t) 1) as [Hh|_]; [|reflexivity].
    exfalso. apply Hc. apply Ht; assumption.
  - apply no_heartbeat_run with (hb := 1); [|exact Hquiet].
    unfold c. rewrite listeners_step. exact Hl.
  - intros Hend.
    assert (Hq : sse_queue_inv c0).
    { apply run_invariant; [apply sse_queue_inv_step | apply sse_queue_inv_opened]. }
    destruct Hq as (_ & _ & [[_ Hno] | Hnil]); [contradiction|].
    split; [exact Hnil|]. apply idle_stream_run with (hb := 1); assumption.
Qed.

(** *** A message posted to /sse *)

Lemma sse_post_opened :
  handler sse_post
  = {| clock := 0; calls := sse_post_head; timers := []; fresh := 0;
       listeners := SsePostBody; body := EmptyString; body_ended := false;
       invoked := [] |}.
Proof. reflexivity. Qed.

Lemma sse_post_inv_step (c : Conn) (e : Event) :
  sse_post_inv JSON_parse c -> sse_post_inv JSON_parse (step c e).
Proof.
  intros [Hl Hcases]. split; [rewrite listeners_step; exact Hl|].
  destruct Hcases as [(Hb & Hc & Ht) | (Hb & r & Hr & Hstage)].
  - destruct e; simpl; rewrite ?Hb, ?Hl; auto.
    + unfold next_due. rewrite Ht. simpl. auto.
    + right. unfold sse_post_on_end. simpl.
      destruct (JSON_parse (body c)) as [message|e] eqn:Ep; cbn [bind].
      * destruct (processJsonRpcMessage (toISOString (clock c)) message) as [response|e] eqn:Er.
        -- simpl. split; [reflexivity|]. exists response. split.
           ++ right. exists (toISOString (clock c)), message. auto.
           ++ left. rewrite Hc, Ht. split; [reflexivity|]. eexists. simpl. eauto.
        -- simpl. split; [reflexivity|]. exists parse_error_response. split.
           ++ left. reflexivity.
           ++ right. rewrite Hc, Ht, <- app_assoc. auto.
      * simpl. split; [reflexivity|]. exists parse_error_response. split.
        -- left. reflexivity.
        -- right. rewrite Hc, Ht, <- app_assoc. auto.
  - right.
    assert (Hsame : body_ended c = true /\
                    exists response, answers JSON_parse c response /\
                      ((calls c = (sse_post_head ++ [sse_frame response])%list /\
                        exists t, timers c = [t] /\ callback t = EndResponse /\ period t = None)
                       \/ (calls c = (sse_post_head ++ [sse_frame response; end_])%list /\
                           timers c = []))) by eauto.
    destruct e; simpl;
      [ exact Hsame | | rewrite Hb; exact Hsame | rewrite Hb; exact Hsame
      | rewrite Hl; exact Hsame | rewrite Hl; exact Hsame ].
    destruct (next_due c) as [t|] eqn:E; [|exact Hsame].
    apply next_due_In in E.
    destruct Hstage as [(Hc & t0 & Ht0 & Hcb & Hp) | (Hc & Ht)].
    + rewrite Ht0 in E. destruct E as [<-|[]].
      split; [unfold fire; rewrite Hcb; exact Hb|].
      exists r. split; [unfold fire; rewrite Hcb; exact Hr|].
      right. unfold fire. rewrite Hcb, Hp, Ht0. simpl.
      rewrite Nat.eqb_refl. simpl. rewrite Hc, <- app_assoc. auto.
    + rewrite Ht in E. destruct E.
Qed.

Lemma sse_post_inv_run (script : list Event) :
  sse_post_inv JSON_parse (run (handler sse_post) script).
Proof.
  apply run_invariant; [apply sse_post_inv_step|].
  rewrite sse_post_opened. split; [reflexivity|]. left. auto.
Qed.

(** C7: when the body posted to /sse does not parse, the listener pushes one
    data frame, the response with code -32700 and [id] null, ends the stream,
    and nothing is issued on the stream afterwards. *)
Theorem C7_malformed_body_single_frame_then_end
    (before after : list Event) (e : Exn) :
  let c := run (handler sse_post) before in
  body_ended c = false ->
  JSON_parse (body c) = Throw e ->
  calls (run (step c EndOfBody) after)
  = (setCORSHeaders
     ++ [ writeHead 200 sse_headers;
          write (SseData (Json (VObj [("jsonrpc", VStr "2.0"); ("id", VNull);
                                      ("error", VObj [("code", VNum "-32700");
                                                      ("message", VStr "Parse error")])])));
          end_ ])%list.
Proof.
  intros c Hb Hp.
  destruct (sse_post_inv_run before) as [Hl [(_ & Hc & Ht) | (Hb' & _)]];
    fold c in Hl, Hc, Ht || fold c in Hb'; [|congruence].
  assert (Hstep : step c EndOfBody
                  = issue (sendSSE (end_of_body c) parse_error_response) [end_]).
  { simpl. rewrite Hb, Hl. unfold sse_post_on_end. simpl. rewrite Hp. reflexivity. }
  assert (Hsettled : timers (step c EndOfBody) = [] /\ body_ended (step c EndOfBody) = true).
  { rewrite Hstep. simpl. auto. }
  destruct Hsettled as [Ht' Hb'].
  rewrite (proj1 (settled_run after _ Ht' Hb')), Hstep. simpl. rewrite Hc. reflexivity.
Qed.

(** C8: on the stream of a GET to /sse the [initialized] frame is written, and
    a [tools/list_changed] frame is only ever written after it; on the stream
    of a POST to /sse the response to the posted body is pushed once the body
    has ended, and the stream is only ever ended after that frame. *)
Theorem C8_frames_in_order :
  (forall script pre post,
     calls (run (handler sse_get) script)
     = (pre ++ sse_frame toolsNotification :: post)%list ->
     In (sse_frame initNotification) pre)
  /\ (forall script pre post,
        calls (run (handler sse_post) script) = (pre ++ end_ :: post)%list ->
        exists response,
          answers JSON_parse (run (handler sse_post) script) response
          /\ In (sse_frame response) pre)
  /\ (forall script,
        In (sse_frame initNotification) (calls (run (handler sse_get) script)))
  /\ (forall script,
        body_ended (run (handler sse_post) script) = true ->
        exists response,
          answers JSON_parse (run (handler sse_post) script) response
          /\ In (sse_frame response) (calls (run (handler sse_post) script))).
Proof.
  split; [|split; [|split]].
  - intros script pre post H.
    destruct (calls_run script (handler sse_get)) as [more Hmore].
    rewrite H in Hmore. rewrite sse_get_opened in Hmore. simpl calls in Hmore.
    symmetry in Hmore.
    change (((setCORSHeaders ++ [writeHead 200 sse_headers])
             ++ sse_frame initNotification :: more)%list
            = (pre ++ sse_frame toolsNotification :: post)%list) in Hmore.
    apply (found_before _ _ _ _ _ _ Hmore); [|discriminate].
    simpl. intros [Hx|[Hx|[Hx|[Hx|[Hx|[]]]]]]; discriminate Hx.
  - intros script pre post H.
    destruct (sse_post_inv_run script) as [_ [(_ & Hc & _) | (_ & r & Hr & Hstage)]].
    + exfalso. rewrite H in Hc.
      assert (Hin : In end_ sse_post_head) by (rewrite <- Hc; apply in_middle).
      simpl in Hin. destruct Hin as [Hx|[Hx|[Hx|[Hx|[Hx|[]]]]]]; discriminate Hx.
    + exists r. split; [exact Hr|].
      destruct Hstage as [(Hc & _) | (Hc & _)].
      * exfalso. rewrite H in Hc.
        assert (Hin : In end_ (sse_post_head ++ [sse_frame r])%list)
          by (rewrite <- Hc; apply in_middle).
        simpl in Hin. destruct Hin as [Hx|[Hx|[Hx|[Hx|[Hx|[Hx|[]]]]]]]; discriminate Hx.
      * rewrite H in Hc. symmetry in Hc.
        apply (found_before _ _ _ _ _ _ Hc); [|discriminate].
        simpl. intros [Hx|[Hx|[Hx|[Hx|[Hx|[]]]]]]; discriminate Hx.
  - intros script.
    destruct (calls_run script (handler sse_get)) as [more Hmore].
    rewrite Hmore, sse_get_opened. simpl calls.
    apply in_or_app. left. simpl. tauto.
  - intros script Hb.
    destruct (sse_post_inv_run script) as [_ [(Hb' & _) | (_ & r & Hr & Hstage)]];
      [congruence|].
    exists r. split; [exact Hr|].
    destruct Hstage as [(Hc & _) | (Hc & _)]; rewrite Hc;
      apply in_or_app; right; simpl; auto.
Qed.

(** *** The GenAI execution endpoint *)

Lemma genai_opened (toolName : string) (tool : Tool) :
  find_tool toolName = Some tool ->
  handler (genai_post toolName)
  = {| clock := 0; calls := setCORSHeaders; timers := []; fresh := 0;
       listeners := GenAIBody toolName; body := EmptyString; body_ended := false;
       invoked := [] |}.
Proof.
  intros H. destruct (find_tool_some _ _ H) as [[-> _]|[-> _]]; reflexivity.
Qed.

Lemma genai_inv_step (toolName : string) (c : Conn) (e : Event) :
  genai_inv toolName c -> genai_inv toolName (step c e).
Proof.
  intros [Hl Hpending]. split; [rewrite listeners_step; exact Hl|].
  destruct (body_ended c) eqn:Hb.
  - rewrite (body_ended_step c e Hb). discriminate.
  - destruct (Hpending eq_refl) as (Hc & Ht & Hi).
    destruct e; simpl; rewrite ?Hb, ?Hl; auto.
    + unfold next_due. rewrite Ht. simpl. rewrite Hb. auto.
    + destruct (genai_on_end _ _ _ _). simpl. discriminate.
Qed.

Lemma genai_inv_run (toolName : string) (tool : Tool) (script : list Event) :
  find_tool toolName = Some tool ->
  genai_inv toolName (run (handler (genai_post toolName)) script).
Proof.
  intros H. apply run_invariant; [apply genai_inv_step|].
  rewrite (genai_opened _ _ H). split; [reflexivity|]. auto.
Qed.

Lemma missing_params_object (names : list string) (props : list (string * Val)) :
  missing_params names (VObj props)
  = Return (filter (fun param => negb (has_own param props)) names).
Proof.
  induction names as [|param names IH]; [reflexivity|].
  simpl. rewrite IH. simpl. destruct (has_own param props); reflexivity.
Qed.

Lemma all_present (names : list string) (props : list (string * Val)) :
  (forall param, In param names -> has_own param props = true) ->
  filter (fun param => negb (has_own param props)) names = [].
Proof.
  induction names as [|param names IH]; intros H; [reflexivity|].
  simpl. rewrite (H param (or_introl eq_refl)). simpl.
  apply IH. intros q Hq. apply H. right. exact Hq.
Qed.

(** C4: a POST to the execution endpoint of a registered tool whose parameters
    lack a required name is answered 400 with [success] false, the missing
    names in declaration order, and the tool's full required list; the tool
    logic is not run, then or later. *)
Theorem C4_missing_parameters_are_rejected
    (toolName : string) (tool : Tool) (before after : list Event)
    (requestData : Val) (props : list (string * Val)) :
  let c := run (handler (genai_post toolName)) before in
  let missing :=
    filter (fun param => negb (has_own param props)) (required (inputSchema tool)) in
  find_tool toolName = Some tool ->
  body_ended c = false ->
  JSON_parse (body c) = Return requestData ->
  parameters_of requestData = Return (VObj props) ->
  missing <> [] ->
  calls (run (step c EndOfBody) after)
  = (setCORSHeaders
     ++ [ status 400;
          json (VObj [("success", VBool false);
                      ("error", VStr ("Missing required parameters: " ++ join ", " missing));
                      ("required_parameters", VArr (map VStr (required (inputSchema tool))));
                      ("provided_parameters", VArr (map VStr (map fst props)));
                      ("metadata", VObj [("tool", VStr toolName);
                                         ("timestamp", VStr (toISOString (clock c)))])]) ])%list
  /\ invoked (run (step c EndOfBody) after) = [].
Proof.
  intros c missing Hfind Hb Hp Hparams Hmissing.
  destruct (genai_inv_run toolName tool before Hfind) as [Hl Hpending]; fold c in Hl, Hpending.
  destruct (Hpending Hb) as (Hc & Ht & Hi).
  assert (Hend : genai_on_end JSON_parse (toISOString (clock c)) toolName (body c)
                 = ([ status 400;
                      json (VObj [("success", VBool false);
                                  ("error", VStr ("Missing required parameters: "
                                                  ++ join ", " missing));
                                  ("required_parameters",
                                   VArr (map VStr (required (inputSchema tool))));
                                  ("provided_parameters", VArr (map VStr (map fst props)));
                                  ("metadata", VObj [("tool", VStr toolName);
                                                     ("timestamp",
                                                      VStr (toISOString (clock c)))])]) ],
                    [])).
  { unfold genai_on_end. rewrite Hp. cbn [bind]. rewrite Hparams. cbn [bind].
    rewrite Hfind, missing_params_object. cbn [bind]. fold missing.
    destruct missing as [|m ms]; [congruence|]. reflexivity. }
  assert (Hstep : step c EndOfBody
                  = record_invoked
                      (issue (end_of_body c)
                         (fst (genai_on_end JSON_parse (toISOString (clock c)) toolName (body c))))
                      (snd (genai_on_end JSON_parse (toISOString (clock c)) toolName (body c)))).
  { simpl. rewrite Hb, Hl. destruct (genai_on_end _ _ _ _). reflexivity. }
  rewrite Hend in Hstep. cbn [fst snd] in Hstep.
  assert (Hsettled : timers (step c EndOfBody) = [] /\ body_ended (step c EndOfBody) = true).
  { rewrite Hstep. simpl. auto. }
  destruct Hsettled as [Ht' Hb'].
  destruct (settled_run after _ Ht' Hb') as [Hcalls Hinv].
  rewrite Hcalls, Hinv, Hstep. simpl. rewrite Hc, Hi. auto.
Qed.

(** C9: on the execution endpoint the check is one of key presence: when the
    parameters object holds every required name as a key, whatever the
    values, the tool logic is run on it once, and the answer is 200 with its
    result, or 500 with its message when it throws; never a 400. *)
Theorem C9_presence_is_all_that_is_checked
    (toolName : string) (tool : Tool) (before after : list Event)
    (requestData : Val) (props : list (string * Val)) :
  let c := run (handler (genai_post toolName)) before in
  let now := toISOString (clock c) in
  find_tool toolName = Some tool ->
  body_ended c = false ->
  JSON_parse (body c) = Return requestData ->
  parameters_of requestData = Return (VObj props) ->
  (forall param, In param (required (inputSchema tool)) -> has_own param props = true) ->
  invoked (run (step c EndOfBody) after) = [(toolName, VObj props)]
  /\ calls (run (step c EndOfBody) after)
     = (setCORSHeaders
        ++ match executeToolLogic now toolName (VObj props) with
           | Return result =>
               [ status 200;
                 json (VObj [("success", VBool true);
                             ("result", VStr result);
                             ("metadata", VObj [("tool", VStr toolName);
                                                ("timestamp", VStr now);
                                                ("parameters", VObj props);
                                                ("execution_time", VStr now)])]) ]
           | Throw toolError =>
               [ status 500;
                 json (VObj [("success", VBool false);
                             ("error", VStr (JS.message toolError));
                             ("metadata", VObj [("tool", VStr toolName);
                                                ("timestamp", VStr now);
                                                ("parameters", VObj props)])]) ]
           end)%list.
Proof.
  intros c now Hfind Hb Hp Hparams Hpresent.
  destruct (genai_inv_run toolName tool before Hfind) as [Hl Hpending]; fold c in Hl, Hpending.
  destruct (Hpending Hb) as (Hc & Ht & Hi).
  assert (Hstep : step c EndOfBody
                  = record_invoked
                      (issue (end_of_body c)
                         (fst (genai_on_end JSON_parse now toolName (body c))))
                      (snd (genai_on_end JSON_parse now toolName (body c)))).
  { simpl. rewrite Hb, Hl. fold now. destruct (genai_on_end _ _ _ _). reflexivity. }
  assert (Hsettled : timers (step c EndOfBody) = [] /\ body_ended (step c EndOfBody) = true).
  { rewrite Hstep. simpl. auto. }
  destruct Hsettled as [Ht' Hb'].
  destruct (settled_run after _ Ht' Hb') as [Hcalls Hinv].
  rewrite Hcalls, Hinv, Hstep. simpl. rewrite Hc, Hi.
  unfold genai_on_end. rewrite Hp. cbn [bind]. rewrite Hparams. cbn [bind].
  rewrite Hfind, missing_params_object, (all_present _ _ Hpresent). cbn [bind length Nat.ltb Nat.leb].
  destruct (executeToolLogic now toolName (VObj props)); auto.
Qed.

End Transport.

(** ** The theorems at concrete requests *)

(** The body [{], and what follows its end. *)
Lemma C7_malformed_body_witness :
  calls (run Sample.JSON_parse Sample.toISOString
           (step Sample.JSON_parse Sample.toISOString
              (run Sample.JSON_parse Sample.toISOString
                 (handler Sample.toISOString sse_post) [Data "{"])
              EndOfBody)
           [Elapse 100; Tick; Close])
  = (setCORSHeaders
     ++ [ writeHead 200 sse_headers;
          write (SseData (Json (VObj [("jsonrpc", VStr "2.0"); ("id", VNull);
                                      ("error", VObj [("code", VNum "-32700");
                                                      ("message", VStr "Parse error")])])));
          end_ ])%list.
Proof.
  apply (C7_malformed_body_single_frame_then_end Sample.JSON_parse Sample.toISOString
           [Data "{"] [Elapse 100; Tick; Close]
           (SyntaxError "Unexpected end of JSON input")).
  - reflexivity.
  - reflexivity.
Defined.

(** A stream whose push timer has run, and a posted [ping]. *)
Lemma C8_frames_in_order_witness :
  In (sse_frame initNotification)
     (setCORSHeaders ++ [writeHead 200 sse_headers; sse_frame initNotification])%list
  /\ exists response,
       answers Sample.JSON_parse
         (run Sample.JSON_parse Sample.toISOString (handler Sample.toISOString sse_post)
            [Data Sample.body_ping; EndOfBody; Elapse 100; Tick])
         response
       /\ In (sse_frame response)
            (sse_post_head
             ++ [sse_frame (VObj [("jsonrpc", VStr "2.0"); ("id", VNum "1");
                                  ("result", VObj [])])])%list.
Proof.
  destruct (C8_frames_in_order Sample.JSON_parse Sample.toISOString)
    as (Hget & Hpost & _ & _).
  split.
  - apply (Hget [Elapse 100; Tick] _ []). reflexivity.
  - apply (Hpost [Data Sample.body_ping; EndOfBody; Elapse 100; Tick] _ []). reflexivity.
Defined.

(** [search] with empty parameters. *)
Lemma C4_missing_parameters_witness :
  calls (run Sample.JSON_parse Sample.toISOString
           (step Sample.JSON_parse Sample.toISOString
              (run Sample.JSON_parse Sample.toISOString
                 (handler Sample.toISOString (genai_post "search"))
                 [Data Sample.body_no_parameters])
              EndOfBody)
           [Elapse 100; Tick])
  = (setCORSHeaders
     ++ [ status 400;
          json (VObj [("success", VBool false);
                      ("error", VStr "Missing required parameters: query");
                      ("required_parameters", VArr [VStr "query"]);
                      ("provided_parameters", VArr []);
                      ("metadata", VObj [("tool", VStr "search");
                                         ("timestamp", VStr "1970-01-01T00:00:00.000Z")])]) ])%list
  /\ invoked (run Sample.JSON_parse Sample.toISOString
                (step Sample.JSON_parse Sample.toISOString
                   (run Sample.JSON_parse Sample.toISOString
                      (handler Sample.toISOString (genai_post "search"))
                      [Data Sample.body_no_parameters])
                   EndOfBody)
                [Elapse 100; Tick]) = [].
Proof.
  apply (C4_missing_parameters_are_rejected Sample.JSON_parse Sample.toISOString
           "search"
           {| name := "search";
              description := "Search for information in GoHighLevel CRM system";
              inputSchema := {|
                properties :=
                  [("query", VObj [("type", VStr "string");
                                   ("description", VStr "Search query for GoHighLevel data")])];
                required := ["query"] |} |}
           [Data Sample.body_no_parameters] [Elapse 100; Tick]
           (VObj [("parameters", VObj [])]) []).
  - reflexivity.
  - reflexivity.
  - reflexivity.
  - reflexivity.
  - discriminate.
Defined.

(** [search] with a [query] that is [null]. *)
Lemma C9_presence_witness :
  invoked (run Sample.JSON_parse Sample.toISOString
             (step Sample.JSON_parse Sample.toISOString
                (run Sample.JSON_parse Sample.toISOString
                   (handler Sample.toISOString (genai_post "search"))
                   [Elapse 3; Data Sample.body_null_query])
                EndOfBody)
             [])
  = [("search", VObj [("query", VNull)])]
  /\ calls (run Sample.JSON_parse Sample.toISOString
              (step Sample.JSON_parse Sample.toISOString
                 (run Sample.JSON_parse Sample.toISOString
                    (handler Sample.toISOString (genai_post "search"))
                    [Elapse 3; Data Sample.body_null_query])
                 EndOfBody)
              [])
     = (setCORSHeaders
        ++ match executeToolLogic "1970-01-01T00:00:00.003Z" "search"
                   (VObj [("query", VNull)]) with
           | Return result =>
               [ status 200;
                 json (VObj [("success", VBool true);
                             ("result", VStr result);
                             ("metadata", VObj [("tool", VStr "search");
                                                ("timestamp", VStr "1970-01-01T00:00:00.003Z");
                                                ("parameters", VObj [("query", VNull)]);
                                                ("execution_time",
                                                 VStr "1970-01-01T00:00:00.003Z")])]) ]
           | Throw toolError =>
               [ status 500;
                 json (VObj [("success", VBool false);
                             ("error", VStr (JS.message toolError));
                             ("metadata", VObj [("tool", VStr "search");
                                                ("timestamp", VStr "1970-01-01T00:00:00.003Z");
                                                ("parameters", VObj [("query", VNull)])])]) ]
           end)%list.
Proof.
  apply (C9_presence_is_all_that_is_checked Sample.JSON_parse Sample.toISOString
           "search"
           {| name := "search";
              description := "Search for information in GoHighLevel CRM system";
              inputSchema := {|
                properties :=
                  [("query", VObj [("type", VStr "string");
                                   ("description", VStr "Search query for GoHighLevel data")])];
                required := ["query"] |} |}
           [Elapse 3; Data Sample.body_null_query] []
           (VObj [("parameters", VObj [("query", VNull)])]) [("query", VNull)]).
  - reflexivity.
  - reflexivity.
  - reflexivity.
  - reflexivity.
  - simpl. intros param [<-|[]]. reflexivity.
Defined.

(** The deadline is still armed after a disconnect at 50 ms. *)
Lemma C2_disconnect_witness :
  In {| handle := 2; due := 50000; period := None; callback := Deadline 1 |}
     (timers (step Sample.JSON_parse Sample.toISOString
                (run Sample.JSON_parse Sample.toISOString
                   (handler Sample.toISOString sse_get) [Elapse 50])
                Close)).
Proof.
  destruct (C2_disconnect_cancels_the_heartbeat_only Sample.JSON_parse Sample.toISOString
              [Elapse 50] [Elapse 50; Tick]) as (_ & Hkept & _ & _).
  apply Hkept.
  - simpl. right. right. left. reflexivity.
  - discriminate.
Defined.

(** C2, as stated, fails: when the client goes away 50 ms after the stream was
    opened, the deadline and the pending push stay armed, and 50 ms later the
    [tools/list_changed] frame is written on the stream. *)
Lemma C2_disconnect_counterexample :
  ~ disconnect_quiesces Sample.JSON_parse Sample.toISOString [Elapse 50] [Elapse 50; Tick].
Proof.
  unfold disconnect_quiesces. intros [Htimers _].
  vm_compute in Htimers. discriminate Htimers.
Qed.

(** The two halves of that failure, one by one. *)
Example timers_left_after_disconnect :
  timers (run Sample.JSON_parse Sample.toISOString (handler Sample.toISOString sse_get)
            [Elapse 50; Close])
  = [ {| handle := 0; due := 100; period := None; callback := PushToolsChanged |};
      {| handle := 2; due := 50000; period := None; callback := Deadline 1 |} ].
Proof. reflexivity. Qed.

Example calls_after_disconnect :
  calls (run Sample.JSON_parse Sample.toISOString (handler Sample.toISOString sse_get)
           [Elapse 50; Close; Elapse 50; Tick; Elapse 49900; Tick])
  = (calls (run Sample.JSON_parse Sample.toISOString (handler Sample.toISOString sse_get)
              [Elapse 50; Close])
     ++ [sse_frame toolsNotification; end_])%list.
Proof. reflexivity. Qed.

(** The body [null] decodes, the dispatcher throws on it, and the listener of
    POST /sse reports a parse error. *)
Example null_body_reported_as_parse_error :
  calls (run Sample.JSON_parse Sample.toISOString (handler Sample.toISOString sse_post)
           [Data "null"; EndOfBody])
  = (sse_post_head ++ [sse_frame parse_error_response; end_])%list.
Proof. reflexivity. Qed.

(** The REST endpoint, given the arguments of [search_without_query], answers
    400 where the dispatcher answers with a result. *)
Example rest_rejects_search_without_query :
  genai_on_end Sample.JSON_parse "1970-01-01T00:00:00.000Z" "search" Sample.body_no_parameters
  = ([ status 400;
       json (VObj [("success", VBool false);
                   ("error", VStr "Missing required parameters: query");
                   ("required_parameters", VArr [VStr "query"]);
                   ("provided_parameters", VArr []);
                   ("metadata", VObj [("tool", VStr "search");
                                      ("timestamp", VStr "1970-01-01T00:00:00.000Z")])]) ],
      []).
Proof. reflexivity. Qed.
(** ** More on the dispatcher *)

Import Shapes.

Lemma bind_Return {A B} (c : Completion A) (k : A -> Completion B) (b : B) :
  bind c k = Return b -> exists a, c = Return a /\ k a = Return b.
Proof. destruct c as [a|e]; simpl; intros H; [eauto|discriminate]. Qed.

Lemma get_prop_nullish (v : Val) (k : string) :
  nullish v = true ->
  get_prop v k
  = Throw (TypeError ("Cannot read properties of " ++ show_prim v ++ " (reading '" ++ k ++ "')")).
Proof. destruct v; simpl; intros H; try discriminate; reflexivity. Qed.

Lemma createJsonRpcResponse_result (id result : Val) :
  createJsonRpcResponse id result VNull = success_response id result.
Proof. reflexivity. Qed.

Lemma createJsonRpcResponse_error (id result : Val) (code msg : string)
    (more : list (string * Val)) :
  createJsonRpcResponse id result (VObj (("code", VNum code) :: ("message", VStr msg) :: more))
  = error_response id code msg more.
Proof. reflexivity. Qed.

Ltac invert_binds H :=
  repeat (let a := fresh "a" in let Ha := fresh "Ha" in
          apply bind_Return in H; destruct H as (a & Ha & H));
  repeat match goal with
         | E : Return ?x = Return ?y |- _ => injection E as E; try subst y
         end.

Lemma handleToolsCall_envelope (now : string) (request id response : Val) :
  get_prop request "id" = Return id ->
  handleToolsCall now request = Return response ->
  (exists result, response = success_response id result)
  \/ (exists msg, response = error_response id "-32601" msg []).
Proof.
  intros Hid H. unfold handleToolsCall in H.
  apply bind_Return in H. destruct H as (params & _ & H).
  apply bind_Return in H. destruct H as ([name args] & _ & H).
  rewrite Hid in H. cbn [bind] in H.
  destruct (is_str name "search").
  - invert_binds H. left. eexists. reflexivity.
  - destruct (is_str name "retrieve").
    + invert_binds H. left. eexists. reflexivity.
    + invert_binds H. right. eexists. reflexivity.
Qed.

(** X1: Every response of the dispatcher is an envelope of version 2.0 that
    carries the message's own [id] and either a result or an error, the error
    with one of the codes -32600, -32601 and -32603. *)
Theorem X1_response_is_an_envelope (now : string) (message response : Val) :
  processJsonRpcMessage now message = Return response ->
  exists id,
    get_prop message "id" = Return id /\
    ((exists result, response = success_response id result)
     \/ (exists code msg more,
           response = error_response id code msg more /\
           In code ["-32600"; "-32601"; "-32603"])).
Proof.
  intros H.
  destruct (nullish message) eqn:Hn.
  { destruct message; try discriminate Hn; discriminate H. }
  destruct (get_prop_defined message "id" Hn) as [id Hid].
  destruct (get_prop_defined message "method" Hn) as [m Hm].
  destruct (get_prop_defined message "jsonrpc" Hn) as [j Hj].
  exists id. split; [exact Hid|].
  unfold processJsonRpcMessage, try_catch in H.
  destruct (process_try now message) as [r|e] eqn:Ht.
  - injection H as <-. unfold process_try in Ht.
    rewrite Hm, Hid, Hj in Ht. cbn [bind] in Ht.
    destruct (is_str j "2.0"); cbn [negb] in Ht.
    + destruct (is_str m "initialize").
      { unfold handleInitialize in Ht. rewrite Hid in Ht.
        invert_binds Ht. left. eexists. reflexivity. }
      destruct (is_str m "tools/list").
      { unfold handleToolsList in Ht. rewrite Hid in Ht.
        injection Ht as <-. left. eexists. reflexivity. }
      destruct (is_str m "tools/call").
      { destruct (handleToolsCall_envelope _ _ _ _ Hid Ht) as [Hr | [msg Hr]]; [left; exact Hr|].
        right. exists "-32601", msg, []. split; [exact Hr|]. simpl. auto. }
      destruct (is_str m "ping").
      { unfold handlePing in Ht. rewrite Hid in Ht.
        injection Ht as <-. left. eexists. reflexivity. }
      invert_binds Ht.
      right. eexists "-32601", _, []. split; [reflexivity|]. simpl. auto.
    + injection Ht as <-.
      right. eexists "-32600", _, []. split; [reflexivity|]. simpl. auto.
  - unfold process_catch in H. rewrite Hid in H. injection H as <-.
    right. eexists "-32603", _, [_]. split; [reflexivity|]. simpl. auto.
Qed.

(** A [ping] of version 2.0 with [id] 1. *)
Lemma X1_response_witness :
  exists id,
    get_prop (VObj [("jsonrpc", VStr "2.0"); ("id", VNum "1"); ("method", VStr "ping")]) "id"
    = Return id /\
    ((exists result, success_response (VNum "1") (VObj []) = success_response id result)
     \/ (exists code msg more,
           success_response (VNum "1") (VObj []) = error_response id code msg more /\
           In code ["-32600"; "-32601"; "-32603"])).
Proof.
  apply (X1_response_is_an_envelope "1970-01-01T00:00:00.000Z"
           (VObj [("jsonrpc", VStr "2.0"); ("id", VNum "1"); ("method", VStr "ping")])).
  reflexivity.
Defined.

(** X2: The three methods that cannot fail: for a message of version 2.0,
    [initialize], [tools/list] and [ping] are answered with their result under
    the message's [id], whatever [params] holds. *)
Theorem X2_initialize_list_ping_succeed (now : string) (message : Val) (m : string) :
  get_prop message "jsonrpc" = Return (VStr "2.0") ->
  get_prop message "method" = Return (VStr m) ->
  In m ["initialize"; "tools/list"; "ping"] ->
  exists id,
    get_prop message "id" = Return id /\
    processJsonRpcMessage now message
    = Return (success_response id
                (if String.eqb m "initialize" then
                   VObj [("protocolVersion", VStr "2024-11-05");
                         ("capabilities", VObj [("tools", VObj [])]);
                         ("serverInfo", VObj [("name", VStr "ghl-mcp-server");
                                              ("version", VStr "1.0.0")])]
                 else if String.eqb m "tools/list" then
                   VObj [("tools", VArr (map tool_val TOOLS))]
                 else VObj [])).
Proof.
  intros Hj Hm Hin.
  destruct (get_prop_other _ _ "id" _ Hj) as [id Hid].
  destruct (get_prop_other _ _ "params" _ Hj) as [params Hp].
  exists id. split; [exact Hid|].
  unfold processJsonRpcMessage, process_try.
  rewrite Hm, Hid, Hj. cbn [bind is_str]. cbn [String.eqb Ascii.eqb Bool.eqb negb].
  destruct Hin as [<-|[<-|[<-|[]]]]; cbn [String.eqb Ascii.eqb Bool.eqb];
    unfold handleInitialize, handleToolsList, handlePing; rewrite ?Hp, Hid; reflexivity.
Qed.

(** [initialize] with [params] of no use, a number. *)
Lemma X2_initialize_witness :
  exists id,
    get_prop (VObj [("jsonrpc", VStr "2.0"); ("id", VStr "a"); ("method", VStr "initialize");
                    ("params", VNum "5")]) "id" = Return id /\
    processJsonRpcMessage "1970-01-01T00:00:00.000Z"
      (VObj [("jsonrpc", VStr "2.0"); ("id", VStr "a"); ("method", VStr "initialize");
             ("params", VNum "5")])
    = Return (success_response id
                (if String.eqb "initialize" "initialize" then
                   VObj [("protocolVersion", VStr "2024-11-05");
                         ("capabilities", VObj [("tools", VObj [])]);
                         ("serverInfo", VObj [("name", VStr "ghl-mcp-server");
                                              ("version", VStr "1.0.0")])]
                 else if String.eqb "initialize" "tools/list" then
                   VObj [("tools", VArr (map tool_val TOOLS))]
                 else VObj [])).
Proof.
  apply X2_initialize_list_ping_succeed; [reflexivity | reflexivity | simpl; auto].
Defined.

(** X3: A [tools/call] without [params], or with [params] null, is answered with
    the internal error -32603: the destructuring of [request.params] throws. *)
Theorem X3_tools_call_without_params (now : string) (message params : Val) :
  get_prop message "jsonrpc" = Return (VStr "2.0") ->
  get_prop message "method" = Return (VStr "tools/call") ->
  get_prop message "params" = Return params ->
  nullish params = true ->
  exists id,
    get_prop message "id" = Return id /\
    processJsonRpcMessage now message
    = Return (error_response id "-32603" "Internal error"
                [("data", VStr ("Cannot destructure property 'name' of 'request.params' as it is "
                                ++ show_prim params ++ "."))]).
Proof.
  intros Hj Hm Hp Hn.
  destruct (get_prop_other _ _ "id" _ Hj) as [id Hid].
  exists id. split; [exact Hid|].
  unfold processJsonRpcMessage, process_try, try_catch, process_catch.
  rewrite Hm, Hid, Hj. cbn [bind is_str]. cbn [String.eqb Ascii.eqb Bool.eqb negb].
  unfold handleToolsCall, destructure_call. rewrite Hp. cbn [bind]. rewrite Hn.
  reflexivity.
Qed.

Lemma X3_tools_call_without_params_witness :
  exists id,
    get_prop (VObj [("jsonrpc", VStr "2.0"); ("id", VNum "4"); ("method", VStr "tools/call")])
      "id" = Return id /\
    processJsonRpcMessage "1970-01-01T00:00:00.000Z"
      (VObj [("jsonrpc", VStr "2.0"); ("id", VNum "4"); ("method", VStr "tools/call")])
    = Return (error_response id "-32603" "Internal error"
                [("data", VStr ("Cannot destructure property 'name' of 'request.params' as it is "
                                ++ show_prim VUndefined ++ "."))]).
Proof.
  apply (X3_tools_call_without_params _ _ VUndefined); reflexivity.
Defined.

(** X4: A [tools/call] for [search] or [retrieve] whose [arguments] are absent or
    null is answered with the internal error -32603: the first argument read,
    [query] for [search] and [type] for [retrieve], throws.  Nothing is put in
    the place of absent arguments. *)
Theorem X4_tools_call_without_arguments
    (now : string) (message params args : Val) (tool : Tool) :
  get_prop message "jsonrpc" = Return (VStr "2.0") ->
  get_prop message "method" = Return (VStr "tools/call") ->
  get_prop message "params" = Return params ->
  get_prop params "name" = Return (VStr (name tool)) ->
  get_prop params "arguments" = Return args ->
  In tool TOOLS ->
  nullish args = true ->
  exists id,
    get_prop message "id" = Return id /\
    processJsonRpcMessage now message
    = Return (error_response id "-32603" "Internal error"
                [("data", VStr ("Cannot read properties of " ++ show_prim args
                                ++ " (reading '"
                                ++ (if String.eqb (name tool) "search" then "query" else "type")
                                ++ "')"))]).
Proof.
  intros Hj Hm Hp Hname Ha Hin Hn.
  destruct (get_prop_other _ _ "id" _ Hj) as [id Hid].
  exists id. split; [exact Hid|].
  unfold processJsonRpcMessage, process_try, try_catch, process_catch.
  rewrite Hm, Hid, Hj. cbn [bind is_str]. cbn [String.eqb Ascii.eqb Bool.eqb negb].
  unfold handleToolsCall, destructure_call. rewrite Hp. cbn [bind].
  rewrite (get_prop_base _ _ _ Hname), Hname, Ha. cbn [bind].
  destruct Hin as [<-|[<-|[]]]; cbn [name is_str String.eqb Ascii.eqb Bool.eqb];
    rewrite (get_prop_nullish _ _ Hn); reflexivity.
Qed.

Lemma X4_tools_call_without_arguments_witness :
  exists id,
    get_prop (VObj [("jsonrpc", VStr "2.0"); ("id", VNum "5"); ("method", VStr "tools/call");
                    ("params", VObj [("name", VStr "retrieve")])]) "id" = Return id /\
    processJsonRpcMessage "1970-01-01T00:00:00.000Z"
      (VObj [("jsonrpc", VStr "2.0"); ("id", VNum "5"); ("method", VStr "tools/call");
             ("params", VObj [("name", VStr "retrieve")])])
    = Return (error_response id "-32603" "Internal error"
                [("data", VStr ("Cannot read properties of " ++ show_prim VUndefined
                                ++ " (reading '"
                                ++ (if String.eqb "retrieve" "search" then "query" else "type")
                                ++ "')"))]).
Proof.
  apply (X4_tools_call_without_arguments _ _ (VObj [("name", VStr "retrieve")]) VUndefined
           {| name := "retrieve";
              description := "Retrieve specific data from GoHighLevel";
              inputSchema := {|
                properties :=
                  [("id", VObj [("type", VStr "string");
                                ("description", VStr "ID of the item to retrieve")]);
                   ("type", VObj [("type", VStr "string");
                                  ("enum", VArr [VStr "contact"; VStr "conversation"; VStr "blog"]);
                                  ("description", VStr "Type of item to retrieve")])];
                required := ["id"; "type"] |} |});
    try reflexivity.
  simpl. auto.
Defined.

(** X5: The text of [retrieve] is a function of the [type] and [id] arguments and
    of the clock reading, and a [tools/call] for [retrieve] carries the text
    that [executeToolLogic] gives for the same arguments at the same reading. *)
Theorem X5_retrieve_depends_on_type_id_and_clock
    (now : string) (p1 p2 ty i : Val) :
  get_prop p1 "type" = Return ty -> get_prop p2 "type" = Return ty ->
  get_prop p1 "id" = Return i -> get_prop p2 "id" = Return i ->
  executeToolLogic now "retrieve" p1 = executeToolLogic now "retrieve" p2
  /\ forall request params id,
       get_prop request "params" = Return params ->
       get_prop params "name" = Return (VStr "retrieve") ->
       get_prop params "arguments" = Return p1 ->
       get_prop request "id" = Return id ->
       handleToolsCall now request
       = (text <- executeToolLogic now "retrieve" p2 ;;
          Return (createJsonRpcResponse id (text_content text) VNull)).
Proof.
  intros Ht1 Ht2 Hi1 Hi2. split.
  - unfold executeToolLogic. cbn [String.eqb Ascii.eqb Bool.eqb].
    rewrite Ht1, Ht2, Hi1, Hi2. reflexivity.
  - intros request params id Hp Hn Ha Hid.
    unfold handleToolsCall, destructure_call, executeToolLogic.
    cbn [String.eqb Ascii.eqb Bool.eqb].
    rewrite Hp. cbn [bind].
    rewrite (get_prop_base _ _ _ Hn), Hn, Ha. cbn [bind is_str].
    cbn [String.eqb Ascii.eqb Bool.eqb].
    rewrite Ht1, Ht2, Hi1, Hi2, Hid. cbn [bind].
    destruct (to_string ty); [|reflexivity]. cbn [bind].
    destruct (to_string i); reflexivity.
Qed.

Lemma X5_retrieve_witness :
  executeToolLogic "1970-01-01T00:00:00.000Z" "retrieve"
    (VObj [("id", VStr "c1"); ("type", VStr "contact"); ("verbose", VBool true)])
  = executeToolLogic "1970-01-01T00:00:00.000Z" "retrieve"
      (VObj [("type", VStr "contact"); ("id", VStr "c1")])
  /\ forall request params id,
       get_prop request "params" = Return params ->
       get_prop params "name" = Return (VStr "retrieve") ->
       get_prop params "arguments"
       = Return (VObj [("id", VStr "c1"); ("type", VStr "contact"); ("verbose", VBool true)]) ->
       get_prop request "id" = Return id ->
       handleToolsCall "1970-01-01T00:00:00.000Z" request
       = (text <- executeToolLogic "1970-01-01T00:00:00.000Z" "retrieve"
                    (VObj [("type", VStr "contact"); ("id", VStr "c1")]) ;;
          Return (createJsonRpcResponse id (text_content text) VNull)).
Proof.
  apply (X5_retrieve_depends_on_type_id_and_clock _ _ _ (VStr "contact") (VStr "c1"));
    reflexivity.
Defined.

(** ** More on the request handler *)

Section Routing.

Variable JSON_parse : string -> Completion Val.
Variable toISOString : N -> string.

Local Abbreviation step := (Mcp.step JSON_parse toISOString).
Local Abbreviation run := (Mcp.run JSON_parse toISOString).
Local Abbreviation handler := (Mcp.handler toISOString).

Ltac route_cases :=
  unfold Mcp.handler;
  repeat match goal with
         | |- context [if ?b then _ else _] =>
             lazymatch b with
             | String.eqb _ _ => destruct b eqn:?
             | includes _ _ => destruct b eqn:?
             | (_ || _)%bool => destruct b eqn:?
             | (_ && _)%bool => destruct b eqn:?
             end
         end.

Lemma handler_cors (req : Request) :
  exists rest, calls (handler req) = (setCORSHeaders ++ rest)%list.
Proof.
  route_cases; simpl; eexists; try reflexivity.
  all: try (rewrite app_nil_r; reflexivity).
  all: rewrite <- ?app_assoc; reflexivity.
Qed.

Lemma handler_answered (req : Request) :
  listeners (handler req) = NoListeners -> timers (handler req) = [].
Proof.
  route_cases; simpl; intros H; try reflexivity; discriminate H.
Qed.

Lemma handler_genai (req : Request) (toolName : string) :
  listeners (handler req) = GenAIBody toolName ->
  handler req
  = {| clock := 0; calls := setCORSHeaders; timers := []; fresh := 0;
       listeners := GenAIBody toolName; body := EmptyString; body_ended := false;
       invoked := [] |}.
Proof.
  route_cases; simpl; intros H; try discriminate H.
  injection H as <-. reflexivity.
Qed.

Lemma idle_run (script : list Event) (c : Conn) :
  listeners c = NoListeners -> timers c = [] -> calls (run c script) = calls c.
Proof.
  revert c. induction script as [|e script IH]; intros c Hl Ht; [reflexivity|].
  rewrite run_cons.
  assert (Hstep : calls (step c e) = calls c /\ timers (step c e) = []).
  { destruct e; simpl; rewrite ?Hl; auto.
    - unfold next_due. rewrite Ht. simpl. auto.
    - destruct (body_ended c); auto.
    - destruct (body_ended c); auto. }
  destruct Hstep as [Hc Ht'].
  rewrite IH; [exact Hc | rewrite listeners_step; exact Hl | exact Ht'].
Qed.

(** X6: Whatever the request and whatever follows, the calls on the response
    begin with the four CORS headers. *)
Theorem X6_cors_headers_come_first (req : Request) (script : list Event) :
  exists rest, calls (run (handler req) script) = (setCORSHeaders ++ rest)%list.
Proof.
  destruct (calls_run JSON_parse toISOString script (handler req)) as [more Hmore].
  destruct (handler_cors req) as [rest Hrest].
  exists (rest ++ more)%list. rewrite Hmore, Hrest. now rewrite app_assoc.
Qed.

(** A request the handler answers on the spot, leaving no listener behind, is
    never written to again. *)
Lemma answered_for_good (req : Request) (script : list Event) :
  listeners (handler req) = NoListeners ->
  calls (run (handler req) script) = calls (handler req).
Proof.
  intros H. apply idle_run; [exact H|]. apply handler_answered, H.
Qed.

(** X7: An OPTIONS request is answered 200 with an empty body on every path,
    /sse and the tool endpoints included, and no stream is opened for it. *)
Theorem X7_options_on_every_path (u : string) (script : list Event) :
  calls (run (handler {| method := "OPTIONS"; url := u |}) script)
  = (setCORSHeaders ++ [status 200; end_])%list.
Proof.
  rewrite answered_for_good; reflexivity.
Qed.

(** X8: A URL that contains "favicon" is answered 404 with an empty body before
    any endpoint is considered, so that a tool endpoint with such a name is
    never reached. *)
Theorem X8_favicon_is_turned_away (req : Request) (script : list Event) :
  method req <> "OPTIONS" ->
  includes (url req) "favicon" = true ->
  calls (run (handler req) script) = (setCORSHeaders ++ [status 404; end_])%list.
Proof.
  intros Hm Hf.
  assert (Hh : handler req
               = issue {| clock := 0; calls := setCORSHeaders; timers := []; fresh := 0;
                          listeners := NoListeners; body := EmptyString;
                          body_ended := false; invoked := [] |} [status 404; end_]).
  { unfold Mcp.handler.
    destruct (String.eqb_spec (method req) "OPTIONS") as [E|_]; [contradiction|].
    destruct (String.eqb_spec (url req) "/health") as [E|_];
      [rewrite E in Hf; discriminate Hf|].
    destruct (String.eqb_spec (url req) "/") as [E|_];
      [rewrite E in Hf; discriminate Hf|].
    cbn [orb]. rewrite Hf. reflexivity. }
  rewrite answered_for_good; rewrite Hh; reflexivity.
Qed.

(** X9: A request that matches no endpoint is answered 404 with the list of
    endpoints: so are a GET to a tool's execution endpoint and a POST to the
    catalogue. *)
Theorem X9_unknown_endpoint (req : Request) (script : list Event) :
  method req <> "OPTIONS" ->
  ~ In (url req) ["/health"; "/"; "/sse"] ->
  includes (url req) "favicon" = false ->
  ~ (url req = "/api/genai/tools" /\ method req = "GET") ->
  ~ (prefix genai_prefix (url req) = true /\ method req = "POST") ->
  calls (run (handler req) script)
  = (setCORSHeaders ++ [status 404; json not_found_body])%list.
Proof.
  intros Hm Hu Hf Hlist Hexec.
  assert (Hh : handler req
               = issue {| clock := 0; calls := setCORSHeaders; timers := []; fresh := 0;
                          listeners := NoListeners; body := EmptyString;
                          body_ended := false; invoked := [] |}
                       [status 404; json not_found_body]).
  { unfold Mcp.handler.
    destruct (String.eqb_spec (method req) "OPTIONS") as [E|_]; [contradiction|].
    destruct (String.eqb_spec (url req) "/health") as [E|_];
      [exfalso; apply Hu; rewrite E; simpl; auto|].
    destruct (String.eqb_spec (url req) "/") as [E|_];
      [exfalso; apply Hu; rewrite E; simpl; auto|].
    cbn [orb]. rewrite Hf.
    destruct (String.eqb_spec (url req) "/api/genai/tools") as [E1|_];
      destruct (String.eqb_spec (method req) "GET") as [E2|_];
      try (exfalso; apply Hlist; split; assumption); cbn [andb];
      (destruct (prefix genai_prefix (url req)) eqn:E3;
       destruct (String.eqb_spec (method req) "POST") as [E4|_];
       try (exfalso; apply Hexec; split; [reflexivity|assumption]); cbn [andb];
       (destruct (String.eqb_spec (url req) "/sse") as [E5|_];
        [exfalso; apply Hu; rewrite E5; simpl; auto|reflexivity])). }
  rewrite answered_for_good; rewrite Hh; reflexivity.
Qed.

(** X10: On /sse a method other than OPTIONS, GET and POST has the stream headers
    written with status 200 and is then answered 404 on the same response. *)
Theorem X10_sse_other_method (m : string) (script : list Event) :
  ~ In m ["OPTIONS"; "GET"; "POST"] ->
  calls (run (handler {| method := m; url := "/sse" |}) script)
  = (setCORSHeaders ++ [writeHead 200 sse_headers; status 404; json not_found_body])%list.
Proof.
  intros Hm.
  assert (Hh : handler {| method := m; url := "/sse" |}
               = issue {| clock := 0; calls := setCORSHeaders; timers := []; fresh := 0;
                          listeners := NoListeners; body := EmptyString;
                          body_ended := false; invoked := [] |}
                       [writeHead 200 sse_headers; status 404; json not_found_body]).
  { unfold Mcp.handler. cbn [method url].
    destruct (String.eqb_spec m "OPTIONS") as [E|_]; [exfalso; apply Hm; rewrite E; simpl; auto|].
    cbn [String.eqb Ascii.eqb Bool.eqb orb andb includes index prefix genai_prefix].
    destruct (String.eqb_spec m "GET") as [E|_]; [exfalso; apply Hm; rewrite E; simpl; auto|].
    destruct (String.eqb_spec m "POST") as [E|_]; [exfalso; apply Hm; rewrite E; simpl; auto|].
    reflexivity. }
  rewrite answered_for_good; rewrite Hh; reflexivity.
Qed.

(** X11: The health check answers every method but OPTIONS, on / and on /health,
    with the server's identity, the instant of the request and the names of
    the registered tools. *)
Theorem X11_health_check (m u : string) (script : list Event) :
  m <> "OPTIONS" ->
  In u ["/health"; "/"] ->
  calls (run (handler {| method := m; url := u |}) script)
  = (setCORSHeaders
     ++ [ status 200;
          json (VObj [("status", VStr "healthy");
                      ("server", VStr "ghl-mcp-server");
                      ("version", VStr "1.0.0");
                      ("protocol", VStr "2024-11-05");
                      ("timestamp", VStr (toISOString 0));
                      ("tools", VArr [VStr "search"; VStr "retrieve"]);
                      ("endpoints",
                       VObj [("mcp", VStr "/sse");
                             ("genai_tools", VStr "/api/genai/tools");
                             ("genai_execute", VStr "/api/genai/tools/{toolName}")])]) ])%list.
Proof.
  intros Hm Hu.
  assert (Hh : listeners (handler {| method := m; url := u |}) = NoListeners /\
               calls (handler {| method := m; url := u |})
               = (setCORSHeaders
                  ++ [ status 200;
                       json (VObj [("status", VStr "healthy");
                                   ("server", VStr "ghl-mcp-server");
                                   ("version", VStr "1.0.0");
                                   ("protocol", VStr "2024-11-05");
                                   ("timestamp", VStr (toISOString 0));
                                   ("tools", VArr [VStr "search"; VStr "retrieve"]);
                                   ("endpoints",
                                    VObj [("mcp", VStr "/sse");
                                          ("genai_tools", VStr "/api/genai/tools");
                                          ("genai_execute",
                                           VStr "/api/genai/tools/{toolName}")])]) ])%list).
  { unfold Mcp.handler. cbn [method url].
    destruct (String.eqb_spec m "OPTIONS") as [E|_]; [contradiction|].
    destruct Hu as [<-|[<-|[]]]; split; reflexivity. }
  destruct Hh as [Hl Hc]. rewrite answered_for_good; assumption.
Qed.

(** *** The execution endpoint, whatever the tool name *)

Lemma genai_inv_any (req : Request) (toolName : string) (script : list Event) :
  listeners (handler req) = GenAIBody toolName ->
  genai_inv toolName (run (handler req) script).
Proof.
  intros H. apply run_invariant; [apply genai_inv_step|].
  rewrite (handler_genai _ _ H). split; [reflexivity|]. auto.
Qed.

(** What the 'end' listener of the execution endpoint issues is all that is
    ever issued after the headers. *)
Lemma genai_end (req : Request) (toolName : string) (before after : list Event)
    (cs : list Call) (inv : list (string * Val)) :
  listeners (handler req) = GenAIBody toolName ->
  body_ended (run (handler req) before) = false ->
  genai_on_end JSON_parse (toISOString (clock (run (handler req) before))) toolName
    (body (run (handler req) before)) = (cs, inv) ->
  calls (run (step (run (handler req) before) EndOfBody) after) = (setCORSHeaders ++ cs)%list
  /\ invoked (run (step (run (handler req) before) EndOfBody) after) = inv.
Proof.
  intros Hreq Hb Hend.
  destruct (genai_inv_any req toolName before Hreq) as [Hl Hpending].
  destruct (Hpending Hb) as (Hc & Ht & Hi).
  set (c := run (handler req) before) in *.
  assert (Hstep : step c EndOfBody = record_invoked (issue (end_of_body c) cs) inv).
  { simpl. rewrite Hb, Hl, Hend. reflexivity. }
  assert (Hsettled : timers (step c EndOfBody) = [] /\ body_ended (step c EndOfBody) = true).
  { rewrite Hstep. simpl. auto. }
  destruct Hsettled as [Ht' Hb'].
  destruct (settled_run JSON_parse toISOString after _ Ht' Hb') as [Hcalls Hinv].
  rewrite Hcalls, Hinv, Hstep. simpl. rewrite Hc, Hi. auto.
Qed.

(** X12: A tool name outside [TOOLS] is answered 404 with the names of the
    registered tools, whatever parameters the body holds; no tool is run. *)
Theorem X12_unknown_tool_is_not_found
    (req : Request) (toolName : string) (before after : list Event)
    (requestData parameters : Val) :
  let c := run (handler req) before in
  listeners (handler req) = GenAIBody toolName ->
  find_tool toolName = None ->
  body_ended c = false ->
  JSON_parse (body c) = Return requestData ->
  parameters_of requestData = Return parameters ->
  calls (run (step c EndOfBody) after)
  = (setCORSHeaders
     ++ [ status 404;
          json (VObj [("success", VBool false);
                      ("error", VStr ("Tool '" ++ toolName ++ "' not found"));
                      ("available_tools", VArr [VStr "search"; VStr "retrieve"]);
                      ("metadata", VObj [("tool", VStr toolName);
                                         ("timestamp", VStr (toISOString (clock c)))])]) ])%list
  /\ invoked (run (step c EndOfBody) after) = [].
Proof.
  intros c Hreq Hfind Hb Hp Hparams.
  apply (genai_end req toolName before after _ _ Hreq Hb).
  fold c. unfold genai_on_end. rewrite Hp. cbn [bind]. rewrite Hparams. cbn [bind].
  rewrite Hfind. reflexivity.
Qed.

(** X13: A body that does not parse is answered 400 "Invalid JSON in request body"
    with the parser's message, before the tool name is looked up: so it is for
    a tool that does not exist. *)
Theorem X13_unparseable_body_is_invalid_json
    (req : Request) (toolName : string) (before after : list Event) (e : Exn) :
  let c := run (handler req) before in
  listeners (handler req) = GenAIBody toolName ->
  body_ended c = false ->
  JSON_parse (body c) = Throw e ->
  calls (run (step c EndOfBody) after)
  = (setCORSHeaders
     ++ [ status 400;
          json (VObj [("success", VBool false);
                      ("error", VStr "Invalid JSON in request body");
                      ("details", VStr (JS.message e));
                      ("metadata", VObj [("tool", VStr toolName);
                                         ("timestamp", VStr (toISOString (clock c)))])]) ])%list
  /\ invoked (run (step c EndOfBody) after) = [].
Proof.
  intros c Hreq Hb Hp.
  apply (genai_end req toolName before after _ _ Hreq Hb).
  fold c. unfold genai_on_end. rewrite Hp. reflexivity.
Qed.

(** X14: A body that parses to [null] is reported as invalid JSON too, with the
    message of the failed read of [parameters]. *)
Theorem X14_null_body_is_invalid_json
    (req : Request) (toolName : string) (before after : list Event) :
  let c := run (handler req) before in
  listeners (handler req) = GenAIBody toolName ->
  body_ended c = false ->
  JSON_parse (body c) = Return VNull ->
  calls (run (step c EndOfBody) after)
  = (setCORSHeaders
     ++ [ status 400;
          json (VObj [("success", VBool false);
                      ("error", VStr "Invalid JSON in request body");
                      ("details",
                       VStr "Cannot read properties of null (reading 'parameters')");
                      ("metadata", VObj [("tool", VStr toolName);
                                         ("timestamp", VStr (toISOString (clock c)))])]) ])%list
  /\ invoked (run (step c EndOfBody) after) = [].
Proof.
  intros c Hreq Hb Hp.
  apply (genai_end req toolName before after _ _ Hreq Hb).
  fold c. unfold genai_on_end. rewrite Hp. reflexivity.
Qed.

(** X15: For a registered tool, parameters that are a number, a string or [true]
    make the presence check itself throw, and the answer is 400 "Invalid JSON
    in request body" although the body parsed. *)
Theorem X15_primitive_parameters_are_invalid_json
    (req : Request) (tool : Tool) (before after : list Event)
    (requestData parameters : Val) :
  let c := run (handler req) before in
  listeners (handler req) = GenAIBody (name tool) ->
  In tool TOOLS ->
  body_ended c = false ->
  JSON_parse (body c) = Return requestData ->
  get_prop requestData "parameters" = Return parameters ->
  truthy parameters = true ->
  primitive parameters = true ->
  calls (run (step c EndOfBody) after)
  = (setCORSHeaders
     ++ [ status 400;
          json (VObj [("success", VBool false);
                      ("error", VStr "Invalid JSON in request body");
                      ("details",
                       VStr ("Cannot use 'in' operator to search for '"
                             ++ hd EmptyString (required (inputSchema tool))
                             ++ "' in " ++ show_prim parameters));
                      ("metadata", VObj [("tool", VStr (name tool));
                                         ("timestamp", VStr (toISOString (clock c)))])]) ])%list
  /\ invoked (run (step c EndOfBody) after) = [].
Proof.
  intros c Hreq Hin Hb Hp Hparams Htruthy Hprim.
  apply (genai_end req (name tool) before after _ _ Hreq Hb).
  fold c. unfold genai_on_end, parameters_of. rewrite Hp. cbn [bind].
  rewrite Hparams. cbn [bind]. rewrite Htruthy.
  destruct Hin as [<-|[<-|[]]]; cbn [name find_tool find TOOLS String.eqb Ascii.eqb Bool.eqb];
    destruct parameters; try discriminate Hprim; try discriminate Htruthy; reflexivity.
Qed.

Lemma to_string_primitive (v : Val) :
  primitive v = true -> to_string v = Return (show_prim v).
Proof. destruct v; simpl; intros H; try discriminate H; reflexivity. Qed.

(** X16: For a registered tool and a parameters object that binds every required
    name to a value that is neither an object nor an array, the answer is 200
    with the tool's text, and the tool logic has run once. *)
Theorem X16_primitive_values_give_200
    (req : Request) (tool : Tool) (before after : list Event)
    (requestData : Val) (props : list (string * Val)) :
  let c := run (handler req) before in
  let now := toISOString (clock c) in
  listeners (handler req) = GenAIBody (name tool) ->
  In tool TOOLS ->
  body_ended c = false ->
  JSON_parse (body c) = Return requestData ->
  parameters_of requestData = Return (VObj props) ->
  (forall param, In param (required (inputSchema tool)) ->
     exists v, lookup param props = Some v /\ primitive v = true) ->
  exists text,
    executeToolLogic now (name tool) (VObj props) = Return text
    /\ calls (run (step c EndOfBody) after)
       = (setCORSHeaders
          ++ [ status 200;
               json (VObj [("success", VBool true);
                           ("result", VStr text);
                           ("metadata", VObj [("tool", VStr (name tool));
                                              ("timestamp", VStr now);
                                              ("parameters", VObj props);
                                              ("execution_time", VStr now)])]) ])%list
    /\ invoked (run (step c EndOfBody) after) = [(name tool, VObj props)].
Proof.
  intros c now Hreq Hin Hb Hp Hparams Hvalues.
  assert (Htext : exists text, executeToolLogic now (name tool) (VObj props) = Return text).
  { destruct Hin as [<-|[<-|[]]]; unfold executeToolLogic;
      cbn [name String.eqb Ascii.eqb Bool.eqb get_prop].
    - destruct (Hvalues "query") as (q & Hq & Hpq); [simpl; auto|].
      rewrite Hq. cbn [bind]. rewrite (to_string_primitive _ Hpq). cbn [bind]. eauto.
    - destruct (Hvalues "id") as (i & Hi & Hpi); [simpl; auto|].
      destruct (Hvalues "type") as (t & Ht & Hpt); [simpl; auto|].
      rewrite Hi, Ht. cbn [bind].
      rewrite (to_string_primitive _ Hpi), (to_string_primitive _ Hpt). cbn [bind]. eauto. }
  destruct Htext as [text Htext]. exists text. split; [exact Htext|].
  apply (genai_end req (name tool) before after _ _ Hreq Hb).
  fold c. fold now. unfold genai_on_end. rewrite Hp. cbn [bind]. rewrite Hparams. cbn [bind].
  assert (Hfind : find_tool (name tool) = Some tool).
  { destruct Hin as [<-|[<-|[]]]; reflexivity. }
  rewrite Hfind, missing_params_object.
  rewrite all_present.
  - cbn [bind length Nat.ltb Nat.leb]. rewrite Htext. reflexivity.
  - intros param Hparam. destruct (Hvalues param Hparam) as (v & Hv & _).
    unfold has_own. rewrite Hv. reflexivity.
Qed.

End Routing.

(** ** More on the SSE stream of a GET *)

Section Streams.

Variable JSON_parse : string -> Completion Val.
Variable toISOString : N -> string.

Local Abbreviation step := (Mcp.step JSON_parse toISOString).
Local Abbreviation run := (Mcp.run JSON_parse toISOString).
Local Abbreviation handler := (Mcp.handler toISOString).

Import Timing.

Lemma sse_queue_inv_run (script : list Event) :
  sse_queue_inv (run (handler sse_get) script).
Proof.
  apply run_invariant; [apply sse_queue_inv_step | apply sse_queue_inv_opened].
Qed.

(** What the timer that runs does to an SSE stream: it is the pending push,
    the deadline (and then the push is no longer pending), or a heartbeat. *)
Lemma sse_fire_cases (c : Conn) (t : Timer) :
  sse_queue_inv c -> next_due c = Some t ->
  clock (fire c t) = clock c /\
  ((t = tools_timer /\ (100 <= clock c)%N /\
    calls (fire c t) = (calls c ++ [list_changed_frame])%list /\
    timers (fire c t) = filter (fun u => negb (Nat.eqb (handle u) 0)) (timers c))
   \/ (t = deadline_timer /\ (50000 <= clock c)%N /\
       ~ In tools_timer (timers c) /\
       calls (fire c t) = (calls c ++ [end_])%list /\
       timers (fire c t) = [])
   \/ (handle t = 1 /\ callback t = PushHeartbeat /\ (due t <= clock c)%N /\
       calls (fire c t) = (calls c ++ [heartbeat_chunk])%list /\
       timers (fire c t)
       = match period t with
         | Some p => (filter (fun u => negb (Nat.eqb (handle u) 1)) (timers c)
                      ++ [{| handle := 1; due := clock c + p; period := Some p;
                             callback := PushHeartbeat |}])%list
         | None => filter (fun u => negb (Nat.eqb (handle u) 1)) (timers c)
         end)).
Proof.
  intros Hq E. assert (Hq' := sse_queue_inv_step JSON_parse toISOString c Tick Hq).
  destruct Hq as (Hl & Hshape & Hstage).
  assert (Hin := next_due_In _ _ E).
  assert (Hdue : (due t <= clock c)%N).
  { unfold next_due in E. apply earliest_In in E. apply filter_In in E.
    destruct E as [_ E]. now apply N.leb_le in E. }
  split; [unfold fire; destruct (callback t); reflexivity|].
  destruct (Hshape t Hin) as [-> | [-> | [Hh Hc]]].
  - left. repeat split; auto.
  - right. left.
    destruct Hq' as (_ & _ & Hstage').
    simpl in Hstage'. rewrite E in Hstage'.
    destruct Hstage' as [[_ Hno] | Hnil].
    + exfalso. apply Hno. unfold fire. simpl. apply in_or_app. right. simpl. auto.
    + repeat split; auto.
      intros Htools.
      assert (Hkept : In tools_timer (timers (fire c deadline_timer))).
      { unfold fire. simpl. apply filter_In. split; [|reflexivity].
        apply filter_In. split; [exact Htools|reflexivity]. }
      rewrite Hnil in Hkept. destruct Hkept.
  - right. right. unfold fire. rewrite Hc, Hh. simpl.
    repeat split; auto.
Qed.

(** What one step of an SSE stream does: it leaves the calls alone and arms
    nothing, or it is a turn of the event loop in which a timer runs. *)
Lemma sse_step_cases (c : Conn) (e : Event) :
  sse_queue_inv c ->
  (calls (step c e) = calls c /\
   (forall t, In t (timers (step c e)) -> In t (timers c)) /\
   (forall t, In t (timers c) -> handle t <> 1 -> In t (timers (step c e))) /\
   (clock c <= clock (step c e))%N)
  \/ (exists t, e = Tick /\ next_due c = Some t /\ step c e = fire c t).
Proof.
  intros (Hl & Hshape & Hstage).
  assert (Hsame : calls c = calls c /\
                  (forall t, In t (timers c) -> In t (timers c)) /\
                  (forall t, In t (timers c) -> handle t <> 1 -> In t (timers c)) /\
                  (clock c <= clock c)%N) by (repeat split; auto; lia).
  assert (Hclear : calls c = calls c /\
                   (forall t, In t (filter (fun t => negb (Nat.eqb (handle t) 1)) (timers c)) ->
                      In t (timers c)) /\
                   (forall t, In t (timers c) -> handle t <> 1 ->
                      In t (filter (fun t => negb (Nat.eqb (handle t) 1)) (timers c))) /\
                   (clock c <= clock c)%N).
  { repeat split; try lia.
    - intros t Ht. apply filter_In in Ht. tauto.
    - intros t Ht Hh. apply filter_In. split; [exact Ht|].
      destruct (Nat.eqb_spec (handle t) 1); [contradiction|reflexivity]. }
  destruct e; simpl; rewrite ?Hl.
  - left. repeat split; auto. lia.
  - destruct (next_due c) as [t|] eqn:E; [|left; exact Hsame].
    right. exists t. auto.
  - left. destruct (body_ended c); exact Hsame.
  - left. destruct (body_ended c); exact Hsame.
  - left. exact Hclear.
  - left. exact Hclear.
Qed.

Ltac older H :=
  apply in_app_or in H; destruct H as [H|[H|[]]]; [|discriminate H].

Lemma sse_clock_inv_step (c : Conn) (e : Event) :
  sse_queue_inv c -> sse_clock_inv c -> sse_clock_inv (step c e).
Proof.
  intros Hq (Hlc & Hhb & Hend & Hper). unfold sse_clock_inv.
  destruct (sse_step_cases c e Hq) as [(Hc & Hsub & _ & Hclk) | (t & _ & E & ->)].
  - rewrite Hc. split; [|split; [|split]].
    + intros H. specialize (Hlc H). lia.
    + intros H. specialize (Hhb H). lia.
    + intros H. specialize (Hend H). lia.
    + intros u Hu Hcb. apply Hper; auto.
  - assert (Hin := next_due_In _ _ E).
    destruct (sse_fire_cases c t Hq E)
      as (Hclk & [(_ & Hdue & Hc & Ht)
                 | [(_ & Hdue & _ & Hc & Ht) | (Hh & Hcb & Hdue & Hc & Ht)]]).
    + rewrite Hc, Hclk, Ht. split; [|split; [|split]].
      * intros _. exact Hdue.
      * intros H. older H. auto.
      * intros H. older H. auto.
      * intros u Hu Hcb. apply filter_In in Hu. apply Hper; tauto.
    + rewrite Hc, Hclk, Ht. split; [|split; [|split]].
      * intros H. older H. auto.
      * intros H. older H. auto.
      * intros _. exact Hdue.
      * intros u [].
    + destruct (Hper t Hin Hcb) as [Hlow Hp].
      rewrite Hc, Hclk, Ht, Hp. split; [|split; [|split]].
      * intros H. older H. auto.
      * intros _. lia.
      * intros H. older H. auto.
      * intros u Hu Hcbu. apply in_app_or in Hu. destruct Hu as [Hu|[<-|[]]].
        -- apply filter_In in Hu. apply Hper; tauto.
        -- simpl. split; [lia|reflexivity].
Qed.

Lemma sse_clock_inv_run (script : list Event) :
  sse_clock_inv (run (handler sse_get) script).
Proof.
  assert (H : sse_queue_inv (run (handler sse_get) script) /\
              sse_clock_inv (run (handler sse_get) script)).
  { apply (run_invariant JSON_parse toISOString
             (fun c => sse_queue_inv c /\ sse_clock_inv c)).
    - intros c e [Hq Hc]. split;
        [apply sse_queue_inv_step, Hq | apply sse_clock_inv_step; assumption].
    - split; [apply sse_queue_inv_opened|].
      rewrite sse_get_opened. split; [|split; [|split]]; simpl.
      + intros [H|[H|[H|[H|[H|[H|[]]]]]]]; discriminate H.
      + intros [H|[H|[H|[H|[H|[H|[]]]]]]]; discriminate H.
      + intros [H|[H|[H|[H|[H|[H|[]]]]]]]; discriminate H.
      + intros u [<-|[<-|[<-|[]]]] Hcb; try discriminate Hcb. simpl. split; [lia|reflexivity]. }
  exact (proj2 H).
Qed.

(** X17: On the stream of a GET nothing runs ahead of its timer: the
    [tools/list_changed] frame is not written before 100 ms have passed, a
    heartbeat not before 25 s, and the stream is not ended before 50 s. *)
Theorem X17_nothing_ahead_of_time (script : list Event) :
  let c := run (handler sse_get) script in
  (In (sse_frame toolsNotification) (calls c) -> (100 <= clock c)%N)
  /\ (In heartbeat_chunk (calls c) -> (25000 <= clock c)%N)
  /\ (In end_ (calls c) -> (50000 <= clock c)%N).
Proof.
  intros c. destruct (sse_clock_inv_run script) as (H1 & H2 & H3 & _). auto.
Qed.

Lemma sse_push_inv_step (c : Conn) (e : Event) :
  sse_queue_inv c -> sse_push_inv c -> sse_push_inv (step c e).
Proof.
  intros Hq Hpush. unfold sse_push_inv.
  destruct (sse_step_cases c e Hq) as [(Hc & Hsub & Hkeep & _) | (t & _ & E & ->)].
  - rewrite Hc. destruct Hpush as [[Hin Hno] | [Hout Hdone]].
    + left. split; [apply Hkeep; [exact Hin|discriminate]|exact Hno].
    + right. split; [intros H; apply Hout, Hsub, H|exact Hdone].
  - destruct (sse_fire_cases c t Hq E)
      as (_ & [(-> & _ & Hc & Ht)
              | [(-> & _ & Hnot & Hc & Ht) | (Hh & Hcb & _ & Hc & Ht)]]).
    + rewrite Hc, Ht. right. split.
      * intros H. apply filter_In in H. destruct H as [_ H]. discriminate H.
      * destruct Hpush as [[_ Hno] | [Hout _]];
          [|exfalso; apply Hout; exact (next_due_In _ _ E)].
        exists (calls c), []. auto.
    + rewrite Hc, Ht. destruct Hpush as [[Hin _] | [_ (pre & post & Hcalls & Hpre & Hpost)]];
        [contradiction|].
      right. split; [intros []|].
      exists pre, (post ++ [end_])%list. rewrite Hcalls, <- app_assoc. split; [reflexivity|].
      split; [exact Hpre|]. intros H. older H. contradiction.
    + rewrite Hc, Ht.
      assert (Hiff : In tools_timer
                       match period t with
                       | Some p => (filter (fun u => negb (Nat.eqb (handle u) 1)) (timers c)
                                    ++ [{| handle := 1; due := clock c + p; period := Some p;
                                           callback := PushHeartbeat |}])%list
                       | None => filter (fun u => negb (Nat.eqb (handle u) 1)) (timers c)
                       end <-> In tools_timer (timers c)).
      { destruct (period t).
        - split; intros H.
          + apply in_app_or in H. destruct H as [H|[H|[]]]; [|discriminate H].
            apply filter_In in H. tauto.
          + apply in_or_app. left. apply filter_In. auto.
        - split; intros H; [apply filter_In in H; tauto|apply filter_In; auto]. }
      destruct Hpush as [[Hin Hno] | [Hout (pre & post & Hcalls & Hpre & Hpost)]].
      * left. split; [apply Hiff, Hin|]. intros H. older H. contradiction.
      * right. split; [intros H; apply Hout, Hiff, H|].
        exists pre, (post ++ [heartbeat_chunk])%list. rewrite Hcalls, <- app_assoc.
        split; [reflexivity|]. split; [exact Hpre|]. intros H. older H. contradiction.
Qed.

Lemma sse_end_inv_step (c : Conn) (e : Event) :
  sse_queue_inv c -> sse_end_inv c -> sse_end_inv (step c e).
Proof.
  intros Hq Hend. unfold sse_end_inv.
  destruct (sse_step_cases c e Hq) as [(Hc & Hsub & Hkeep & _) | (t & _ & E & ->)].
  - rewrite Hc. destruct Hend as [[Hin Hno] | [Hnil Hdone]].
    + left. split; [apply Hkeep; [exact Hin|discriminate]|exact Hno].
    + right. split; [|exact Hdone].
      destruct (timers (step c e)) as [|u rest] eqn:F; [reflexivity|].
      exfalso. rewrite Hnil in Hsub. apply (Hsub u). left. reflexivity.
  - assert (Harmed : In deadline_timer (timers c) /\ ~ In end_ (calls c)).
    { destruct Hend as [H | [Hnil _]]; [exact H|].
      apply next_due_In in E. rewrite Hnil in E. destruct E. }
    destruct Harmed as [Hin Hno].
    destruct (sse_fire_cases c t Hq E)
      as (_ & [(-> & _ & Hc & Ht)
              | [(-> & _ & Hnot & Hc & Ht) | (Hh & Hcb & _ & Hc & Ht)]]).
    + rewrite Hc, Ht. left. split.
      * apply filter_In. auto.
      * intros H. older H. contradiction.
    + rewrite Hc, Ht. right. split; [reflexivity|]. exists (calls c). auto.
    + rewrite Hc, Ht. left. split.
      * assert (Hf : In deadline_timer
                       (filter (fun u => negb (Nat.eqb (handle u) 1)) (timers c)))
          by (apply filter_In; auto).
        destruct (period t); [apply in_or_app; left|]; exact Hf.
      * intros H. older H. contradiction.
Qed.

Lemma sse_life_inv_run (script : list Event) :
  let c := run (handler sse_get) script in
  sse_queue_inv c /\ sse_clock_inv c /\ sse_push_inv c /\ sse_end_inv c.
Proof.
  apply (run_invariant JSON_parse toISOString
           (fun c => sse_queue_inv c /\ sse_clock_inv c /\ sse_push_inv c /\ sse_end_inv c)).
  - intros c e (Hq & Hc & Hp & He). split; [|split; [|split]].
    + apply sse_queue_inv_step, Hq.
    + apply sse_clock_inv_step; assumption.
    + apply sse_push_inv_step; assumption.
    + apply sse_end_inv_step; assumption.
  - split; [apply sse_queue_inv_opened|]. split; [apply (sse_clock_inv_run [])|].
    rewrite sse_get_opened. split; left; simpl; split; auto;
      intros [H|[H|[H|[H|[H|[H|[]]]]]]]; discriminate H.
Qed.

(** X18: On the stream of a GET the [tools/list_changed] frame is written at most
    once, [end()] is called at most once, and the call of [end()] is the last
    call on the stream. *)
Theorem X18_pushed_once_ended_once (script : list Event) :
  let c := run (handler sse_get) script in
  (In (sse_frame toolsNotification) (calls c) ->
   exists pre post,
     calls c = (pre ++ sse_frame toolsNotification :: post)%list /\
     ~ In (sse_frame toolsNotification) pre /\ ~ In (sse_frame toolsNotification) post)
  /\ (In end_ (calls c) ->
      exists pre, calls c = (pre ++ [end_])%list /\ ~ In end_ pre).
Proof.
  intros c. destruct (sse_life_inv_run script) as (_ & _ & Hp & He). fold c in Hp, He.
  split.
  - intros H. destruct Hp as [[_ Hno] | [_ Hdone]]; [contradiction|exact Hdone].
  - intros H. destruct He as [[_ Hno] | [_ Hdone]]; [contradiction|exact Hdone].
Qed.

Lemma filter_filter_le {A} (P Q : A -> bool) (l : list A) :
  length (filter P (filter Q l)) <= length (filter P l).
Proof.
  induction l as [|a l IH]; [reflexivity|].
  simpl. destruct (Q a); simpl; destruct (P a); simpl; lia.
Qed.

Lemma filter_filter_lt {A} (P Q : A -> bool) (l : list A) (x : A) :
  In x l -> P x = true -> Q x = false ->
  length (filter P (filter Q l)) < length (filter P l).
Proof.
  induction l as [|a l IH]; intros Hin HP HQ; [destruct Hin|].
  simpl. destruct Hin as [->|Hin].
  - rewrite HQ, HP. simpl. pose proof (filter_filter_le P Q l). lia.
  - specialize (IH Hin HP HQ). destruct (Q a); simpl; destruct (P a); simpl; lia.
Qed.

Lemma earliest_some (ts : list Timer) : ts <> [] -> exists t, earliest ts = Some t.
Proof.
  destruct ts as [|a ts]; [congruence|]. intros _. simpl.
  destruct (earliest ts); eauto.
Qed.

Lemma calls_kept (script : list Event) (c : Conn) (x : Call) :
  In x (calls c) -> In x (calls (run c script)).
Proof.
  intros H. destruct (calls_run JSON_parse toISOString script c) as [more Hmore].
  rewrite Hmore. apply in_or_app. left. exact H.
Qed.

Lemma deadline_runs (n : nat) (c : Conn) :
  sse_queue_inv c -> sse_clock_inv c -> sse_end_inv c ->
  (50000 <= clock c)%N ->
  length (due_now c) <= n ->
  In end_ (calls (run c (repeat Tick n))).
Proof.
  revert c. induction n as [|n IH]; intros c Hq Hclk Hend H50 Hlen.
  - destruct Hend as [[Hin _] | [_ (pre & Hcalls & _)]].
    + exfalso.
      assert (Hd : In deadline_timer (due_now c)).
      { apply filter_In. split; [exact Hin|]. apply N.leb_le. exact H50. }
      destruct (due_now c); [destruct Hd|simpl in Hlen; lia].
    + simpl. rewrite Hcalls. apply in_or_app. right. simpl. auto.
  - destruct Hend as [[Hin Hno] | [_ (pre & Hcalls & _)]].
    2:{ apply calls_kept. rewrite Hcalls. apply in_or_app. right. simpl. auto. }
    assert (Hd : In deadline_timer (due_now c)).
    { apply filter_In. split; [exact Hin|]. apply N.leb_le. exact H50. }
    destruct (earliest_some (due_now c)) as [t E].
    { intros Hnil. rewrite Hnil in Hd. destruct Hd. }
    change (earliest (due_now c)) with (next_due c) in E.
    assert (Ht : In t (due_now c)) by (apply earliest_In; exact E).
    apply filter_In in Ht. destruct Ht as [Htin Htdue].
    cbn [repeat]. rewrite run_cons.
    assert (Hstep : step c Tick = fire c t) by (simpl; rewrite E; reflexivity).
    assert (Hq' := sse_queue_inv_step JSON_parse toISOString c Tick Hq).
    assert (Hclk' := sse_clock_inv_step c Tick Hq Hclk).
    assert (Hend' := sse_end_inv_step c Tick Hq (or_introl (conj Hin Hno))).
    destruct (sse_fire_cases c t Hq E)
      as (Hsame & [(-> & _ & Hc & Hts)
                  | [(-> & _ & _ & Hc & Hts) | (Hh & Hcb & _ & Hc & Hts)]]).
    + apply IH; try assumption.
      * rewrite Hstep, Hsame. exact H50.
      * unfold due_now. rewrite Hstep, Hsame, Hts.
        assert (Hlt := filter_filter_lt (fun t => (due t <=? clock c)%N)
                         (fun u => negb (Nat.eqb (handle u) 0)) (timers c)
                         tools_timer Htin Htdue eq_refl).
        unfold due_now in Hlen. lia.
    + apply calls_kept. rewrite Hstep, Hc. apply in_or_app. right. simpl. auto.
    + destruct Hclk as (_ & _ & _ & Hper).
      destruct (Hper t Htin Hcb) as [_ Hp].
      apply IH; try assumption.
      * rewrite Hstep, Hsame. exact H50.
      * unfold due_now. rewrite Hstep, Hsame, Hts, Hp.
        rewrite filter_app. cbn [filter due].
        assert (Hnot : (clock c + 25000 <=? clock c)%N = false) by (apply N.leb_gt; lia).
        rewrite Hnot, app_nil_r.
        assert (Hq1 : negb (Nat.eqb (handle t) 1) = false) by (rewrite Hh; reflexivity).
        assert (Hlt := filter_filter_lt (fun t => (due t <=? clock c)%N)
                         (fun u => negb (Nat.eqb (handle u) 1)) (timers c)
                         t Htin Htdue Hq1).
        unfold due_now in Hlen. lia.
Qed.

(** X19: The deadline is not to be escaped: once 50 s have passed on a stream,
    whatever happened on it before, as many turns of the event loop as there
    are armed timers end it. *)
Theorem X19_the_deadline_ends_the_stream (before : list Event) :
  let c := run (handler sse_get) before in
  (50000 <= clock c)%N ->
  In end_ (calls (run c (repeat Tick (length (timers c))))).
Proof.
  intros c H50.
  destruct (sse_life_inv_run before) as (Hq & Hclk & _ & Hend). fold c in Hq, Hclk, Hend.
  apply deadline_runs; try assumption.
  unfold due_now. apply filter_length_le.
Qed.

(** *** More on a message posted to /sse *)

(** X20: Whatever reaches a POST to /sse, data after the end of the body
    included, its stream carries the stream headers, then at most one data
    frame, the answer to the body, then at most one [end()]. *)
Theorem X20_one_frame_per_post (script : list Event) :
  let c := run (handler sse_post) script in
  calls c = sse_post_head
  \/ exists response,
       answers JSON_parse c response /\
       (calls c = (sse_post_head ++ [sse_frame response])%list
        \/ calls c = (sse_post_head ++ [sse_frame response; end_])%list).
Proof.
  intros c.
  destruct (sse_post_inv_run JSON_parse toISOString script)
    as [_ [(_ & Hc & _) | (_ & r & Hr & Hstage)]]; fold c in Hc || fold c in Hr, Hstage.
  - left. exact Hc.
  - right. exists r. split; [exact Hr|]. tauto.
Qed.

Lemma sse_post_pending (before : list Event) :
  let c := run (handler sse_post) before in
  body_ended c = false ->
  listeners c = SsePostBody /\ calls c = sse_post_head /\ timers c = [].
Proof.
  intros c Hb.
  destruct (sse_post_inv_run JSON_parse toISOString before)
    as [Hl [(_ & Hc & Ht) | (Hb' & _)]]; fold c in Hl.
  - auto.
  - fold c in Hb'. congruence.
Qed.

(** X21: A body that the dispatcher answers has its response pushed at the end of
    the body; a turn of the event loop less than 100 ms later leaves the
    stream open, a turn 100 ms later or more ends it, and nothing follows. *)
Theorem X21_response_then_end_after_100ms
    (before after : list Event) (message response : Val) (ms : N) :
  let c := run (handler sse_post) before in
  let d := step c EndOfBody in
  body_ended c = false ->
  JSON_parse (body c) = Return message ->
  processJsonRpcMessage (toISOString (clock c)) message = Return response ->
  calls d = (sse_post_head ++ [sse_frame response])%list
  /\ ((ms < 100)%N ->
      calls (run d [Elapse ms; Tick]) = (sse_post_head ++ [sse_frame response])%list)
  /\ ((100 <= ms)%N ->
      calls (run d (Elapse ms :: Tick :: after))
      = (sse_post_head ++ [sse_frame response; end_])%list).
Proof.
  intros c d Hb Hp Hr.
  destruct (sse_post_pending before Hb) as (Hl & Hc & Ht). fold c in Hl, Hc, Ht.
  assert (Hd : d = setTimeout (sendSSE (end_of_body c) response) EndResponse 100).
  { unfold d. simpl. rewrite Hb, Hl. unfold sse_post_on_end. simpl.
    rewrite Hp. cbn [bind]. rewrite Hr. reflexivity. }
  assert (Hdue : forall b : bool,
            ((clock c + 100 <=? clock c + ms)%N = b) ->
            next_due (step d (Elapse ms))
            = if b then Some {| handle := fresh c; due := clock c + 100; period := None;
                                callback := EndResponse |}
              else None).
  { intros b Hcmp. rewrite Hd. unfold next_due. simpl. rewrite Ht. simpl.
    rewrite Hcmp. destruct b; reflexivity. }
  split; [rewrite Hd; simpl; rewrite Hc; reflexivity|]. split.
  - intros Hms.
    assert (Hcmp : (clock c + 100 <=? clock c + ms)%N = false) by (apply N.leb_gt; lia).
    rewrite !run_cons. cbn [Mcp.run fold_left].
    change (Mcp.step JSON_parse toISOString (step d (Elapse ms)) Tick)
      with (match next_due (step d (Elapse ms)) with
            | Some t => fire (step d (Elapse ms)) t
            | None => step d (Elapse ms)
            end).
    rewrite (Hdue false Hcmp). rewrite Hd. simpl. rewrite Hc. reflexivity.
  - intros Hms.
    assert (Hcmp : (clock c + 100 <=? clock c + ms)%N = true) by (apply N.leb_le; lia).
    rewrite !run_cons.
    assert (Hfired : step (step d (Elapse ms)) Tick
                     = fire (step d (Elapse ms))
                         {| handle := fresh c; due := clock c + 100; period := None;
                            callback := EndResponse |}).
    { change (Mcp.step JSON_parse toISOString (step d (Elapse ms)) Tick)
        with (match next_due (step d (Elapse ms)) with
              | Some t => fire (step d (Elapse ms)) t
              | None => step d (Elapse ms)
              end).
      rewrite (Hdue true Hcmp). reflexivity. }
    rewrite Hfired.
    assert (Hsettled : timers (fire (step d (Elapse ms))
                                 {| handle := fresh c; due := clock c + 100; period := None;
                                    callback := EndResponse |}) = []
                       /\ body_ended (fire (step d (Elapse ms))
                                        {| handle := fresh c; due := clock c + 100;
                                           period := None; callback := EndResponse |}) = true).
    { rewrite Hd. unfold fire. simpl. rewrite Ht. simpl. rewrite Nat.eqb_refl. auto. }
    destruct Hsettled as [Ht' Hb'].
    rewrite (proj1 (settled_run JSON_parse toISOString after _ Ht' Hb')).
    rewrite Hd. unfold fire. simpl. rewrite Hc, <- app_assoc. reflexivity.
Qed.

(** X22: A body that parses but on which the dispatcher throws is answered like a
    body that does not parse: one frame with the parse error -32700 and [id]
    null, then [end()] at once. *)
Theorem X22_dispatcher_fault_is_a_parse_error
    (before after : list Event) (message : Val) (e : Exn) :
  let c := run (handler sse_post) before in
  body_ended c = false ->
  JSON_parse (body c) = Return message ->
  processJsonRpcMessage (toISOString (clock c)) message = Throw e ->
  calls (run (step c EndOfBody) after)
  = (sse_post_head
     ++ [ write (SseData (Json (VObj [("jsonrpc", VStr "2.0"); ("id", VNull);
                                      ("error", VObj [("code", VNum "-32700");
                                                      ("message", VStr "Parse error")])])));
          end_ ])%list.
Proof.
  intros c Hb Hp Hr.
  destruct (sse_post_pending before Hb) as (Hl & Hc & Ht). fold c in Hl, Hc, Ht.
  assert (Hstep : step c EndOfBody
                  = issue (sendSSE (end_of_body c) parse_error_response) [end_]).
  { simpl. rewrite Hb, Hl. unfold sse_post_on_end. simpl.
    rewrite Hp. cbn [bind]. rewrite Hr. reflexivity. }
  assert (Hsettled : timers (step c EndOfBody) = [] /\ body_ended (step c EndOfBody) = true).
  { rewrite Hstep. simpl. auto. }
  destruct Hsettled as [Ht' Hb'].
  rewrite (proj1 (settled_run JSON_parse toISOString after _ Ht' Hb')), Hstep.
  simpl. rewrite Hc. reflexivity.
Qed.

End Streams.

(** ** More on the SDK-based server *)

Import Sdk Catalog.

Lemma distinct_NoDup (names : list string) : distinct names = true -> NoDup names.
Proof.
  induction names as [|n rest IH]; intros H; [constructor|].
  simpl in H. apply andb_true_iff in H. destruct H as [Hn Hrest].
  constructor; [|apply IH, Hrest].
  intros Hin. apply negb_true_iff in Hn.
  assert (Hex : existsb (String.eqb n) rest = true).
  { apply existsb_exists. exists n. split; [exact Hin|apply String.eqb_refl]. }
  congruence.
Qed.

Lemma listed_In (names : list string) (n : string) : listed names n = true <-> In n names.
Proof.
  unfold listed. rewrite existsb_exists. split.
  - intros (x & Hx & E). apply String.eqb_eq in E. now subst.
  - intros H. exists n. split; [exact H|apply String.eqb_refl].
Qed.

Lemma route_listed (n : string) (group : Group) :
  route n = Some group -> In n (names_of group).
Proof.
  unfold route.
  repeat match goal with
         | |- context [if ?b then _ else _] =>
             let E := fresh "E" in
             destruct b eqn:E;
             [intros H; injection H as <-; apply listed_In; exact E|clear E]
         end.
  discriminate.
Qed.

Lemma listed_route (group : Group) :
  Forall (fun n => route n = Some group) (names_of group).
Proof.
  destruct group; repeat (apply Forall_cons; [vm_compute; reflexivity|]); apply Forall_nil.
Qed.

(** X23: The name tables of the call handler share no name and repeat none, and a
    name is routed to a group exactly when that group's table lists it: the
    order of the chain decides nothing. *)
Theorem X23_tables_are_disjoint :
  NoDup (concat (map names_of groups))
  /\ forall n group, route n = Some group <-> In n (names_of group).
Proof.
  split.
  - apply distinct_NoDup. vm_compute. reflexivity.
  - intros n group. split; [apply route_listed|].
    intros H. pose proof (listed_route group) as Hall.
    rewrite Forall_forall in Hall. apply Hall, H.
Qed.

(** An exception of the engine that leaves an executor is reported with its
    name and message, the name alone when it has no message. *)
Lemma engine_exception_is_reported
    (execute : Group -> string -> Val -> Outcome Val)
    (group : Group) (n : string) (args : Val) (e : Exn) :
  route n = Some group ->
  execute group n (if truthy args then args else VObj []) = Throws (thrown e) ->
  callTool execute n args
  = McpError (if includes (message e) "404" then InvalidRequest else InternalError)
             ("Tool execution failed: " ++ describe e).
Proof.
  intros Hroute Hthrows. unfold callTool. rewrite Hroute, Hthrows. reflexivity.
Qed.

(** X24: A call of a listed tool reaches the executor of the group that lists it
    and no other: what the handler answers depends on that executor at that
    name only.  Arguments that are absent, [null] or otherwise falsy are
    replaced by an empty object, and a result is returned as content. *)
Theorem X24_listed_tool_reaches_its_group
    (execute : Group -> string -> Val -> Outcome Val)
    (group : Group) (n : string) (args : Val) :
  In n (names_of group) ->
  (forall result,
     execute group n (if truthy args then args else VObj []) = Returns result ->
     callTool execute n args = Content result)
  /\ (forall other : Group -> string -> Val -> Outcome Val,
        (forall a, other group n a = execute group n a) ->
        callTool other n args = callTool execute n args)
  /\ (truthy args = false -> callTool execute n args = callTool execute n (VObj [])).
Proof.
  intros H. pose proof (listed_route group) as Hall.
  rewrite Forall_forall in Hall. specialize (Hall n H).
  split; [|split].
  - intros result Hresult. unfold callTool. rewrite Hall, Hresult. reflexivity.
  - intros other Hsame. unfold callTool. rewrite Hall, Hsame. reflexivity.
  - intros Hfalsy. unfold callTool. rewrite Hall, Hfalsy. reflexivity.
Qed.

(** [get_contact] called without arguments. *)
Lemma X24_listed_tool_witness :
  (forall result,
     Sample.execute contactTools "get_contact"
       (if truthy VUndefined then VUndefined else VObj []) = Returns result ->
     callTool Sample.execute "get_contact" VUndefined = Content result)
  /\ (forall other : Group -> string -> Val -> Outcome Val,
        (forall a, other contactTools "get_contact" a
                   = Sample.execute contactTools "get_contact" a) ->
        callTool other "get_contact" VUndefined
        = callTool Sample.execute "get_contact" VUndefined)
  /\ (truthy VUndefined = false ->
      callTool Sample.execute "get_contact" VUndefined
      = callTool Sample.execute "get_contact" (VObj [])).
Proof.
  apply (X24_listed_tool_reaches_its_group Sample.execute contactTools "get_contact" VUndefined).
  vm_compute. tauto.
Defined.

(** X25: Whenever the call handler fails with an [McpError], it has caught what an
    executor threw or its own "Unknown tool" error; the code is
    [InvalidRequest] or [InternalError], never [MethodNotFound], and it is
    [InvalidRequest] exactly when the caught value is an [Error] whose message
    contains "404": a value that is no [Error] gives [InternalError] whatever
    it holds.  The message carries the caught value as a template prints it. *)
Theorem X25_call_errors
    (execute : Group -> string -> Val -> Outcome Val)
    (n : string) (args : Val) (code : ErrorCode) (msg : string) :
  callTool execute n args = McpError code msg ->
  (code = InvalidRequest \/ code = InternalError)
  /\ exists error text,
       ((route n = None /\ error = ErrorObject "Error" ("Unknown tool: " ++ n))
        \/ (exists group,
              route n = Some group
              /\ execute group n (if truthy args then args else VObj []) = Throws error))
       /\ interpolate error = Return text
       /\ msg = "Tool execution failed: " ++ text
       /\ (code = InvalidRequest
           <-> exists name message,
                 error = ErrorObject name message /\ includes message "404" = true).
Proof.
  unfold callTool. intros H.
  assert (Hcaught : exists error,
             match route n with
             | Some group => execute group n (if truthy args then args else VObj [])
             | None => Throws (ErrorObject "Error" ("Unknown tool: " ++ n))
             end = Throws error
             /\ ((route n = None /\ error = ErrorObject "Error" ("Unknown tool: " ++ n))
                 \/ (exists group,
                       route n = Some group
                       /\ execute group n (if truthy args then args else VObj [])
                          = Throws error))).
  { destruct (route n) as [group|].
    - destruct (execute group n (if truthy args then args else VObj [])) as [result|error] eqn:E;
        [discriminate H|].
      exists error. split; [reflexivity|]. right. exists group. split; [reflexivity|exact E].
    - eexists. split; [reflexivity|]. left. split; reflexivity. }
  destruct Hcaught as (error & Heq & Hfrom). rewrite Heq in H.
  destruct (interpolate error) as [text|e] eqn:Htext; [|discriminate H].
  injection H as <- <-.
  destruct error as [name message|value].
  - destruct (includes message "404") eqn:E.
    + split; [auto|]. exists (ErrorObject name message), text.
      repeat (split; [assumption || reflexivity|]).
      split; [intros _; exists name, message; auto|reflexivity].
    + split; [auto|]. exists (ErrorObject name message), text.
      repeat (split; [assumption || reflexivity|]).
      split; [discriminate|].
      intros (name' & message' & Hsame & Hin). injection Hsame as -> ->. congruence.
  - split; [auto|]. exists (NotAnError value), text.
    repeat (split; [assumption || reflexivity|]).
    split; [discriminate|].
    intros (name' & message' & Hsame & _). discriminate Hsame.
Qed.

(** An executor that throws a plain object whose message holds "404". *)
Lemma X25_call_errors_witness :
  (InternalError = InvalidRequest \/ InternalError = InternalError)
  /\ exists error text,
       ((route "get_contact" = None
         /\ error = ErrorObject "Error" ("Unknown tool: " ++ "get_contact"))
        \/ (exists group,
              route "get_contact" = Some group
              /\ Listing.rejects Listing.status_404 group "get_contact"
                   (if truthy (VObj []) then VObj [] else VObj []) = Throws error))
       /\ interpolate error = Return text
       /\ "Tool execution failed: [object Object]" = "Tool execution failed: " ++ text
       /\ (InternalError = InvalidRequest
           <-> exists name message,
                 error = ErrorObject name message /\ includes message "404" = true).
Proof.
  apply (X25_call_errors (Listing.rejects Listing.status_404) "get_contact" (VObj [])). reflexivity.
Defined.

(** An [Error] without a message is printed by its name alone, and one whose
    message holds "404" is an invalid request. *)
Example empty_message_is_printed_by_name :
  callTool (Listing.rejects (ErrorObject "Error" EmptyString)) "get_contact" (VObj [])
  = McpError InternalError "Tool execution failed: Error".
Proof. reflexivity. Qed.

Example error_404_is_an_invalid_request :
  callTool (Listing.rejects (ErrorObject "AxiosError" "Request failed with status code 404"))
    "get_contact" (VObj [])
  = McpError InvalidRequest
      "Tool execution failed: AxiosError: Request failed with status code 404".
Proof. reflexivity. Qed.

(** *** Start-up *)

Import Startup.

Lemma or_else_set (value : option string) :
  or_else value EmptyString <> EmptyString ->
  value = Some (or_else value EmptyString).
Proof.
  destruct value as [s|]; cbn [or_else]; [|congruence].
  destruct (String.eqb_spec s EmptyString); [congruence|reflexivity].
Qed.

(** X26: The client is built exactly when the API key and the location are both
    set and not empty; the configuration then holds them as given, the fixed
    API version, and the base URL of the environment or, when that is unset
    or empty, the default one.  A missing API key is reported first. *)
Theorem X26_client_configuration (env : Env) :
  (forall config,
     initializeGHLClient env = Return config ->
     env "GHL_API_KEY" = Some (accessToken config) /\ accessToken config <> EmptyString /\
     env "GHL_LOCATION_ID" = Some (locationId config) /\ locationId config <> EmptyString /\
     version config = "2021-07-28" /\
     baseUrl config
     = or_else (env "GHL_BASE_URL") "https://services.leadconnectorhq.com" /\
     baseUrl config <> EmptyString)
  /\ (forall key location,
        env "GHL_API_KEY" = Some key -> key <> EmptyString ->
        env "GHL_LOCATION_ID" = Some location -> location <> EmptyString ->
        exists config, initializeGHLClient env = Return config)
  /\ (or_else (env "GHL_API_KEY") EmptyString = EmptyString ->
      initializeGHLClient env
      = Throw (Error "GHL_API_KEY environment variable is required")).
Proof.
  unfold initializeGHLClient. cbn [accessToken locationId]. split; [|split].
  - intros config H.
    destruct (String.eqb_spec (or_else (env "GHL_API_KEY") EmptyString) EmptyString)
      as [_|Hkey]; [discriminate H|].
    destruct (String.eqb_spec (or_else (env "GHL_LOCATION_ID") EmptyString) EmptyString)
      as [_|Hloc]; [discriminate H|].
    injection H as <-. cbn [accessToken locationId version baseUrl].
    split; [apply or_else_set, Hkey|]. split; [exact Hkey|].
    split; [apply or_else_set, Hloc|]. split; [exact Hloc|].
    split; [reflexivity|]. split; [reflexivity|].
    destruct (env "GHL_BASE_URL") as [u|]; cbn [or_else]; [|discriminate].
    destruct (String.eqb_spec u EmptyString); [discriminate|assumption].
  - intros key location Hk Hkey Hl Hloc. rewrite Hk, Hl. cbn [or_else].
    destruct (String.eqb_spec key EmptyString) as [E|_]; [contradiction|].
    destruct (String.eqb_spec location EmptyString) as [E|_]; [contradiction|].
    destruct (String.eqb_spec key EmptyString) as [E|_]; [contradiction|].
    destruct (String.eqb_spec location EmptyString) as [E|_]; [contradiction|].
    eauto.
  - intros H. rewrite H. reflexivity.
Qed.

(** *** The catalogue *)

Import Listing.

Lemma length_concat_sum {A} (ls : list (list A)) :
  length (concat ls) = list_sum (map (@length A) ls).
Proof.
  induction ls as [|l ls IH]; [reflexivity|].
  simpl. rewrite length_app, IH. reflexivity.
Qed.

(** X27: When every group lists its tools, the [tools/list] handler and
    GET /api/tools return the same list, the groups' lists in the order of the
    chain; the count of GET /api/tools is its length and the sum of the counts
    it gives per category. *)
Theorem X27_catalogue_of_all_groups
    (definitions : Group -> Outcome (list Val)) (defs : Group -> list Val) :
  (forall group, definitions group = Returns (defs group)) ->
  listTools definitions = Tools (concat (map defs groups))
  /\ apiTools definitions
     = (200,
        VObj [("success", VBool true);
              ("tools", VArr (concat (map defs groups)));
              ("count", num_of_nat (length (concat (map defs groups))));
              ("categories",
               VObj (combine category_names
                       (map (fun group => num_of_nat (length (defs group))) groups)))])
  /\ length (concat (map defs groups))
     = list_sum (map (fun group => length (defs group)) groups).
Proof.
  intros H. split; [|split].
  - unfold listTools, listTools_all. rewrite !H. cbn [and_then map groups concat].
    rewrite app_nil_r. reflexivity.
  - unfold apiTools. rewrite !H. cbn [and_then map groups concat combine category_names].
    rewrite app_nil_r. reflexivity.
  - rewrite length_concat_sum, map_map. reflexivity.
Qed.

Lemma X27_catalogue_witness :
  listTools (fun group => Returns (one_each group)) = Tools (concat (map one_each groups))
  /\ apiTools (fun group => Returns (one_each group))
     = (200,
        VObj [("success", VBool true);
              ("tools", VArr (concat (map one_each groups)));
              ("count", num_of_nat (length (concat (map one_each groups))));
              ("categories",
               VObj (combine category_names
                       (map (fun group => num_of_nat (length (one_each group))) groups)))])
  /\ length (concat (map one_each groups))
     = list_sum (map (fun group => length (one_each group)) groups).
Proof.
  apply (X27_catalogue_of_all_groups (fun group => Returns (one_each group)) one_each).
  reflexivity.
Defined.

(** X28: When a group fails to list its tools, neither endpoint lists any, and
    both report the same failure, that of a group.  For an [Error] the
    [tools/list] handler fails with [InternalError] and the error as a
    template prints it, and GET /api/tools answers 500 with its message; for
    any other thrown value GET /api/tools answers 500 "Unknown error". *)
Theorem X28_catalogue_fails_as_a_whole
    (definitions : Group -> Outcome (list Val)) (group : Group) (raised : Thrown) :
  definitions group = Throws raised ->
  exists failing error,
    definitions failing = Throws error
    /\ match error with
       | ErrorObject name message =>
           listTools definitions
           = ListFailed InternalError
               ("Failed to list tools: "
                ++ (if String.eqb name EmptyString then message
                    else if String.eqb message EmptyString then name
                    else name ++ ": " ++ message))
           /\ apiTools definitions
              = (500, VObj [("success", VBool false); ("error", VStr message)])
       | NotAnError value =>
           (forall text,
              to_string value = Return text ->
              listTools definitions
              = ListFailed InternalError ("Failed to list tools: " ++ text))
           /\ (forall e, to_string value = Throw e -> listTools definitions = ListUncaught e)
           /\ (forall tools, listTools definitions <> Tools tools)
           /\ apiTools definitions
              = (500, VObj [("success", VBool false); ("error", VStr "Unknown error")])
       end.
Proof.
  intros H. unfold listTools, listTools_all, apiTools.
  repeat match goal with
         | |- context [and_then (definitions ?g) _] =>
             let E := fresh "E" in
             destruct (definitions g) as [?|?error] eqn:E; cbn [and_then];
             [|exists g; eexists; split; [exact E|];
               match goal with
               | |- match ?err with _ => _ end =>
                   destruct err as [name message|value]; cbn [interpolate];
                   [split; reflexivity|];
                   destruct (to_string value) as [text|e];
                   (split; [intros ? Heq; congruence|]);
                   (split; [intros ? Heq; congruence|]);
                   (split; [intros ?; discriminate|reflexivity])
               end]
         end.
  exfalso. destruct group; congruence.
Qed.

(** The blog group throws an [Error] without a message. *)
Lemma X28_catalogue_fails_witness :
  exists failing error,
    blog_down failing = Throws error
    /\ match error with
       | ErrorObject name message =>
           listTools blog_down
           = ListFailed InternalError
               ("Failed to list tools: "
                ++ (if String.eqb name EmptyString then message
                    else if String.eqb message EmptyString then name
                    else name ++ ": " ++ message))
           /\ apiTools blog_down
              = (500, VObj [("success", VBool false); ("error", VStr message)])
       | NotAnError value =>
           (forall text,
              to_string value = Return text ->
              listTools blog_down
              = ListFailed InternalError ("Failed to list tools: " ++ text))
           /\ (forall e, to_string value = Throw e -> listTools blog_down = ListUncaught e)
           /\ (forall tools, listTools blog_down <> Tools tools)
           /\ apiTools blog_down
              = (500, VObj [("success", VBool false); ("error", VStr "Unknown error")])
       end.
Proof.
  apply (X28_catalogue_fails_as_a_whole blog_down blogTools (ErrorObject "Error" EmptyString)).
  reflexivity.
Defined.

Example blog_down_is_reported_by_name :
  listTools blog_down = ListFailed InternalError "Failed to list tools: Error"
  /\ apiTools blog_down
     = (500, VObj [("success", VBool false); ("error", VStr EmptyString)]).
Proof. split; reflexivity. Qed.

(** ** The theorems above at concrete requests *)

(** A POST to the execution endpoint of a tool named after the icon. *)
Lemma X8_favicon_witness :
  calls (run Sample.JSON_parse Sample.toISOString
           (handler Sample.toISOString
              {| method := "POST"; url := "/api/genai/tools/favicon" |})
           [Data Sample.body_no_parameters; EndOfBody])
  = (setCORSHeaders ++ [status 404; end_])%list.
Proof.
  apply (X8_favicon_is_turned_away Sample.JSON_parse Sample.toISOString
           {| method := "POST"; url := "/api/genai/tools/favicon" |}).
  - discriminate.
  - reflexivity.
Defined.

(** A GET to the execution endpoint of [search]. *)
Lemma X9_unknown_endpoint_witness :
  calls (run Sample.JSON_parse Sample.toISOString
           (handler Sample.toISOString {| method := "GET"; url := "/api/genai/tools/search" |})
           [Elapse 10; Tick])
  = (setCORSHeaders ++ [status 404; json not_found_body])%list.
Proof.
  apply (X9_unknown_endpoint Sample.JSON_parse Sample.toISOString
           {| method := "GET"; url := "/api/genai/tools/search" |}).
  - discriminate.
  - simpl. intros [H|[H|[H|[]]]]; discriminate H.
  - reflexivity.
  - intros [H _]. discriminate H.
  - intros [_ H]. discriminate H.
Defined.

(** A DELETE on /sse. *)
Lemma X10_sse_other_method_witness :
  calls (run Sample.JSON_parse Sample.toISOString
           (handler Sample.toISOString {| method := "DELETE"; url := "/sse" |}) [Close])
  = (setCORSHeaders ++ [writeHead 200 sse_headers; status 404; json not_found_body])%list.
Proof.
  apply (X10_sse_other_method Sample.JSON_parse Sample.toISOString "DELETE").
  simpl. intros [H|[H|[H|[]]]]; discriminate H.
Defined.

(** A POST to /health. *)
Lemma X11_health_check_witness :
  calls (run Sample.JSON_parse Sample.toISOString
           (handler Sample.toISOString {| method := "POST"; url := "/health" |}) [])
  = (setCORSHeaders
     ++ [ status 200;
          json (VObj [("status", VStr "healthy");
                      ("server", VStr "ghl-mcp-server");
                      ("version", VStr "1.0.0");
                      ("protocol", VStr "2024-11-05");
                      ("timestamp", VStr (Sample.toISOString 0));
                      ("tools", VArr [VStr "search"; VStr "retrieve"]);
                      ("endpoints",
                       VObj [("mcp", VStr "/sse");
                             ("genai_tools", VStr "/api/genai/tools");
                             ("genai_execute", VStr "/api/genai/tools/{toolName}")])]) ])%list.
Proof.
  apply (X11_health_check Sample.JSON_parse Sample.toISOString "POST" "/health").
  - discriminate.
  - simpl. auto.
Defined.

(** The tool [nope], with empty parameters. *)
Lemma X12_unknown_tool_witness :
  calls (run Sample.JSON_parse Sample.toISOString
           (step Sample.JSON_parse Sample.toISOString
              (run Sample.JSON_parse Sample.toISOString
                 (handler Sample.toISOString (genai_post "nope"))
                 [Data Sample.body_no_parameters])
              EndOfBody)
           [])
  = (setCORSHeaders
     ++ [ status 404;
          json (VObj [("success", VBool false);
                      ("error", VStr ("Tool '" ++ "nope" ++ "' not found"));
                      ("available_tools", VArr [VStr "search"; VStr "retrieve"]);
                      ("metadata",
                       VObj [("tool", VStr "nope");
                             ("timestamp", VStr "1970-01-01T00:00:00.000Z")])]) ])%list
  /\ invoked (run Sample.JSON_parse Sample.toISOString
                (step Sample.JSON_parse Sample.toISOString
                   (run Sample.JSON_parse Sample.toISOString
                      (handler Sample.toISOString (genai_post "nope"))
                      [Data Sample.body_no_parameters])
                   EndOfBody)
                []) = [].
Proof.
  apply (X12_unknown_tool_is_not_found Sample.JSON_parse Sample.toISOString
           (genai_post "nope") "nope" [Data Sample.body_no_parameters] []
           (VObj [("parameters", VObj [])]) (VObj []));
    reflexivity.
Defined.

(** The tool [nope] and the body [{]. *)
Lemma X13_unparseable_body_witness :
  calls (run Sample.JSON_parse Sample.toISOString
           (step Sample.JSON_parse Sample.toISOString
              (run Sample.JSON_parse Sample.toISOString
                 (handler Sample.toISOString (genai_post "nope")) [Data "{"])
              EndOfBody)
           [])
  = (setCORSHeaders
     ++ [ status 400;
          json (VObj [("success", VBool false);
                      ("error", VStr "Invalid JSON in request body");
                      ("details", VStr "Unexpected end of JSON input");
                      ("metadata",
                       VObj [("tool", VStr "nope");
                             ("timestamp", VStr "1970-01-01T00:00:00.000Z")])]) ])%list
  /\ invoked (run Sample.JSON_parse Sample.toISOString
                (step Sample.JSON_parse Sample.toISOString
                   (run Sample.JSON_parse Sample.toISOString
                      (handler Sample.toISOString (genai_post "nope")) [Data "{"])
                   EndOfBody)
                []) = [].
Proof.
  apply (X13_unparseable_body_is_invalid_json Sample.JSON_parse Sample.toISOString
           (genai_post "nope") "nope" [Data "{"] []
           (SyntaxError "Unexpected end of JSON input"));
    reflexivity.
Defined.

(** [search] and the body [null]. *)
Lemma X14_null_body_witness :
  calls (run Sample.JSON_parse Sample.toISOString
           (step Sample.JSON_parse Sample.toISOString
              (run Sample.JSON_parse Sample.toISOString
                 (handler Sample.toISOString (genai_post "search")) [Data "null"])
              EndOfBody)
           [])
  = (setCORSHeaders
     ++ [ status 400;
          json (VObj [("success", VBool false);
                      ("error", VStr "Invalid JSON in request body");
                      ("details",
                       VStr "Cannot read properties of null (reading 'parameters')");
                      ("metadata",
                       VObj [("tool", VStr "search");
                             ("timestamp", VStr "1970-01-01T00:00:00.000Z")])]) ])%list
  /\ invoked (run Sample.JSON_parse Sample.toISOString
                (step Sample.JSON_parse Sample.toISOString
                   (run Sample.JSON_parse Sample.toISOString
                      (handler Sample.toISOString (genai_post "search")) [Data "null"])
                   EndOfBody)
                []) = [].
Proof.
  apply (X14_null_body_is_invalid_json Sample.JSON_parse Sample.toISOString
           (genai_post "search") "search" [Data "null"] []);
    reflexivity.
Defined.

(** [search] with the number 5 for parameters. *)
Lemma X15_primitive_parameters_witness :
  calls (run Bodies.JSON_parse Sample.toISOString
           (step Bodies.JSON_parse Sample.toISOString
              (run Bodies.JSON_parse Sample.toISOString
                 (handler Sample.toISOString (genai_post "search"))
                 [Data Bodies.body_number_parameters])
              EndOfBody)
           [])
  = (setCORSHeaders
     ++ [ status 400;
          json (VObj [("success", VBool false);
                      ("error", VStr "Invalid JSON in request body");
                      ("details",
                       VStr ("Cannot use 'in' operator to search for '"
                             ++ hd EmptyString (required (inputSchema Bodies.search_tool))
                             ++ "' in " ++ show_prim (VNum "5")));
                      ("metadata",
                       VObj [("tool", VStr (name Bodies.search_tool));
                             ("timestamp", VStr "1970-01-01T00:00:00.000Z")])]) ])%list
  /\ invoked (run Bodies.JSON_parse Sample.toISOString
                (step Bodies.JSON_parse Sample.toISOString
                   (run Bodies.JSON_parse Sample.toISOString
                      (handler Sample.toISOString (genai_post "search"))
                      [Data Bodies.body_number_parameters])
                   EndOfBody)
                []) = [].
Proof.
  apply (X15_primitive_parameters_are_invalid_json Bodies.JSON_parse Sample.toISOString
           (genai_post "search") Bodies.search_tool [Data Bodies.body_number_parameters] []
           (VObj [("parameters", VNum "5")]) (VNum "5"));
    try reflexivity.
  simpl. auto.
Defined.

(** [search] with a [query] that is [null]. *)
Lemma X16_primitive_values_witness :
  exists text,
    executeToolLogic "1970-01-01T00:00:00.000Z" (name Bodies.search_tool) (VObj [("query", VNull)])
    = Return text
    /\ calls (run Sample.JSON_parse Sample.toISOString
                (step Sample.JSON_parse Sample.toISOString
                   (run Sample.JSON_parse Sample.toISOString
                      (handler Sample.toISOString (genai_post "search"))
                      [Data Sample.body_null_query])
                   EndOfBody)
                [])
       = (setCORSHeaders
          ++ [ status 200;
               json (VObj [("success", VBool true);
                           ("result", VStr text);
                           ("metadata",
                            VObj [("tool", VStr (name Bodies.search_tool));
                                  ("timestamp", VStr "1970-01-01T00:00:00.000Z");
                                  ("parameters", VObj [("query", VNull)]);
                                  ("execution_time",
                                   VStr "1970-01-01T00:00:00.000Z")])]) ])%list
    /\ invoked (run Sample.JSON_parse Sample.toISOString
                  (step Sample.JSON_parse Sample.toISOString
                     (run Sample.JSON_parse Sample.toISOString
                        (handler Sample.toISOString (genai_post "search"))
                        [Data Sample.body_null_query])
                     EndOfBody)
                  [])
       = [(name Bodies.search_tool, VObj [("query", VNull)])].
Proof.
  apply (X16_primitive_values_give_200 Sample.JSON_parse Sample.toISOString
           (genai_post "search") Bodies.search_tool [Data Sample.body_null_query] []
           (VObj [("parameters", VObj [("query", VNull)])]) [("query", VNull)]);
    try reflexivity.
  - simpl. auto.
  - simpl. intros param [<-|[]]. exists VNull. auto.
Defined.

(** A stream on which the push has run at 100 ms. *)
Lemma X17_nothing_ahead_of_time_witness :
  (100 <= clock (run Sample.JSON_parse Sample.toISOString
                   (handler Sample.toISOString sse_get) [Elapse 100; Tick]))%N.
Proof.
  destruct (X17_nothing_ahead_of_time Sample.JSON_parse Sample.toISOString [Elapse 100; Tick])
    as (Hpush & _ & _).
  apply Hpush. simpl. tauto.
Defined.

(** A stream that has run to its end. *)
Lemma X18_pushed_once_ended_once_witness :
  exists pre,
    calls (run Sample.JSON_parse Sample.toISOString (handler Sample.toISOString sse_get)
             [Elapse 50000; Tick; Tick; Tick])
    = (pre ++ [end_])%list /\ ~ In end_ pre.
Proof.
  destruct (X18_pushed_once_ended_once Sample.JSON_parse Sample.toISOString
              [Elapse 50000; Tick; Tick; Tick]) as (_ & Hend).
  apply Hend. simpl. tauto.
Defined.

(** A stream whose client left at 50 ms and on which nothing ran for a
    minute. *)
Lemma X19_the_deadline_witness :
  In end_
     (calls (run Sample.JSON_parse Sample.toISOString
               (run Sample.JSON_parse Sample.toISOString (handler Sample.toISOString sse_get)
                  [Elapse 50; Close; Elapse 60000])
               (repeat Tick
                  (length (timers (run Sample.JSON_parse Sample.toISOString
                                     (handler Sample.toISOString sse_get)
                                     [Elapse 50; Close; Elapse 60000])))))).
Proof.
  apply (X19_the_deadline_ends_the_stream Sample.JSON_parse Sample.toISOString
           [Elapse 50; Close; Elapse 60000]).
  vm_compute. discriminate.
Defined.

(** A posted [ping], 40 ms and 100 ms after the end of its body. *)
Lemma X21_response_then_end_witness :
  calls (step Sample.JSON_parse Sample.toISOString
           (run Sample.JSON_parse Sample.toISOString (handler Sample.toISOString sse_post)
              [Data Sample.body_ping])
           EndOfBody)
  = (sse_post_head ++ [sse_frame (Shapes.success_response (VNum "1") (VObj []))])%list
  /\ ((100 < 100)%N ->
      calls (run Sample.JSON_parse Sample.toISOString
               (step Sample.JSON_parse Sample.toISOString
                  (run Sample.JSON_parse Sample.toISOString
                     (handler Sample.toISOString sse_post) [Data Sample.body_ping])
                  EndOfBody)
               [Elapse 100; Tick])
      = (sse_post_head ++ [sse_frame (Shapes.success_response (VNum "1") (VObj []))])%list)
  /\ ((100 <= 100)%N ->
      calls (run Sample.JSON_parse Sample.toISOString
               (step Sample.JSON_parse Sample.toISOString
                  (run Sample.JSON_parse Sample.toISOString
                     (handler Sample.toISOString sse_post) [Data Sample.body_ping])
                  EndOfBody)
               (Elapse 100 :: Tick :: [Tick; Close]))
      = (sse_post_head
         ++ [sse_frame (Shapes.success_response (VNum "1") (VObj [])); end_])%list).
Proof.
  apply (X21_response_then_end_after_100ms Sample.JSON_parse Sample.toISOString
           [Data Sample.body_ping] [Tick; Close]
           (VObj [("jsonrpc", VStr "2.0"); ("id", VNum "1"); ("method", VStr "ping")])
           (Shapes.success_response (VNum "1") (VObj [])) 100);
    reflexivity.
Defined.

(** The body [null]. *)
Lemma X22_dispatcher_fault_witness :
  calls (run Sample.JSON_parse Sample.toISOString
           (step Sample.JSON_parse Sample.toISOString
              (run Sample.JSON_parse Sample.toISOString (handler Sample.toISOString sse_post)
                 [Data "null"])
              EndOfBody)
           [Elapse 100; Tick])
  = (sse_post_head
     ++ [ write (SseData (Json (VObj [("jsonrpc", VStr "2.0"); ("id", VNull);
                                      ("error", VObj [("code", VNum "-32700");
                                                      ("message", VStr "Parse error")])])));
          end_ ])%list.
Proof.
  apply (X22_dispatcher_fault_is_a_parse_error Sample.JSON_parse Sample.toISOString
           [Data "null"] [Elapse 100; Tick] VNull
           (TypeError "Cannot read properties of null (reading 'id')"));
    reflexivity.
Defined.

(** An environment with the key and the location, and no base URL. *)
Lemma X26_client_configuration_witness :
  exists config,
    initializeGHLClient
      (fun variable =>
         if String.eqb variable "GHL_API_KEY" then Some "key-1"
         else if String.eqb variable "GHL_LOCATION_ID" then Some "loc-1"
         else None)
    = Return config.
Proof.
  destruct (X26_client_configuration
              (fun variable =>
                 if String.eqb variable "GHL_API_KEY" then Some "key-1"
                 else if String.eqb variable "GHL_LOCATION_ID" then Some "loc-1"
                 else None)) as (_ & Hbuilt & _).
  apply (Hbuilt "key-1" "loc-1"); try reflexivity; discriminate.
Defined.

(** ** The one failure of the tool logic behind the execution endpoint *)

Lemma bind_Throw {A B} (c : Completion A) (k : A -> Completion B) (e : Exn) :
  bind c k = Throw e -> c = Throw e \/ exists a, c = Return a /\ k a = Throw e.
Proof.
  destruct c as [a|e0]; simpl; intros H; [eauto|].
  left. injection H as ->. reflexivity.
Qed.

Lemma to_string_throws :
  forall (v : Val) (e : Exn),
    to_string v = Throw e -> e = TypeError "Cannot convert object to primitive value".
Proof.
  fix IH 1. intros v e. destruct v as [| | b | r | s | items | props]; simpl;
    try discriminate.
  - intros H. apply bind_Throw in H. destruct H as [H | (ss & _ & H)]; [|discriminate H].
    revert e H. induction items as [|x rest IHrest]; intros e H; [discriminate H|].
    apply bind_Throw in H. destruct H as [H | (sx & _ & H)].
    + destruct (nullish x); [discriminate H|]. exact (IH x e H).
    + apply bind_Throw in H. destruct H as [H | (ss & _ & H)]; [|discriminate H].
      exact (IHrest e H).
  - destruct (has_own "toString" props); intros H; [|discriminate H].
    injection H as <-. reflexivity.
Qed.

Section Failure.

Variable JSON_parse : string -> Completion Val.
Variable toISOString : N -> string.

Local Abbreviation step := (Mcp.step JSON_parse toISOString).
Local Abbreviation run := (Mcp.run JSON_parse toISOString).
Local Abbreviation handler := (Mcp.handler toISOString).

(** X29: Behind the execution endpoint the tool logic fails in one way only.
    For a registered tool and a parameters object that holds every required
    name, the answer is 200 with the tool's text, or 500 with the message of
    the failed conversion of an argument to text; the error of a tool that is
    not implemented is never sent. *)
Theorem X29_the_only_500
    (req : Request) (tool : Tool) (before after : list Event)
    (requestData : Val) (props : list (string * Val)) :
  let c := run (handler req) before in
  let now := toISOString (clock c) in
  listeners (handler req) = GenAIBody (name tool) ->
  In tool TOOLS ->
  body_ended c = false ->
  JSON_parse (body c) = Return requestData ->
  parameters_of requestData = Return (VObj props) ->
  (forall param, In param (required (inputSchema tool)) -> has_own param props = true) ->
  (exists text,
     executeToolLogic now (name tool) (VObj props) = Return text /\
     calls (run (step c EndOfBody) after)
     = (setCORSHeaders
        ++ [ status 200;
             json (VObj [("success", VBool true);
                         ("result", VStr text);
                         ("metadata", VObj [("tool", VStr (name tool));
                                            ("timestamp", VStr now);
                                            ("parameters", VObj props);
                                            ("execution_time", VStr now)])]) ])%list)
  \/ calls (run (step c EndOfBody) after)
     = (setCORSHeaders
        ++ [ status 500;
             json (VObj [("success", VBool false);
                         ("error", VStr "Cannot convert object to primitive value");
                         ("metadata", VObj [("tool", VStr (name tool));
                                            ("timestamp", VStr now);
                                            ("parameters", VObj props)])]) ])%list.
Proof.
  intros c now Hreq Hin Hb Hp Hparams Hpresent.
  assert (Hfind : find_tool (name tool) = Some tool).
  { destruct Hin as [<-|[<-|[]]]; reflexivity. }
  assert (Hthrow : forall e,
            executeToolLogic now (name tool) (VObj props) = Throw e ->
            e = TypeError "Cannot convert object to primitive value").
  { intros e H.
    destruct Hin as [<-|[<-|[]]]; unfold executeToolLogic in H;
      cbn [name String.eqb Ascii.eqb Bool.eqb get_prop bind] in H;
      repeat (apply bind_Throw in H; destruct H as [H | (? & _ & H)]);
      try discriminate H; exact (to_string_throws _ _ H). }
  destruct (executeToolLogic now (name tool) (VObj props)) as [text|e] eqn:Ex.
  - left. exists text. split; [reflexivity|].
    apply (genai_end JSON_parse toISOString req (name tool) before after _ [(name tool, VObj props)] Hreq Hb).
    fold c. fold now. unfold genai_on_end. rewrite Hp. cbn [bind]. rewrite Hparams. cbn [bind].
    rewrite Hfind, missing_params_object, (all_present _ _ Hpresent).
    cbn [bind length Nat.ltb Nat.leb]. rewrite Ex. reflexivity.
  - right. rewrite (Hthrow e eq_refl) in Ex.
    apply (genai_end JSON_parse toISOString req (name tool) before after _ [(name tool, VObj props)] Hreq Hb).
    fold c. fold now. unfold genai_on_end. rewrite Hp. cbn [bind]. rewrite Hparams. cbn [bind].
    rewrite Hfind, missing_params_object, (all_present _ _ Hpresent).
    cbn [bind length Nat.ltb Nat.leb]. rewrite Ex. reflexivity.
Qed.

End Failure.

(** [search] with a [query] that is an object with a member [toString]. *)
Lemma X29_the_only_500_witness :
  (exists text,
     executeToolLogic "1970-01-01T00:00:00.000Z" (name Bodies.search_tool)
       (VObj [("query", VObj [("toString", VNum "1")])]) = Return text /\
     calls (run Bodies.JSON_parse Sample.toISOString
              (step Bodies.JSON_parse Sample.toISOString
                 (run Bodies.JSON_parse Sample.toISOString
                    (handler Sample.toISOString (genai_post "search"))
                    [Data Bodies.body_object_query])
                 EndOfBody)
              [])
     = (setCORSHeaders
        ++ [ status 200;
             json (VObj [("success", VBool true);
                         ("result", VStr text);
                         ("metadata",
                          VObj [("tool", VStr (name Bodies.search_tool));
                                ("timestamp", VStr "1970-01-01T00:00:00.000Z");
                                ("parameters",
                                 VObj [("query", VObj [("toString", VNum "1")])]);
                                ("execution_time", VStr "1970-01-01T00:00:00.000Z")])]) ])%list)
  \/ calls (run Bodies.JSON_parse Sample.toISOString
              (step Bodies.JSON_parse Sample.toISOString
                 (run Bodies.JSON_parse Sample.toISOString
                    (handler Sample.toISOString (genai_post "search"))
                    [Data Bodies.body_object_query])
                 EndOfBody)
              [])
     = (setCORSHeaders
        ++ [ status 500;
             json (VObj [("success", VBool false);
                         ("error", VStr "Cannot convert object to primitive value");
                         ("metadata",
                          VObj [("tool", VStr (name Bodies.search_tool));
                                ("timestamp", VStr "1970-01-01T00:00:00.000Z");
                                ("parameters",
                                 VObj [("query", VObj [("toString", VNum "1")])])])]) ])%list.
Proof.
  apply (X29_the_only_500 Bodies.JSON_parse Sample.toISOString
           (genai_post "search") Bodies.search_tool [Data Bodies.body_object_query] []
           (VObj [("parameters", VObj [("query", VObj [("toString", VNum "1")])])])
           [("query", VObj [("toString", VNum "1")])]);
    try reflexivity.
  - simpl. auto.
  - simpl. intros param [<-|[]]. reflexivity.
Defined.

(** The failure does occur: that request is answered 500. *)
Example object_query_is_answered_500 :
  calls (run Bodies.JSON_parse Sample.toISOString
           (handler Sample.toISOString (genai_post "search"))
           [Data Bodies.body_object_query; EndOfBody])
  = (setCORSHeaders
     ++ [ status 500;
          json (VObj [("success", VBool false);
                      ("error", VStr "Cannot convert object to primitive value");
                      ("metadata",
                       VObj [("tool", VStr "search");
                             ("timestamp", VStr "1970-01-01T00:00:00.000Z");
                             ("parameters",
                              VObj [("query", VObj [("toString", VNum "1")])])])]) ])%list.
Proof. reflexivity. Qed.
